(** * Smart Recruiter: the candidate-screening pipeline

    A shallow embedding of the scoring, ranking and status-transition code of
    the recruitment backend, and the properties its specification states.

    Sources embedded here:
    - [smart_recruiter/crews/screening_crew.py]
    - [smart_recruiter/tools/skill_matcher.py], [tools/resume_parser.py]
    - [smart_recruiter/services/email_service.py]
    - [smart_recruiter/api/routes/screening.py], [apply.py], [candidates.py]
    - [smart_recruiter/models/candidate.py], [models/job.py]
    - [smart_recruiter/database/models.py], [database/connection.py]
    - [smart_recruiter/config/settings.py]

    What lies outside the process (the agents, the mail service, the clock,
    the random identifiers, the parsing of JSON and of resume files) is a
    parameter of the code that calls it.

    Conventions.  Python text is a Rocq [string], one character per code
    point below 256.  Python [int] is [Z].  A Python call that can raise is a
    function into [outcome]; a [try]/[except] is a match on it. *)

From Stdlib Require Import ZArith List String Ascii Lia Bool PrimFloat Uint63.
From Stdlib Require Import Sorting.Permutation Sorting.Sorted.
From stdpp Require Import base gmap strings list pretty.

Set Warnings "-inexact-float".

Local Open Scope string_scope.

(** ** Python values and results *)

Inductive outcome (A : Type) : Type :=
| Return (a : A)
| Raise (exc : string).
Arguments Return {A} a.
Arguments Raise {A} exc.

#[local] Unset Elimination Schemes.
Inductive pyval : Type :=
| PNone
| PBool (b : bool)
| PInt (z : Z)
| PStr (s : string)
| PList (l : list pyval)
| PDict (l : list (string * pyval)).
#[local] Set Elimination Schemes.

(** A Python [dict] with string keys. *)
Abbreviation dict := (gmap string pyval).

(** A dict display [{k1: v1, ...}]. *)
Definition dict_of (items : list (string * pyval)) : dict := list_to_map items.

(** [d.get(key, default)]. *)
Definition get (d : dict) (key : string) (default : pyval) : pyval :=
  match d !! key with
  | Some v => v
  | None => default
  end.

(** Sequencing of calls that can raise. *)
#[global] Instance outcome_ret : MRet outcome := fun A a => Return a.

#[global] Instance outcome_bind : MBind outcome := fun A B k m =>
  match m with
  | Return a => k a
  | Raise e => Raise e
  end.

Fixpoint mapM {A B : Type} (f : A -> outcome B) (l : list A) : outcome (list B) :=
  match l with
  | [] => Return []
  | x :: l' => y ← f x; ys ← mapM f l'; Return (y :: ys)
  end.

Fixpoint foldM {A S : Type} (f : S -> A -> outcome S) (s : S) (l : list A) : outcome S :=
  match l with
  | [] => Return s
  | x :: l' => s' ← f s x; foldM f s' l'
  end.

Definition newline : string := String (ascii_of_nat 10) "".

(** ** Text primitives of the Python runtime used by the sources *)

Module Py.

Definition code (c : ascii) : N := N_of_ascii c.

Definition between (lo hi : N) (c : ascii) : bool :=
  ((lo <=? code c) && (code c <=? hi))%N.

(** [str.isspace], which is also the class [\s] of [re] on [str]. *)
Definition isspace (c : ascii) : bool :=
  between 9 13 c || between 28 32 c || (code c =? 133)%N || (code c =? 160)%N.

(** The class [\d]. *)
Definition isdigit (c : ascii) : bool := between 48 57 c.

Definition lower_char (c : ascii) : ascii :=
  if between 65 90 c || (between 192 222 c && negb (code c =? 215)%N)
  then ascii_of_N (code c + 32)
  else c.

(** [str.lower]. *)
Fixpoint lower (s : string) : string :=
  match s with
  | EmptyString => EmptyString
  | String c s' => String (lower_char c) (lower s')
  end.

Fixpoint lstrip (s : string) : string :=
  match s with
  | EmptyString => EmptyString
  | String c s' => if isspace c then lstrip s' else s
  end.

Fixpoint rstrip (s : string) : string :=
  match s with
  | EmptyString => EmptyString
  | String c s' =>
      match rstrip s' with
      | EmptyString => if isspace c then EmptyString else String c EmptyString
      | r => String c r
      end
  end.

(** [str.strip] with no argument. *)
Definition strip (s : string) : string := rstrip (lstrip s).

(** [sub in s]. *)
Fixpoint contains (sub s : string) : bool :=
  String.prefix sub s ||
  match s with
  | EmptyString => false
  | String _ s' => contains sub s'
  end.

(** [s.find(sub)], with [None] for -1. *)
Fixpoint find (sub s : string) : option nat :=
  if String.prefix sub s then Some 0
  else match s with
       | EmptyString => None
       | String _ s' => S <$> find sub s'
       end.

(** [s.split(sep)] for a separator that is not empty; [skip] characters
    still belong to the separator just met. *)
Fixpoint split_from (sep : string) (skip : nat) (s : string) : list string :=
  match s with
  | EmptyString => [EmptyString]
  | String c s' =>
      match skip with
      | S skip' => split_from sep skip' s'
      | O =>
          if String.prefix sep s
          then EmptyString :: split_from sep (Nat.pred (String.length sep)) s'
          else match split_from sep 0 s' with
               | [] => [String c EmptyString]
               | l :: ls => String c l :: ls
               end
      end
  end.

Definition split (sep s : string) : list string := split_from sep 0 s.

Fixpoint drop (n : nat) (s : string) : string :=
  match n, s with
  | S n', String _ s' => drop n' s'
  | _, _ => s
  end.

Fixpoint take (n : nat) (s : string) : string :=
  match n, s with
  | S n', String c s' => String c (take n' s')
  | _, _ => EmptyString
  end.

Fixpoint all_chars (p : ascii -> bool) (s : string) : bool :=
  match s with
  | EmptyString => true
  | String c s' => p c && all_chars p s'
  end.

Definition all_digits (s : string) : bool := all_chars isdigit s.

(** Whether the first character, if any, is in the class [p]. *)
Definition starts_in (p : ascii -> bool) (s : string) : bool :=
  match s with
  | EmptyString => false
  | String c _ => p c
  end.

Fixpoint digits_value (acc : Z) (s : string) : Z :=
  match s with
  | EmptyString => acc
  | String c s' => digits_value (10 * acc + (Z.of_N (code c) - 48)) s'
  end.

Definition is_digit_string (s : string) : bool :=
  negb (String.eqb s EmptyString) && all_digits s.

(** [sys.int_max_str_digits] as CPython sets it by default (3.11, and
    the security releases of 3.7 to 3.10): the longest decimal text [int]
    converts. *)
Definition int_max_str_digits : Z := 4300.

(** [int(x)] where [x] is [match.group(1)]: [None] (a group that took no
    part in the match) is a [TypeError]; a string of decimal digits is its
    value, unless it has more than [int_max_str_digits] digits, leading
    zeros counted, which is a [ValueError].  Any other text is reported as
    [ValueError] too: [int] also reads signs, blanks and underscores, which
    [\d+] never captures. *)
Definition int (x : option string) : outcome Z :=
  match x with
  | None => Raise "TypeError"
  | Some s =>
      if is_digit_string s then
        if (int_max_str_digits <? Z.of_nat (String.length s))%Z
        then Raise "ValueError"
        else Return (digits_value 0 s)
      else Raise "ValueError"
  end.

(** [s * n]. *)
Fixpoint repeat (s : string) (n : nat) : string :=
  match n with
  | O => EmptyString
  | S n' => s +:+ repeat s n'
  end.

Definition upper_ascii (c : ascii) : ascii :=
  if between 97 122 c then ascii_of_N (code c - 32) else c.

Definition is_cased_ascii (c : ascii) : bool := between 65 90 c || between 97 122 c.

(** [str.title] on ASCII text (it is applied to the fixed skill vocabulary
    only): a cased character is upper-cased after an uncased one and
    lower-cased after a cased one. *)
Fixpoint title_from (prev_cased : bool) (s : string) : string :=
  match s with
  | EmptyString => EmptyString
  | String c s' =>
      String (if prev_cased then lower_char c else upper_ascii c)
             (title_from (is_cased_ascii c) s')
  end.

Definition title (s : string) : string := title_from false s.

(** [str.isalnum] on one character. *)
Definition isalnum (c : ascii) : bool :=
  between 48 57 c || between 65 90 c || between 97 122 c
  || (code c =? 170)%N || between 178 179 c || (code c =? 181)%N
  || between 185 186 c || between 188 190 c
  || between 192 214 c || between 216 246 c || between 248 255 c.

Fixpoint filter_chars (keep : ascii -> bool) (s : string) : string :=
  match s with
  | EmptyString => EmptyString
  | String c s' => if keep c then String c (filter_chars keep s') else filter_chars keep s'
  end.

(** [bool(v)]. *)
Definition truthy (v : pyval) : bool :=
  match v with
  | PNone => false
  | PBool b => b
  | PInt z => negb (z =? 0)%Z
  | PStr s => negb (String.eqb s EmptyString)
  | PList l => match l with [] => false | _ => true end
  | PDict l => match l with [] => false | _ => true end
  end.

(** [v >= n] for an [int] [n]: a number is compared, anything else is a
    [TypeError]. *)
Definition ge (v : pyval) (n : Z) : outcome bool :=
  match v with
  | PInt z => Return (n <=? z)%Z
  | PBool b => Return (n <=? Z.b2z b)%Z
  | _ => Raise "TypeError"
  end.

(** [str(v)] inside an f-string; a container is not spelled out. *)
Definition str (v : pyval) : string :=
  match v with
  | PNone => "None"
  | PBool true => "True"
  | PBool false => "False"
  | PInt z => pretty z
  | PStr s => s
  | PList _ => "[...]"
  | PDict _ => "{...}"
  end.

End Py.

(** ** The fragment of [re] the sources use

    Literals, greedy repetition of a character class, sequence, ordered
    alternation, greedy option and one capturing group, matched by
    backtracking in the order Python's engine explores. *)

Module Re.

Inductive regex : Type :=
| Lit (l : string)
| Star (p : ascii -> bool)
| Plus (p : ascii -> bool)
| Seq (r1 r2 : regex)
| Alt (r1 r2 : regex)
| Opt (r : regex)
| Group (r : regex).

Fixpoint strip_prefix (l s : string) : option string :=
  match l, s with
  | EmptyString, _ => Some s
  | String a l', String b s' => if Ascii.eqb a b then strip_prefix l' s' else None
  | String _ _, EmptyString => None
  end.

Section Matcher.
Context {A : Type}.

(** Longest run first, then one character less at a time. *)
Fixpoint star (p : ascii -> bool) (s : string) (k : string -> option A) : option A :=
  match s with
  | String c s' =>
      if p c then
        match star p s' k with
        | Some a => Some a
        | None => k s
        end
      else k s
  | EmptyString => k s
  end.

(** [rmatch r s g k]: match [r] at the start of [s]; [g] is group 1 so
    far; [k] continues with the rest of the text and group 1. *)
Fixpoint rmatch (r : regex) (s : string) (g : option string)
         (k : string -> option string -> option A) : option A :=
  match r with
  | Lit l =>
      match strip_prefix l s with
      | Some rest => k rest g
      | None => None
      end
  | Star p => star p s (fun rest => k rest g)
  | Plus p =>
      match s with
      | String c s' => if p c then star p s' (fun rest => k rest g) else None
      | EmptyString => None
      end
  | Seq r1 r2 => rmatch r1 s g (fun rest g' => rmatch r2 rest g' k)
  | Alt r1 r2 =>
      match rmatch r1 s g k with
      | Some a => Some a
      | None => rmatch r2 s g k
      end
  | Opt r1 =>
      match rmatch r1 s g k with
      | Some a => Some a
      | None => k s g
      end
  | Group r1 =>
      rmatch r1 s g
        (fun rest _ => k rest (Some (Py.take (String.length s - String.length rest) s)))
  end.
End Matcher.

(** [re.search(r, s)]: the leftmost match; the result is its group 1. *)
Fixpoint search (r : regex) (s : string) : option (option string) :=
  match rmatch r s None (fun _ g => Some g) with
  | Some g => Some g
  | None =>
      match s with
      | EmptyString => None
      | String _ s' => search r s'
      end
  end.

(** Length of the match of [r] at the start of [s]. *)
Definition match_len (r : regex) (s : string) : option nat :=
  rmatch r s None (fun rest _ => Some (String.length s - String.length rest)).

(** [len(re.findall(r, s))]: matches are counted left to right and do not
    overlap; [skip] characters still belong to the previous match. *)
Fixpoint count_from (r : regex) (skip : nat) (s : string) : nat :=
  match skip with
  | S skip' =>
      match s with
      | EmptyString => 0
      | String _ s' => count_from r skip' s'
      end
  | O =>
      match match_len r s with
      | Some n =>
          S (match s with
             | EmptyString => 0
             | String _ s' => count_from r (Nat.pred n) s'
             end)
      | None =>
          match s with
          | EmptyString => 0
          | String _ s' => count_from r 0 s'
          end
      end
  end.

Definition findall_len (r : regex) (s : string) : nat := count_from r 0 s.

(** Every group of the expression is [(\d+)]. *)
Fixpoint digit_groups (r : regex) : Prop :=
  match r with
  | Lit _ | Star _ | Plus _ => True
  | Seq r1 r2 | Alt r1 r2 => digit_groups r1 /\ digit_groups r2
  | Opt r1 => digit_groups r1
  | Group r1 => r1 = Plus Py.isdigit
  end.

(** Every match of the expression goes through a group. *)
Fixpoint captures (r : regex) : bool :=
  match r with
  | Lit _ | Star _ | Plus _ | Opt _ => false
  | Seq r1 r2 => captures r1 || captures r2
  | Alt r1 r2 => captures r1 && captures r2
  | Group _ => true
  end.

(** What group 1 may hold: digits, or nothing when [may_be_unset]. *)
Definition group_ok (may_be_unset : bool) (g : option string) : Prop :=
  match g with
  | Some ds => Py.is_digit_string ds = true
  | None => may_be_unset = true
  end.

(** Whether the character [c] occurs in [s]. *)
Fixpoint occurs (c : ascii) (s : string) : bool :=
  match s with
  | EmptyString => false
  | String x s' => Ascii.eqb c x || occurs c s'
  end.

(** First characters of literals, through one of which every match of the
    expression goes; [None] where the expression promises no literal. *)
Fixpoint literal_heads (r : regex) : option (list ascii) :=
  match r with
  | Lit (String c _) => Some [c]
  | Lit EmptyString | Star _ | Plus _ | Opt _ => None
  | Seq r1 r2 =>
      match literal_heads r1 with
      | Some cs => Some cs
      | None => literal_heads r2
      end
  | Alt r1 r2 =>
      match literal_heads r1, literal_heads r2 with
      | Some cs1, Some cs2 => Some (cs1 ++ cs2)%list
      | _, _ => None
      end
  | Group r1 => literal_heads r1
  end.

(** Group 1, where set, has at most [n] characters. *)
Definition group_within (n : nat) (g : option string) : Prop :=
  match g with
  | Some ds => (String.length ds <= n)%nat
  | None => True
  end.

Fixpoint alts (ls : list string) : regex :=
  match ls with
  | [] => Lit EmptyString
  | [l] => Lit l
  | l :: ls' => Alt (Lit l) (alts ls')
  end.

End Re.

(** ** [crews/screening_crew.py] *)

Module ScreeningCrew.
Import Re.

(** The character class of blanks and the colon. *)
Definition space_or_colon (c : ascii) : bool := Py.isspace c || Ascii.eqb c ":".

Definition digits_group : regex := Group (Plus Py.isdigit).

(** A pattern as written in the source, next to its syntax tree. *)
Record pattern : Type := { source : string; compiled : regex }.

Definition match_score_pattern : pattern :=
  {| source := "match_score[\s:]*(\d+)";
     compiled := Seq (Lit "match_score") (Seq (Star space_or_colon) digits_group) |}.

Definition patterns : list pattern :=
  [ {| source := "(?:final\s*)?(?:match\s*)?score[\s:]+(\d+)";
       compiled :=
         Seq (Opt (Seq (Lit "final") (Star Py.isspace)))
           (Seq (Opt (Seq (Lit "match") (Star Py.isspace)))
              (Seq (Lit "score") (Seq (Plus space_or_colon) digits_group))) |};
    {| source := "(\d+)\s*(?:%|/100|out of 100)";
       compiled :=
         Seq digits_group
           (Seq (Star Py.isspace)
              (Alt (Lit "%") (Alt (Lit "/100") (Lit "out of 100")))) |};
    {| source := "rating[\s:]+(\d+)";
       compiled := Seq (Lit "rating") (Seq (Plus space_or_colon) digits_group) |};
    {| source := "overall[\s:]+(\d+)";
       compiled := Seq (Lit "overall") (Seq (Plus space_or_colon) digits_group) |};
    {| source := "\*\*(\d+)\*\*\s*(?:%|/100)?";
       compiled :=
         Seq (Lit "**")
           (Seq digits_group
              (Seq (Lit "**")
                 (Seq (Star Py.isspace) (Opt (Alt (Lit "%") (Lit "/100")))))) |}
  ].

Definition match_words : regex :=
  alts ["meets"; "has"; "matches"; "qualified"; "proficient"].

Definition miss_words : regex :=
  alts ["missing"; "lacks"; "no experience"; "not found"; "does not have"; "gap"].

(** A pattern whose group 1 is [(\d+)] and takes part in every match. *)
Definition well_grouped (p : pattern) : Prop :=
  digit_groups (compiled p) /\ captures (compiled p) = true.

(** The number a pattern finds, in range or not: [int(match.group(1))] at
    the leftmost match, which raises on more digits than [int] converts. *)
Definition number_found (p : pattern) (result_lower : string) : outcome (option Z) :=
  match search (compiled p) result_lower with
  | Some g =>
      match Py.int g with
      | Return score => Return (Some score)
      | Raise e => Raise e
      end
  | None => Return None
  end.

Definition in_range (score : Z) : bool := (0 <=? score)%Z && (score <=? 100)%Z.

(** The leftmost match of the pattern captures more digits than [int]
    converts. *)
Definition exceeds_int_limit (p : pattern) (result_lower : string) : bool :=
  match search (compiled p) result_lower with
  | Some (Some digits) => (Py.int_max_str_digits <? Z.of_nat (String.length digits))%Z
  | _ => false
  end.

(** Every numeric pattern gets a number from [int], if it matches at all,
    and none of these numbers is between 0 and 100. *)
Definition no_numeric_score (result : string) : bool :=
  List.forallb
    (fun p => match number_found p (Py.lower result) with
              | Return (Some score) => negb (in_range score)
              | Return None => true
              | Raise _ => false
              end)
    (match_score_pattern :: patterns).

(** The hypothesis of the keyword fallback as the specification words it:
    none of the numeric patterns yields a number between 0 and 100, the
    number being the value of the digits captured, however many they
    are. *)
Definition yields_no_score (result : string) : bool :=
  List.forallb
    (fun p => match search (compiled p) (Py.lower result) with
              | Some (Some digits) => negb (in_range (Py.digits_value 0 digits))
              | _ => true
              end)
    (match_score_pattern :: patterns).

(** One [re.search] and the test on its number:
    [Return (Some score)] is the [return score]; [Return None] falls
    through to the code that follows. *)
Definition score_by (p : pattern) (result_lower : string) : outcome (option Z) :=
  match search (compiled p) result_lower with
  | Some g =>
      match Py.int g with
      | Return score =>
          if (0 <=? score)%Z && (score <=? 100)%Z then Return (Some score)
          else Return None
      | Raise e => Raise e
      end
  | None => Return None
  end.

(** The [for pattern in patterns] loop. *)
Fixpoint first_score (ps : list pattern) (result_lower : string) : outcome (option Z) :=
  match ps with
  | [] => Return None
  | p :: ps' =>
      match score_by p result_lower with
      | Return None => first_score ps' result_lower
      | r => r
      end
  end.

Definition base_score (matches misses : nat) : Z :=
  if (matches <? misses)%nat then 45
  else if (misses * 2 <? matches)%nat then 70
  else 55.

(** The part of [extract_score_from_result] after the numeric patterns. *)
Definition keyword_score (result_lower : string) : Z :=
  let matches := findall_len match_words result_lower in
  let misses := findall_len miss_words result_lower in
  let base_score := base_score matches misses in
  if Py.contains "strong hire" result_lower then Z.min (base_score + 20) 90
  else if Py.contains "no hire" result_lower || Py.contains "reject" result_lower
       then Z.max (base_score - 20) 25
  else if Py.contains "hire" result_lower then Z.min (base_score + 10) 80
  else if Py.contains "maybe" result_lower || Py.contains "consider" result_lower
       then base_score
  else base_score.

Definition extract_score_from_result (result : string) : outcome Z :=
  let result_lower := Py.lower result in
  match score_by match_score_pattern result_lower with
  | Raise e => Raise e
  | Return (Some score) => Return score
  | Return None =>
      match first_score patterns result_lower with
      | Raise e => Raise e
      | Return (Some score) => Return score
      | Return None => Return (keyword_score result_lower)
      end
  end.

Definition extract_recommendation (result : string) : string :=
  let result_lower := Py.lower result in
  if Py.contains "strong hire" result_lower then "strong_hire"
  else if Py.contains "strong no hire" result_lower then "strong_no_hire"
  else if Py.contains "no hire" result_lower then "no_hire"
  else if Py.contains "hire" result_lower then "hire"
  else "review".

(** *** The crew calls

    A job requirement is [models.job.Requirement]; the dicts derived from
    a description carry no level in the quick variant. *)

Record requirement : Type :=
  { skill : string; level : option string; required : bool }.

(** What a crew is given: the values interpolated into its task
    descriptions. *)
Inductive crew_request : Type :=
| FullScreening (resume_path : string) (job_requirements : list requirement)
    (job_description : string) (min_experience_years : Z) (experience_level : string)
| QuickScreening (resume_text : string) (requirements_list : string)
    (min_experience_years : Z).

Definition common_skills_full : list string :=
  [ "python"; "javascript"; "java"; "c++"; "go"; "rust"; "typescript";
    "react"; "angular"; "vue"; "node"; "django"; "flask"; "fastapi";
    "aws"; "gcp"; "azure"; "docker"; "kubernetes"; "terraform";
    "sql"; "postgresql"; "mongodb"; "redis"; "elasticsearch";
    "machine learning"; "deep learning"; "nlp"; "computer vision";
    "pytorch"; "tensorflow"; "scikit-learn"; "pandas"; "numpy";
    "api"; "rest"; "graphql"; "microservices"; "distributed systems";
    "ci/cd"; "git"; "agile"; "scrum"; "leadership"; "communication" ].

Definition common_skills_quick : list string :=
  [ "python"; "javascript"; "java"; "c++"; "go"; "rust"; "typescript";
    "react"; "angular"; "vue"; "node"; "django"; "flask"; "fastapi";
    "aws"; "gcp"; "azure"; "docker"; "kubernetes"; "machine learning";
    "deep learning"; "nlp"; "sql"; "api"; "rest"; "microservices" ].

Definition found_skills (common_skills : list string) (job_description : string)
  : list string :=
  let desc_lower := Py.lower job_description in
  List.filter (fun s => Py.contains s desc_lower) common_skills.

Fixpoint join (sep : string) (parts : list string) : string :=
  match parts with
  | [] => EmptyString
  | [x] => x
  | x :: rest => x +:+ sep +:+ join sep rest
  end.

Record candidate_ref : Type := { id : string; resume_path : string }.

(** Stable sort by decreasing key: [list.sort(key=..., reverse=True)]. *)
Fixpoint insert_desc {A : Type} (key : A -> Z) (x : A) (l : list A) : list A :=
  match l with
  | [] => [x]
  | y :: l' => if (key x <? key y)%Z then y :: insert_desc key x l' else x :: l
  end.

Fixpoint sort_desc {A : Type} (key : A -> Z) (l : list A) : list A :=
  match l with
  | [] => []
  | x :: l' => insert_desc key x (sort_desc key l')
  end.

(** The sort key [x.get('match_score', 0)] as a number; an [int] cannot
    be ordered against [None], text or a container. *)
Definition match_score_key (x : dict) : outcome Z :=
  match get x "match_score" (PInt 0) with
  | PInt z => Return z
  | PBool b => Return (Z.b2z b)
  | _ => Raise "TypeError"
  end.

Fixpoint all_keys (results : list dict) : outcome (list (Z * dict)) :=
  match results with
  | [] => Return []
  | x :: rest =>
      match match_score_key x, all_keys rest with
      | Return z, Return keyed => Return ((z, x) :: keyed)
      | Raise e, _ => Raise e
      | _, Raise e => Raise e
      end
  end.

Definition sort_by_match_score (results : list dict) : outcome (list dict) :=
  match all_keys results with
  | Return keyed => Return (List.map snd (sort_desc fst keyed))
  | Raise e => Raise e
  end.

Section Crew.
(** The world outside the process: the file system and the agents. *)
Variable World : Type.
Variable path_exists : World -> string -> bool.
(** [str(crew.kickoff())]: the agents' text, or the exception raised. *)
Variable kickoff : World -> crew_request -> outcome string * World.

Definition completed (result_str : string) : outcome dict :=
  match extract_score_from_result result_str with
  | Return match_score =>
      Return (dict_of [ ("analysis", PStr result_str);
                        ("match_score", PInt match_score);
                        ("status", PStr "completed");
                        ("recommendation", PStr (extract_recommendation result_str)) ])
  | Raise e => Raise e
  end.

Definition failed (e : string) (match_score : Z) : dict :=
  dict_of [ ("error", PStr e); ("match_score", PInt match_score);
            ("status", PStr "failed") ].

(** [try: ... except Exception as e: ...] around the kickoff and the
    extraction. *)
Definition run_crew (w : World) (request : crew_request) (score_on_error : Z)
  : outcome dict * World :=
  match kickoff w request with
  | (Return result_str, w') =>
      match completed result_str with
      | Return d => (Return d, w')
      | Raise e => (Return (failed e score_on_error), w')
      end
  | (Raise e, w') => (Return (failed e score_on_error), w')
  end.

Definition screen_candidate (w : World) (resume_path : string)
           (job_requirements : list requirement) (job_description : string)
           (min_experience_years : Z) (experience_level : string)
  : outcome dict * World :=
  if negb (path_exists w resume_path) then
    (Return (dict_of [ ("error", PStr ("Resume not found: " +:+ resume_path));
                       ("match_score", PInt 0);
                       ("status", PStr "failed") ]), w)
  else
    let job_requirements :=
      match job_requirements with
      | [] =>
          List.map (fun s => {| skill := Py.title s; level := Some "intermediate";
                                required := true |})
                   (List.firstn 10 (found_skills common_skills_full job_description))
      | _ => job_requirements
      end in
    run_crew w (FullScreening resume_path job_requirements job_description
                              min_experience_years experience_level) 0.

Definition quick_screen_candidate (w : World) (resume_text : string)
           (job_requirements : list requirement) (job_description : string)
           (min_experience_years : Z)
  : outcome dict * World :=
  let job_requirements :=
    match job_requirements with
    | [] =>
        List.map (fun s => {| skill := Py.title s; level := None; required := true |})
                 (List.firstn 10 (found_skills common_skills_quick job_description))
    | _ => job_requirements
    end in
  let requirements_list := join ", " (List.map skill job_requirements) in
  run_crew w (QuickScreening (Py.take 4000 resume_text) requirements_list
                             min_experience_years) 50.

(** The [for candidate in candidates] loop of
    [screen_multiple_candidates]; an exception leaves the loop. *)
Fixpoint screen_each (w : World) (candidates : list candidate_ref)
         (job_requirements : list requirement) (job_description : string)
         (min_experience_years : Z) (experience_level : string)
  : outcome (list dict) * World :=
  match candidates with
  | [] => (Return [], w)
  | candidate :: rest =>
      match screen_candidate w (resume_path candidate) job_requirements
              job_description min_experience_years experience_level with
      | (Return result, w1) =>
          let result := <["candidate_id" := PStr (id candidate)]> result in
          match screen_each w1 rest job_requirements job_description
                  min_experience_years experience_level with
          | (Return results, w2) => (Return (result :: results), w2)
          | (Raise e, w2) => (Raise e, w2)
          end
      | (Raise e, w1) => (Raise e, w1)
      end
  end.

Definition screen_multiple_candidates (w : World) (candidates : list candidate_ref)
           (job_requirements : list requirement) (job_description : string)
           (min_experience_years : Z) (experience_level : string)
  : outcome (list dict) * World :=
  match screen_each w candidates job_requirements job_description
          min_experience_years experience_level with
  | (Return results, w') => (sort_by_match_score results, w')
  | (Raise e, w') => (Raise e, w')
  end.
End Crew.

(** A failure payload: an error message, status "failed", a numeric score. *)
Definition is_failure (d : dict) : Prop :=
  (exists msg, d !! "error" = Some (PStr msg))
  /\ d !! "status" = Some (PStr "failed")
  /\ (exists score, d !! "match_score" = Some (PInt score)).

(** The score a result dict carries, 0 when it carries none. *)
Definition score_of (d : dict) : Z :=
  match d !! "match_score" with
  | Some (PInt z) => z
  | _ => 0%Z
  end.

(** *** The two entry points on any list of dicts

    [screen_candidate] and [quick_screen_candidate] above are the calls
    the request handlers make: the requirements are [Requirement] rows,
    and the agents, the tasks and the crew get built.  [Entry] follows the
    same lines of the source on requirements that are dicts of any
    content, as the annotation [List[Dict]] has it, and with what runs
    before the [try]: in the quick variant the [join] over
    [r.get("skill", "")], in both variants the construction of agents,
    tasks and crew. *)

Module Entry.

(** What agents, tasks and crew are built from: the values interpolated
    into the task descriptions. *)
Inductive brief : Type :=
| Full (resume_path : string) (job_requirements : list dict)
    (job_description : string) (min_experience_years : Z) (experience_level : string)
| Quick (resume_text : string) (requirements_list : string)
    (min_experience_years : Z).

(** An item of [", ".join(...)]: anything but text is a [TypeError]. *)
Definition join_item (v : pyval) : outcome string :=
  match v with
  | PStr s => Return s
  | _ => Raise "TypeError"
  end.


Section Crew.
Variable World : Type.
Variable path_exists : World -> string -> bool.
(** [create_*_agent()], [Task(...)] and [Crew(...)]: the crew is built, or
    an exception is raised.  [json.dumps(job_requirements)], part of the
    second task's description, does not fail on a value of [pyval]. *)
Variable build : World -> brief -> outcome unit * World.
(** [str(crew.kickoff())]: the agents' text, or the [Exception] raised,
    which is what the [except] clause catches. *)
Variable kickoff : World -> brief -> outcome string * World.

(** [try: ... except Exception as e: ...] around the kickoff and the
    extraction. *)
Definition try_kickoff (w : World) (b : brief) (score_on_error : Z)
  : outcome dict * World :=
  match kickoff w b with
  | (Return result_str, w') =>
      match completed result_str with
      | Return d => (Return d, w')
      | Raise e => (Return (failed e score_on_error), w')
      end
  | (Raise e, w') => (Return (failed e score_on_error), w')
  end.

(** The construction, outside the [try], and then the [try]. *)
Definition run_crew (w : World) (b : brief) (score_on_error : Z)
  : outcome dict * World :=
  match build w b with
  | (Return _, w') => try_kickoff w' b score_on_error
  | (Raise e, w') => (Raise e, w')
  end.

Definition screen_candidate (w : World) (resume_path : string)
           (job_requirements : list dict) (job_description : string)
           (min_experience_years : Z) (experience_level : string)
  : outcome dict * World :=
  if negb (path_exists w resume_path) then
    (Return (dict_of [ ("error", PStr ("Resume not found: " +:+ resume_path));
                       ("match_score", PInt 0);
                       ("status", PStr "failed") ]), w)
  else
    let job_requirements :=
      match job_requirements with
      | [] =>
          List.map (fun s => dict_of [ ("skill", PStr (Py.title s));
                                       ("level", PStr "intermediate");
                                       ("required", PBool true) ])
                   (List.firstn 10 (found_skills common_skills_full job_description))
      | _ => job_requirements
      end in
    run_crew w (Full resume_path job_requirements job_description
                     min_experience_years experience_level) 0.

Definition quick_screen_candidate (w : World) (resume_text : string)
           (job_requirements : list dict) (job_description : string)
           (min_experience_years : Z)
  : outcome dict * World :=
  let job_requirements :=
    match job_requirements with
    | [] =>
        List.map (fun s => dict_of [ ("skill", PStr (Py.title s));
                                     ("required", PBool true) ])
                 (List.firstn 10 (found_skills common_skills_quick job_description))
    | _ => job_requirements
    end in
  match mapM (fun r => join_item (get r "skill" (PStr ""))) job_requirements with
  | Return skills =>
      let requirements_list := join ", " skills in
      run_crew w (Quick (Py.take 4000 resume_text) requirements_list
                        min_experience_years) 50
  | Raise e => (Raise e, w)
  end.
End Crew.

End Entry.

(** The dict of a requirement row, with the keys the crews read. *)
Definition row (r : requirement) : dict :=
  dict_of ((("skill", PStr (skill r))
            :: match level r with
               | Some l => [ ("level", PStr l) ]
               | None => []
               end)
           ++ [ ("required", PBool (required r)) ]).

(** What a request of the handlers' calls is as a brief. *)
Definition brief_of (request : crew_request) : Entry.brief :=
  match request with
  | FullScreening resume_path job_requirements job_description min_experience_years
      experience_level =>
      Entry.Full resume_path (List.map row job_requirements) job_description
        min_experience_years experience_level
  | QuickScreening resume_text requirements_list min_experience_years =>
      Entry.Quick resume_text requirements_list min_experience_years
  end.

End ScreeningCrew.

(** ** [tools/skill_matcher.py] *)

Module SkillMatcher.

(** A value [json.loads] returns. *)
#[local] Unset Elimination Schemes.
Inductive json : Type :=
| JNull
| JBool (b : bool)
| JInt (z : Z)
| JFloat (f : float)
| JStr (s : string)
| JArr (l : list json)
| JObj (items : list (string * json)).
#[local] Set Elimination Schemes.

Fixpoint assoc {V : Type} (key : string) (items : list (string * V)) : option V :=
  match items with
  | [] => None
  | (k, v) :: rest => if String.eqb k key then Some v else assoc key rest
  end.

(** [bool(v)]. *)
Definition truthy (v : json) : bool :=
  match v with
  | JNull => false
  | JBool b => b
  | JInt z => negb (z =? 0)%Z
  | JFloat f => negb (PrimFloat.eqb f 0%float)
  | JStr s => negb (String.eqb s EmptyString)
  | JArr l => match l with [] => false | _ => true end
  | JObj items => match items with [] => false | _ => true end
  end.

(** [v.get(key, default)]: only a dict has [get]. *)
Definition get (v : json) (key : string) (default : json) : outcome json :=
  match v with
  | JObj items =>
      Return (match assoc key items with Some x => x | None => default end)
  | _ => Raise "AttributeError"
  end.

Fixpoint chars (s : string) : list json :=
  match s with
  | EmptyString => []
  | String c s' => JStr (String c EmptyString) :: chars s'
  end.

(** [for x in v]: a list gives its items, text its characters, a dict its
    keys; nothing else can be iterated. *)
Definition iterate (v : json) : outcome (list json) :=
  match v with
  | JArr l => Return l
  | JStr s => Return (chars s)
  | JObj items => Return (List.map (fun kv => JStr (fst kv)) items)
  | _ => Raise "TypeError"
  end.

(** [v.lower().strip()]: only text has [lower]. *)
Definition lower_strip (v : json) : outcome string :=
  match v with
  | JStr s => Return (Py.strip (Py.lower s))
  | _ => Raise "AttributeError"
  end.

Record tally : Type :=
  { matched_required : list string;
    missing_required : list string;
    matched_optional : list string;
    missing_optional : list string }.

Definition no_tally : tally :=
  {| matched_required := []; missing_required := [];
     matched_optional := []; missing_optional := [] |}.

(** The inner loop with its [break]. *)
Definition is_matched (candidate_skills : list string) (skill : string) : bool :=
  List.existsb (fun cs => Py.contains skill cs || Py.contains cs skill) candidate_skills.

(** One turn of [for req in job_requirements]. *)
Definition tally_requirement (candidate_skills : list string) (t : tally) (req : json)
  : outcome tally :=
  skill_value ← get req "skill" (JStr EmptyString);
  skill ← lower_strip skill_value;
  required ← get req "required" (JBool true);
  level ← get req "level" (JStr "intermediate");
  Return
    (if is_matched candidate_skills skill then
       if truthy required
       then {| matched_required := matched_required t ++ [skill];
               missing_required := missing_required t;
               matched_optional := matched_optional t;
               missing_optional := missing_optional t |}
       else {| matched_required := matched_required t;
               missing_required := missing_required t;
               matched_optional := matched_optional t ++ [skill];
               missing_optional := missing_optional t |}
     else
       if truthy required
       then {| matched_required := matched_required t;
               missing_required := missing_required t ++ [skill];
               matched_optional := matched_optional t;
               missing_optional := missing_optional t |}
       else {| matched_required := matched_required t;
               missing_required := missing_required t;
               matched_optional := matched_optional t;
               missing_optional := missing_optional t ++ [skill] |}).

(** [float(n)] for a length; exact, as Python's [int / int] is, for the
    lengths below 2^53 a list can have. *)
Definition float_of_nat (n : nat) : float :=
  PrimFloat.of_uint63 (Uint63.of_Z (Z.of_nat n)).

(** [len(matched) / total * 100 if total > 0 else 100]. *)
Definition percentage (matched total : nat) : float :=
  if (0 <? total)%nat
  then (float_of_nat matched / float_of_nat total * 100)%float
  else 100%float.

(** The values the report prints. *)
Record report : Type :=
  { overall_score : float;
    required_score : float;
    optional_score : float;
    skills : tally;
    recommendation : string }.

Inductive answer : Type :=
| Message (text : string)
| Analysis (r : report).

Definition recommend (overall_score : float) : string :=
  if (80 <=? overall_score)%float then "  Strong candidate - recommend for interview"
  else if (60 <=? overall_score)%float
       then "  Good candidate with some skill gaps - consider for interview"
  else if (40 <=? overall_score)%float
       then "  Moderate match - may need significant training"
  else "  Low match - consider other candidates".

Definition make_report (t : tally) : report :=
  let total_required := (List.length (matched_required t) + List.length (missing_required t))%nat in
  let total_optional := (List.length (matched_optional t) + List.length (missing_optional t))%nat in
  let required_score := percentage (List.length (matched_required t)) total_required in
  let optional_score := percentage (List.length (matched_optional t)) total_optional in
  let overall_score := (required_score * 0.7 + optional_score * 0.3)%float in
  {| overall_score := overall_score;
     required_score := required_score;
     optional_score := optional_score;
     skills := t;
     recommendation := recommend overall_score |}.

Section Run.
(** [json.loads]; [None] is [JSONDecodeError]. *)
Variable loads : string -> option json.

(** The body of the [try]. *)
Definition read_input (input_data : string) : outcome (list string * json) :=
  data ← match loads input_data with
          | Some v => Return v
          | None => Raise "JSONDecodeError"
          end;
  skills_value ← get data "candidate_skills" (JArr []);
  skill_items ← iterate skills_value;
  candidate_skills ← mapM lower_strip skill_items;
  job_requirements ← get data "job_requirements" (JArr []);
  Return (candidate_skills, job_requirements).

Definition _run (input_data : string) : outcome answer :=
  match read_input input_data with
  | Raise e =>
      if String.eqb e "JSONDecodeError" || String.eqb e "AttributeError"
      then Return (Message
             "Error: Invalid input format. Please provide JSON with 'candidate_skills' and 'job_requirements'")
      else Raise e
  | Return (candidate_skills, job_requirements) =>
      if negb (truthy job_requirements)
      then Return (Message "Error: No job requirements provided")
      else
        reqs ← iterate job_requirements;
        t ← foldM (tally_requirement candidate_skills) no_tally reqs;
        Return (Analysis (make_report t))
  end.
End Run.

(** *** The inputs that get a score, and the score as the specification
    words it *)

Definition is_text (v : json) : bool :=
  match v with
  | JStr _ => true
  | _ => false
  end.

(** A requirement object whose skill, where given, is text. *)
Definition valid_requirement (req : json) : bool :=
  match req with
  | JObj items =>
      match assoc "skill" items with
      | Some v => is_text v
      | None => true
      end
  | _ => false
  end.

(** A valid input as the specification words it: a JSON object with a
    list of candidate skills and a list of requirements that is not
    empty. *)
Definition claimed_input (data : json) : bool :=
  match data with
  | JObj items =>
      match assoc "candidate_skills" items, assoc "job_requirements" items with
      | Some (JArr _), Some (JArr (_ :: _)) => true
      | _, _ => false
      end
  | _ => false
  end.

(** The inputs on which the loop over the requirements runs to its end: a
    JSON object with a list of candidate skills, each a text, and a list
    of requirement objects that is not empty. *)
Definition valid_input (data : json) : bool :=
  match data with
  | JObj items =>
      match assoc "candidate_skills" items, assoc "job_requirements" items with
      | Some (JArr skills), Some (JArr (req :: reqs)) =>
          List.forallb is_text skills && List.forallb valid_requirement (req :: reqs)
      | _, _ => false
      end
  | _ => false
  end.

Definition field (key : string) (default : json) (v : json) : json :=
  match v with
  | JObj items =>
      match assoc key items with
      | Some x => x
      | None => default
      end
  | _ => default
  end.

Definition items_of (v : json) : list json :=
  match v with
  | JArr l => l
  | _ => []
  end.

(** The lower-cased, stripped text of a JSON string. *)
Definition normal (v : json) : string :=
  match v with
  | JStr s => Py.strip (Py.lower s)
  | _ => EmptyString
  end.

Definition skill_of (req : json) : string := normal (field "skill" (JStr EmptyString) req).

Definition is_required (req : json) : bool := truthy (field "required" (JBool true) req).

(** A requirement counts as matched iff its skill is a substring of some
    candidate skill or the other way round. *)
Definition counts_as_matched (candidate_skills : list json) (req : json) : bool :=
  List.existsb
    (fun cs => Py.contains (skill_of req) (normal cs) || Py.contains (normal cs) (skill_of req))
    candidate_skills.

(** The percentage of the requirements selected by [select] that are
    matched, 100 when none is selected. *)
Definition matched_percentage (candidate_skills : list json) (select : json -> bool)
           (reqs : list json) : float :=
  percentage
    (List.length (List.filter (fun r => select r && counts_as_matched candidate_skills r) reqs))
    (List.length (List.filter select reqs)).

End SkillMatcher.

(** ** [models/candidate.py], [config/settings.py], [database/models.py] *)

Module CandidateStatus.
(** The values of the [CandidateStatus] enumeration. *)
Definition values : list string :=
  [ "applied"; "screening"; "shortlisted"; "interview";
    "offered"; "hired"; "rejected"; "withdrawn" ].

Definition member (status : string) : bool :=
  List.existsb (String.eqb status) values.
End CandidateStatus.

Module Settings.
Record t : Type :=
  { min_match_score : Z; max_file_size_mb : Z; resume_dir : string }.

Definition default : t :=
  {| min_match_score := 60; max_file_size_mb := 10; resume_dir := "./data/resumes" |}.
End Settings.

Module JobDB.
Record t : Type :=
  { id : string;
    title : string;
    status : string;
    description : option string;
    requirements : option (list ScreeningCrew.requirement);
    min_experience_years : option Z;
    experience_level : option string;
    total_applicants : Z;
    screened_count : Z;
    shortlisted_count : Z;
    updated_at : option Z }.

Definition count_applicant (now : Z) (j : t) : t :=
  {| id := id j; title := title j; status := status j; description := description j;
     requirements := requirements j;
     min_experience_years := min_experience_years j;
     experience_level := experience_level j;
     total_applicants := total_applicants j + 1;
     screened_count := screened_count j;
     shortlisted_count := shortlisted_count j;
     updated_at := Some now |}.

Definition set_counts (screened shortlisted : Z) (j : t) : t :=
  {| id := id j; title := title j; status := status j; description := description j;
     requirements := requirements j;
     min_experience_years := min_experience_years j;
     experience_level := experience_level j;
     total_applicants := total_applicants j;
     screened_count := screened;
     shortlisted_count := shortlisted;
     updated_at := updated_at j |}.
End JobDB.

Module CandidateDB.
Record t : Type :=
  { id : string;
    job_id : string;
    name : string;
    email : string;
    phone : option string;
    linkedin_url : option string;
    github_url : option string;
    portfolio_url : option string;
    cover_letter : option string;
    skills : list pyval;
    resume_path : option string;
    status : string;
    match_score : option pyval;
    ai_assessment : option pyval;
    match_details : option pyval;
    applied_at : option Z;
    updated_at : option Z;
    screened_at : option Z }.

(** The assignments [run_screening_task] makes to a row, the status left
    aside. *)
Definition record_screening (score : pyval) (now : Z) (c : t) : t :=
  {| id := id c; job_id := job_id c; name := name c; email := email c;
     phone := phone c; linkedin_url := linkedin_url c; github_url := github_url c;
     portfolio_url := portfolio_url c; cover_letter := cover_letter c;
     skills := skills c; resume_path := resume_path c;
     status := status c;
     match_score := Some score;
     ai_assessment := ai_assessment c; match_details := match_details c;
     applied_at := applied_at c; updated_at := updated_at c;
     screened_at := Some now |}.

(** The assignments [rescreen_candidate] makes to a row, the status left
    aside. *)
Definition record_rescreening (extracted_skills : list pyval) (score : pyval)
           (assessment : pyval) (details : pyval) (now : Z) (c : t) : t :=
  {| id := id c; job_id := job_id c; name := name c; email := email c;
     phone := phone c; linkedin_url := linkedin_url c; github_url := github_url c;
     portfolio_url := portfolio_url c; cover_letter := cover_letter c;
     skills := extracted_skills; resume_path := resume_path c;
     status := status c;
     match_score := Some score;
     ai_assessment := Some assessment; match_details := Some details;
     applied_at := applied_at c; updated_at := updated_at c;
     screened_at := Some now |}.

Definition set_status (new_status : string) (c : t) : t :=
  {| id := id c; job_id := job_id c; name := name c; email := email c;
     phone := phone c; linkedin_url := linkedin_url c; github_url := github_url c;
     portfolio_url := portfolio_url c; cover_letter := cover_letter c;
     skills := skills c; resume_path := resume_path c;
     status := new_status;
     match_score := match_score c;
     ai_assessment := ai_assessment c; match_details := match_details c;
     applied_at := applied_at c; updated_at := updated_at c;
     screened_at := screened_at c |}.

Definition set_updated_at (now : Z) (c : t) : t :=
  {| id := id c; job_id := job_id c; name := name c; email := email c;
     phone := phone c; linkedin_url := linkedin_url c; github_url := github_url c;
     portfolio_url := portfolio_url c; cover_letter := cover_letter c;
     skills := skills c; resume_path := resume_path c;
     status := status c;
     match_score := match_score c;
     ai_assessment := ai_assessment c; match_details := match_details c;
     applied_at := applied_at c; updated_at := Some now;
     screened_at := screened_at c |}.
End CandidateDB.

(** ** The relational store, a session on it, and the files *)

Module Db.

Record store : Type :=
  { jobs : list JobDB.t; candidates : list CandidateDB.t }.

Record filesystem : Type :=
  { dirs : gset string; files : gmap string string }.

(** [os.path.exists]. *)
Definition exists_on (disk : filesystem) (path : string) : bool :=
  bool_decide (path ∈ dirs disk) || bool_decide (is_Some (files disk !! path)).

(** A call handed to [BackgroundTasks.add_task]. *)
Record background_task : Type :=
  { task_job_id : string;
    task_candidates : list ScreeningCrew.candidate_ref;
    task_requirements : list ScreeningCrew.requirement;
    task_description : string;
    task_min_exp : Z;
    task_exp_level : string }.

Inductive result (A : Type) : Type :=
| Done (a : A)
| HTTPException (status_code : Z) (detail : string)
| Unhandled (exc : string).
Arguments Done {A} a.
Arguments HTTPException {A} status_code detail.
Arguments Unhandled {A} exc.

(** [Result.scalar_one_or_none()]. *)
Definition one_or_none {A : Type} (rows : list A) : outcome (option A) :=
  match rows with
  | [] => Return None
  | [row] => Return (Some row)
  | _ => Raise "MultipleResultsFound"
  end.

Definition update_candidates (id : string) (f : CandidateDB.t -> CandidateDB.t)
           (st : store) : store :=
  {| jobs := jobs st;
     candidates := List.map (fun c => if String.eqb (CandidateDB.id c) id then f c else c)
                            (candidates st) |}.

Definition update_jobs (id : string) (f : JobDB.t -> JobDB.t) (st : store) : store :=
  {| jobs := List.map (fun j => if String.eqb (JobDB.id j) id then f j else j) (jobs st);
     candidates := candidates st |}.

Section Session.
(** Whatever lies outside the process and its disk: the agents, the
    mail service, the clock, the source of random identifiers. *)
Context {Outside : Type}.

(** What a handler can touch: the rows as committed, the rows as the
    session's objects hold them, the disk, the task queue, the outside. *)
Record session : Type :=
  { committed : store;
    working : store;
    disk : filesystem;
    background : list background_task;
    outside : Outside }.

Definition handler (A : Type) : Type := session -> result A * session.

Definition pure {A : Type} (a : A) : handler A := fun s => (Done a, s).

Definition bind {A B : Type} (m : handler A) (k : A -> handler B) : handler B :=
  fun s =>
    match m s with
    | (Done a, s') => k a s'
    | (HTTPException code detail, s') => (HTTPException code detail, s')
    | (Unhandled e, s') => (Unhandled e, s')
    end.

Definition raise_http {A : Type} (status_code : Z) (detail : string) : handler A :=
  fun s => (HTTPException status_code detail, s).

Definition raise_exc {A : Type} (exc : string) : handler A :=
  fun s => (Unhandled exc, s).

(** [try: body except Exception: handle]; what [body] did to the
    session before it raised stays done. *)
Definition try_except {A : Type} (body : handler A) (handle : string -> handler A)
  : handler A :=
  fun s =>
    match body s with
    | (Done a, s') => (Done a, s')
    | (HTTPException code detail, s') => handle detail s'
    | (Unhandled e, s') => handle e s'
    end.

Definition with_working (f : store -> store) : handler unit :=
  fun s => (Done tt, {| committed := committed s; working := f (working s);
                        disk := disk s; background := background s;
                        outside := outside s |}).

(** [db.execute(select(JobDB).where(...))]. *)
Definition select_jobs (where_ : JobDB.t -> bool) : handler (list JobDB.t) :=
  fun s => (Done (List.filter where_ (jobs (working s))), s).

(** [db.execute(select(CandidateDB).where(...))]. *)
Definition select_candidates (where_ : CandidateDB.t -> bool)
  : handler (list CandidateDB.t) :=
  fun s => (Done (List.filter where_ (candidates (working s))), s).

(** A count the database computes: it sees the rows as committed. *)
Definition count_committed (where_ : CandidateDB.t -> bool) : handler Z :=
  fun s => (Done (Z.of_nat (List.length (List.filter where_ (candidates (committed s))))), s).

Definition scalar_one_or_none {A : Type} (rows : list A) : handler (option A) :=
  match one_or_none rows with
  | Return r => pure r
  | Raise e => raise_exc e
  end.

(** [db.add(candidate)].  The primary key is checked here; SQLAlchemy
    reports a taken key at the flush of the commit that follows, after
    assignments to session objects only. *)
Definition add (c : CandidateDB.t) : handler unit :=
  fun s =>
    if List.existsb (fun c' => String.eqb (CandidateDB.id c') (CandidateDB.id c))
                    (candidates (working s))
    then (Unhandled "IntegrityError", s)
    else (Done tt, {| committed := committed s;
                      working := {| jobs := jobs (working s);
                                    candidates := candidates (working s) ++ [c] |};
                      disk := disk s; background := background s;
                      outside := outside s |}).

(** [db.commit()]. *)
Definition commit : handler unit :=
  fun s => (Done tt, {| committed := working s; working := working s;
                        disk := disk s; background := background s;
                        outside := outside s |}).

Definition makedirs (path : string) : handler unit :=
  fun s => (Done tt, {| committed := committed s; working := working s;
                        disk := {| dirs := {[ path ]} ∪ dirs (disk s);
                                   files := files (disk s) |};
                        background := background s; outside := outside s |}).

Definition write_file (path content : string) : handler unit :=
  fun s => (Done tt, {| committed := committed s; working := working s;
                        disk := {| dirs := dirs (disk s);
                                   files := <[path := content]> (files (disk s)) |};
                        background := background s; outside := outside s |}).

Definition add_task (task : background_task) : handler unit :=
  fun s => (Done tt, {| committed := committed s; working := working s;
                        disk := disk s; background := background s ++ [task];
                        outside := outside s |}).

(** A call to the outside that answers and moves on. *)
Definition ask {A : Type} (f : Outside -> A * Outside) : handler A :=
  fun s => let '(a, o) := f (outside s) in
           (Done a, {| committed := committed s; working := working s;
                       disk := disk s; background := background s;
                       outside := o |}).

Definition read_disk : handler filesystem := fun s => (Done (disk s), s).

(** What is there between requests. *)
Record state : Type :=
  { db : store; fs : filesystem; queue : list background_task; world : Outside }.

Definition open_session (st : state) : session :=
  {| committed := db st; working := db st; disk := fs st;
     background := queue st; outside := world st |}.

(** The [get_db] dependency around a handler: a fresh session, a commit
    when the handler returns, a rollback when it raises. *)
Definition serve {A : Type} (h : handler A) (st : state) : result A * state :=
  match h (open_session st) with
  | (Done a, s) =>
      (Done a, {| db := working s; fs := disk s; queue := background s;
                  world := outside s |})
  | (r, s) =>
      (r, {| db := committed s; fs := disk s; queue := background s;
             world := outside s |})
  end.

(** [async with async_session() as db:] around a background task: a
    fresh session, closed without a commit of its own. *)
Definition in_background {A : Type} (h : handler A) (st : state) : state :=
  let s := snd (h (open_session st)) in
  {| db := committed s; fs := disk s; queue := background s; world := outside s |}.
End Session.

Arguments session : clear implicits.
Arguments state : clear implicits.
Arguments handler : clear implicits.

#[global] Instance handler_ret {Outside : Type} : MRet (handler Outside) :=
  fun A a => pure a.
#[global] Instance handler_bind {Outside : Type} : MBind (handler Outside) :=
  fun A B k m => bind m k.

End Db.

(** ** [os.path] *)

Module Os.

Fixpoint last_index (c : ascii) (s : string) : option nat :=
  match s with
  | EmptyString => None
  | String x s' =>
      match last_index c s' with
      | Some i => Some (S i)
      | None => if Ascii.eqb x c then Some 0%nat else None
      end
  end.

Fixpoint all_dots (s : string) : bool :=
  match s with
  | EmptyString => true
  | String c s' => Ascii.eqb c "." && all_dots s'
  end.

(** [os.path.splitext]: the extension starts at the last dot of the last
    component, unless only dots precede it there. *)
Definition splitext (p : string) : string * string :=
  match last_index "." p with
  | None => (p, EmptyString)
  | Some dot =>
      let filename_index :=
        match last_index "/" p with
        | None => 0%nat
        | Some sep => S sep
        end in
      if (filename_index <=? dot)%nat
      then if all_dots (Py.take (dot - filename_index) (Py.drop filename_index p))
           then (p, EmptyString)
           else (Py.take dot p, Py.drop dot p)
      else (p, EmptyString)
  end.

Fixpoint ends_with_slash (s : string) : bool :=
  match s with
  | EmptyString => false
  | String c EmptyString => Ascii.eqb c "/"
  | String _ s' => ends_with_slash s'
  end.

(** [os.path.join(a, b)]. *)
Definition join (a b : string) : string :=
  if String.prefix "/" b then b
  else if String.eqb a EmptyString || ends_with_slash a then a +:+ b
  else a +:+ "/" +:+ b.

End Os.

(** ** [api/routes/apply.py], [screening.py], [candidates.py] *)

Module Routes.
Import Db.

Definition allowed_extensions : list string := [ ".pdf"; ".docx"; ".doc" ].

Definition lift {Outside A : Type} (r : outcome A) : handler Outside A :=
  match r with
  | Return a => pure a
  | Raise e => raise_exc e
  end.

Fixpoint for_each {Outside A : Type} (body : A -> handler Outside unit) (l : list A)
  : handler Outside unit :=
  match l with
  | [] => pure tt
  | x :: l' => _ ← body x; for_each body l'
  end.

(** [query.limit(limit)] under [if limit:]; SQLite reads a negative limit
    as no limit. *)
Definition limited {A : Type} (limit : option Z) (rows : list A) : list A :=
  match limit with
  | Some n => if (0 <? n)%Z then List.firstn (Z.to_nat n) rows else rows
  | None => rows
  end.

(** [JobDB.id == id] and [CandidateDB.id == id]. *)
Definition job_with_id (id : string) (j : JobDB.t) : bool := String.eqb (JobDB.id j) id.

Definition candidate_with_id (id : string) (c : CandidateDB.t) : bool :=
  String.eqb (CandidateDB.id c) id.

(** [CandidateDB.job_id == job_id, CandidateDB.email == email]. *)
Definition applied_with (job_id email : string) (c : CandidateDB.t) : bool :=
  String.eqb (CandidateDB.job_id c) job_id && String.eqb (CandidateDB.email c) email.

(** [CandidateDB.job_id == job_id, CandidateDB.status == "applied",
    CandidateDB.match_score.is_(None)]. *)
Definition unscreened_in (job_id : string) (c : CandidateDB.t) : bool :=
  String.eqb (CandidateDB.job_id c) job_id
  && String.eqb (CandidateDB.status c) "applied"
  && negb (bool_decide (is_Some (CandidateDB.match_score c))).

(** [if c.resume_path]. *)
Definition has_resume_path (c : CandidateDB.t) : bool :=
  match CandidateDB.resume_path c with
  | Some path => negb (String.eqb path EmptyString)
  | None => false
  end.

(** The comprehension that builds [candidates_data]. *)
Definition candidates_data_of (candidates : list CandidateDB.t)
  : list ScreeningCrew.candidate_ref :=
  List.flat_map
    (fun c =>
       match CandidateDB.resume_path c with
       | Some path =>
           if String.eqb path EmptyString then []
           else [ {| ScreeningCrew.id := CandidateDB.id c;
                     ScreeningCrew.resume_path := path |} ]
       | None => []
       end)
    candidates.

(** The skills [rescreen_candidate] reads off the analysis text. *)
Definition extracted_skills_of (analysis : string) : list pyval :=
  if Py.contains "DETECTED SKILLS:" analysis then
    match List.filter (Py.contains "DETECTED SKILLS:") (Py.split newline analysis) with
    | line :: _ =>
        let skills_str := Py.strip (List.nth 1 (Py.split "DETECTED SKILLS:" line) EmptyString) in
        List.map (fun s => PDict [ ("name", PStr (Py.strip s));
                                   ("level", PStr "intermediate") ])
                 (Py.split "," skills_str)
    | [] => []
    end
  else [].

Section Handlers.
Context {Outside : Type}.
Variable settings : Settings.t.
(** The agents: [str(crew.kickoff())] or the exception raised. *)
Variable kickoff : Outside -> ScreeningCrew.crew_request -> outcome string * Outside.
(** [datetime.utcnow()]. *)
Variable utcnow : Outside -> Z * Outside.
(** [str(uuid.uuid4())]. *)
Variable uuid4 : Outside -> string * Outside.
(** [ResumeParserTool()._run] and [ResumeAnalyzerTool()._run]. *)
Variable parser_run : filesystem -> string -> outcome string.
Variable analyzer_run : string -> outcome string.
(** [services.send_interview_invite]. *)
Variable send_interview_invite :
  Outside -> string -> string -> string -> option string -> option string -> dict * Outside.

(** The crews see the disk and the agents. *)
Definition World : Type := filesystem * Outside.

Definition path_exists (w : World) (path : string) : bool := exists_on (fst w) path.

Definition kickoff_in (w : World) (request : ScreeningCrew.crew_request)
  : outcome string * World :=
  let '(r, o) := kickoff (snd w) request in (r, (fst w, o)).

Definition in_world {A : Type} (call : World -> outcome A * World) : handler Outside A :=
  fun s =>
    let '(r, w) := call (disk s, outside s) in
    lift r {| committed := committed s; working := working s; disk := disk s;
              background := background s; outside := snd w |}.

(** *** [apply.py] *)

(** The [applied_at] of the answer is the instant itself, not its ISO
    text. *)
Definition submit_application (job_id name email : string)
           (phone linkedin_url github_url portfolio_url cover_letter : option string)
           (filename content : string) : handler Outside dict :=
  rows ← select_jobs (job_with_id job_id);
  job ← scalar_one_or_none rows;
  match job with
  | None => raise_http 404 "Job not found"
  | Some job =>
      if negb (String.eqb (JobDB.status job) "active")
      then raise_http 400 "This job is not accepting applications"
      else
        rows ← select_candidates (applied_with job_id email);
        existing ← scalar_one_or_none rows;
        match existing with
        | Some _ => raise_http 400 "You have already applied for this position"
        | None =>
            let file_ext := Py.lower (snd (Os.splitext filename)) in
            if negb (List.existsb (String.eqb file_ext) allowed_extensions)
            then raise_http 400 ("Invalid file type. Allowed: "
                                 +:+ ScreeningCrew.join ", " allowed_extensions)
            else if (Settings.max_file_size_mb settings * 1024 * 1024
                     <? Z.of_nat (String.length content))%Z
            then raise_http 400 ("File too large. Maximum size: "
                                 +:+ pretty (Settings.max_file_size_mb settings) +:+ "MB")
            else
              uuid ← ask uuid4;
              let candidate_id := Py.take 8 uuid in
              let job_resume_dir := Os.join (Settings.resume_dir settings) job_id in
              _ ← makedirs job_resume_dir;
              let safe_name :=
                Py.take 50
                  (Py.strip
                     (Py.filter_chars
                        (fun c => Py.isalnum c || Py.contains (String c EmptyString) " -_")
                        name)) in
              let filename := candidate_id +:+ "_" +:+ safe_name +:+ file_ext in
              let filepath := Os.join job_resume_dir filename in
              _ ← write_file filepath content;
              applied_at ← ask utcnow;
              let candidate :=
                {| CandidateDB.id := candidate_id;
                   CandidateDB.job_id := job_id;
                   CandidateDB.name := name;
                   CandidateDB.email := email;
                   CandidateDB.phone := phone;
                   CandidateDB.linkedin_url := linkedin_url;
                   CandidateDB.github_url := github_url;
                   CandidateDB.portfolio_url := portfolio_url;
                   CandidateDB.cover_letter := cover_letter;
                   CandidateDB.skills := [];
                   CandidateDB.resume_path := Some filepath;
                   CandidateDB.status := "applied";
                   CandidateDB.match_score := None;
                   CandidateDB.ai_assessment := None;
                   CandidateDB.match_details := None;
                   CandidateDB.applied_at := Some applied_at;
                   CandidateDB.updated_at := Some applied_at;
                   CandidateDB.screened_at := None |} in
              _ ← add candidate;
              updated_at ← ask utcnow;
              _ ← with_working (update_jobs job_id (JobDB.count_applicant updated_at));
              _ ← commit;
              mret (dict_of
                      [ ("success", PBool true);
                        ("candidate_id", PStr candidate_id);
                        ("message", PStr ("Thank you for applying, " +:+ name
                           +:+ "! We will review your application and get back to you soon."));
                        ("applied_at", PInt applied_at) ])
        end
  end.

(** *** [screening.py] *)

(** One turn of the loop of [run_screening_task], with its
    [try]/[except Exception: continue].  The assignment to
    [screening_notes] is left out: [CandidateDB] maps no such column, so
    nothing of it reaches the table. *)
Definition screen_one (job_requirements : list ScreeningCrew.requirement)
           (job_description : string) (min_exp : Z) (exp_level : string)
           (candidate : ScreeningCrew.candidate_ref) : handler Outside unit :=
  try_except
    (result ← in_world (fun w =>
                 ScreeningCrew.screen_candidate World path_exists kickoff_in w
                   (ScreeningCrew.resume_path candidate) job_requirements
                   job_description min_exp exp_level);
     rows ← select_candidates (candidate_with_id (ScreeningCrew.id candidate));
     candidate_db ← scalar_one_or_none rows;
     match candidate_db with
     | Some _ =>
         screened_at ← ask utcnow;
         _ ← with_working
               (update_candidates (ScreeningCrew.id candidate)
                  (fun c => CandidateDB.set_status "screening"
                              (CandidateDB.record_screening
                                 (get result "match_score" (PInt 0)) screened_at c)));
         shortlist ← lift (Py.ge (get result "match_score" (PInt 0))
                                 (Settings.min_match_score settings));
         _ ← with_working
               (update_candidates (ScreeningCrew.id candidate)
                  (CandidateDB.set_status
                     (if shortlist : bool then "shortlisted" else "rejected")));
         commit
     | None => mret tt
     end)
    (fun _ => mret tt).

Definition run_screening_task (job_id : string)
           (candidates_data : list ScreeningCrew.candidate_ref)
           (job_requirements : list ScreeningCrew.requirement)
           (job_description : string) (min_exp : Z) (exp_level : string)
  : handler Outside unit :=
  _ ← for_each (screen_one job_requirements job_description min_exp exp_level)
        candidates_data;
  rows ← select_jobs (job_with_id job_id);
  job ← scalar_one_or_none rows;
  match job with
  | Some _ =>
      screened ← count_committed
                   (fun c => String.eqb (CandidateDB.job_id c) job_id
                             && bool_decide (is_Some (CandidateDB.match_score c)));
      shortlisted ← count_committed
                      (fun c => String.eqb (CandidateDB.job_id c) job_id
                                && String.eqb (CandidateDB.status c) "shortlisted");
      _ ← with_working (update_jobs job_id (JobDB.set_counts screened shortlisted));
      commit
  | None => mret tt
  end.

Definition screen_candidates (job_id : string) (limit : option Z)
  : handler Outside dict :=
  rows ← select_jobs (job_with_id job_id);
  job ← scalar_one_or_none rows;
  match job with
  | None => raise_http 404 "Job not found"
  | Some job =>
      rows ← select_candidates (unscreened_in job_id);
      let candidates := limited limit rows in
      match candidates with
      | [] =>
          mret (dict_of [ ("job_id", PStr job_id);
                          ("message", PStr "No unscreened candidates found");
                          ("screened_count", PInt 0) ])
      | _ =>
          let candidates_data := candidates_data_of candidates in
          _ ← add_task
                {| task_job_id := job_id;
                   task_candidates := candidates_data;
                   task_requirements := default [] (JobDB.requirements job);
                   task_description := default EmptyString (JobDB.description job);
                   task_min_exp := default 0%Z (JobDB.min_experience_years job);
                   task_exp_level :=
                     match JobDB.experience_level job with
                     | Some l => if String.eqb l EmptyString then "mid" else l
                     | None => "mid"
                     end |};
          mret (dict_of
                  [ ("job_id", PStr job_id);
                    ("message", PStr ("Screening initiated for "
                                      +:+ pretty (List.length candidates_data)
                                      +:+ " candidates"));
                    ("candidates_to_screen",
                      PInt (Z.of_nat (List.length candidates_data)));
                    ("status", PStr "processing");
                    ("note", PStr "CrewAI agents are processing candidates in the background") ])
      end
  end.

Definition rescreen_candidate (candidate_id : string) : handler Outside dict :=
  rows ← select_candidates (candidate_with_id candidate_id);
  candidate ← scalar_one_or_none rows;
  match candidate with
  | None => raise_http 404 "Candidate not found"
  | Some candidate =>
      rows ← select_jobs (job_with_id (CandidateDB.job_id candidate));
      job ← scalar_one_or_none rows;
      match job with
      | None => raise_http 404 "Job not found"
      | Some job =>
          match CandidateDB.resume_path candidate with
          | None => raise_http 400 "No resume found for candidate"
          | Some resume_path =>
              if String.eqb resume_path EmptyString
              then raise_http 400 "No resume found for candidate"
              else
                try_except
                  (files ← read_disk;
                   resume_text ← lift (parser_run files resume_path);
                   analysis ← lift (analyzer_run resume_text);
                   let extracted_skills := extracted_skills_of analysis in
                   screening_result ← in_world (fun w =>
                       ScreeningCrew.quick_screen_candidate World kickoff_in w
                         resume_text
                         (default [] (JobDB.requirements job))
                         (default EmptyString (JobDB.description job))
                         (default 0%Z (JobDB.min_experience_years job)));
                   let match_score := get screening_result "match_score" (PInt 0) in
                   let recommendation :=
                     get screening_result "recommendation" (PStr "review") in
                   screened_at ← ask utcnow;
                   _ ← with_working
                         (update_candidates candidate_id
                            (CandidateDB.record_rescreening extracted_skills match_score
                               (get screening_result "analysis" (PStr EmptyString))
                               (PDict [ ("recommendation", recommendation);
                                        ("resume_analysis", PStr (Py.take 1000 analysis)) ])
                               screened_at));
                   shortlist ← lift (Py.ge match_score (Settings.min_match_score settings));
                   let status := if shortlist : bool then "shortlisted" else "rejected" in
                   _ ← with_working
                         (update_candidates candidate_id (CandidateDB.set_status status));
                   _ ← commit;
                   mret (dict_of
                           [ ("candidate_id", PStr candidate_id);
                             ("match_score", match_score);
                             ("skills_extracted",
                               PInt (Z.of_nat (List.length extracted_skills)));
                             ("skills", PList extracted_skills);
                             ("status", PStr status);
                             ("recommendation", recommendation);
                             ("message", PStr "Candidate re-screened successfully") ]))
                  (fun e =>
                     mret (dict_of
                             [ ("candidate_id", PStr candidate_id);
                               ("message", PStr ("Re-screening failed: " +:+ e));
                               ("status", PStr "failed") ]))
          end
      end
  end.

(** *** [candidates.py] *)

Definition mark_interview_scheduled (candidate_id : string) : handler Outside unit :=
  updated_at ← ask utcnow;
  _ ← with_working
        (update_candidates candidate_id
           (fun c => CandidateDB.set_updated_at updated_at
                       (CandidateDB.set_status "interview_scheduled" c)));
  commit.

Definition send_interview_invitation (candidate_id : string)
           (interview_date interview_link : option string) : handler Outside dict :=
  rows ← select_candidates (candidate_with_id candidate_id);
  candidate ← scalar_one_or_none rows;
  match candidate with
  | None => raise_http 404 "Candidate not found"
  | Some candidate =>
      rows ← select_jobs (job_with_id (CandidateDB.job_id candidate));
      job ← scalar_one_or_none rows;
      match job with
      | None => raise_http 404 "Job not found"
      | Some job =>
          email_result ← ask (fun o =>
              send_interview_invite o (CandidateDB.email candidate)
                (CandidateDB.name candidate) (JobDB.title job)
                interview_date interview_link);
          if Py.truthy (get email_result "success" PNone) then
            _ ← mark_interview_scheduled candidate_id;
            mret (dict_of
                    [ ("id", PStr (CandidateDB.id candidate));
                      ("email", PStr (CandidateDB.email candidate));
                      ("message", PStr "Interview invitation sent successfully");
                      ("email_id", get email_result "email_id" PNone) ])
          else if Py.truthy (get email_result "preview" PNone) then
            _ ← mark_interview_scheduled candidate_id;
            mret (dict_of
                    [ ("id", PStr (CandidateDB.id candidate));
                      ("email", PStr (CandidateDB.email candidate));
                      ("message",
                        PStr "Interview invite preview generated (Resend in test mode)");
                      ("test_mode", PBool true);
                      ("preview", get email_result "preview" PNone);
                      ("note", PStr "Status updated. To send real emails, verify a domain at resend.com/domains") ])
          else
            raise_http 500 ("Failed to send email: "
                            +:+ Py.str (get email_result "error" PNone))
      end
  end.
End Handlers.

(** A row whose status follows from its score and the shortlist
    threshold. *)
Definition screened (settings : Settings.t) (c : CandidateDB.t) : Prop :=
  exists z, CandidateDB.match_score c = Some (PInt z)
            /\ CandidateDB.status c
               = if (Settings.min_match_score settings <=? z)%Z
                 then "shortlisted" else "rejected".

(** A row as a screening leaves it: as it was, or screened under the same
    id. *)
Definition kept_or_screened (settings : Settings.t) (c c' : CandidateDB.t) : Prop :=
  c' = c \/ (CandidateDB.id c' = CandidateDB.id c /\ screened settings c').

(** The primary keys of the two tables. *)
Definition keys_unique (st : store) : Prop :=
  NoDup (List.map JobDB.id (jobs st)) /\ NoDup (List.map CandidateDB.id (candidates st)).

(** No two applications to one job share an email. *)
Definition applications_unique (st : store) : Prop :=
  forall job_id email,
    (List.length (List.filter (applied_with job_id email) (candidates st)) <= 1)%nat.

End Routes.

(** ** Sample data *)

Module Sample.

Definition job : JobDB.t :=
  {| JobDB.id := "j1"; JobDB.title := "Backend Engineer"; JobDB.status := "active";
     JobDB.description := Some "Python and SQL"; JobDB.requirements := None;
     JobDB.min_experience_years := None; JobDB.experience_level := None;
     JobDB.total_applicants := 1; JobDB.screened_count := 0;
     JobDB.shortlisted_count := 0; JobDB.updated_at := None |}.

Definition candidate : CandidateDB.t :=
  {| CandidateDB.id := "c1"; CandidateDB.job_id := "j1"; CandidateDB.name := "Ada";
     CandidateDB.email := "ada@example.com"; CandidateDB.phone := None;
     CandidateDB.linkedin_url := None; CandidateDB.github_url := None;
     CandidateDB.portfolio_url := None; CandidateDB.cover_letter := None;
     CandidateDB.skills := []; CandidateDB.resume_path := Some "./data/resumes/j1/c1_Ada.pdf";
     CandidateDB.status := "applied"; CandidateDB.match_score := None;
     CandidateDB.ai_assessment := None; CandidateDB.match_details := None;
     CandidateDB.applied_at := Some 0%Z; CandidateDB.updated_at := Some 0%Z;
     CandidateDB.screened_at := None |}.

Definition disk : Db.filesystem :=
  {| Db.dirs := {[ "./data/resumes/j1" ]};
     Db.files := {[ "./data/resumes/j1/c1_Ada.pdf" := "%PDF" ]} |}.

(** One job, nobody applied yet. *)
Definition empty_job : Db.state unit :=
  {| Db.db := {| Db.jobs := [job]; Db.candidates := [] |};
     Db.fs := {| Db.dirs := ∅; Db.files := ∅ |};
     Db.queue := []; Db.world := tt |}.

(** One job and one application to it. *)
Definition one_application : Db.state unit :=
  {| Db.db := {| Db.jobs := [job]; Db.candidates := [candidate] |};
     Db.fs := disk; Db.queue := []; Db.world := tt |}.

(** Agents that answer every request with the same text. *)
Definition answering (text : string) (o : unit) (request : ScreeningCrew.crew_request)
  : outcome string * unit := (Return text, o).

Definition clock (o : unit) : Z * unit := (1700000000%Z, o).

Definition uuid (o : unit) : string * unit := ("9f1c2e7a-0000-4000-8000-000000000000", o).

(** A mail service that reports success. *)
Definition mail_sent (o : unit) (email name title : string)
           (interview_date interview_link : option string) : dict * unit :=
  (dict_of [ ("success", PBool true); ("email_id", PStr "m1") ], o).

End Sample.

(** ** The routes that only read: [apply.py], [candidates.py] *)

Module ReadRoutes.
Import Db Routes.

(** [os.path.basename]. *)
Definition basename (p : string) : string :=
  match Os.last_index "/" p with
  | Some i => Py.drop (S i) p
  | None => p
  end.

Definition status_messages : list (string * string) :=
  [ ("applied", "Your application has been received and is being reviewed.");
    ("screening", "Your application is currently being screened.");
    ("shortlisted", "Congratulations! You have been shortlisted for this position.");
    ("interview", "You have been selected for an interview.");
    ("offered", "An offer has been extended to you.");
    ("hired", "Congratulations! You have been hired.");
    ("rejected", "Thank you for your interest. Unfortunately, we have decided to move forward with other candidates.") ].

(** The [FileResponse] a handler returns; the file is read when the
    response is sent. *)
Record file_response : Type :=
  { path : string; filename : string; media_type : string }.

Section Handlers.
Context {Outside : Type}.

(** The [applied_at] of the answer is the instant itself, not its ISO
    text; a score is held by its value. *)
Definition check_application_status (job_id email : string) : handler Outside dict :=
  rows ← select_candidates (applied_with job_id email);
  candidate ← scalar_one_or_none rows;
  match candidate with
  | None => raise_http 404 "Application not found"
  | Some candidate =>
      mret (dict_of
              [ ("status", PStr (CandidateDB.status candidate));
                ("message",
                  PStr (default "Application in progress"
                          (SkillMatcher.assoc (CandidateDB.status candidate)
                             status_messages)));
                ("applied_at",
                  match CandidateDB.applied_at candidate with
                  | Some instant => PInt instant
                  | None => PNone
                  end);
                ("match_score", default PNone (CandidateDB.match_score candidate)) ])
  end.

Definition get_candidate_resume (candidate_id : string) : handler Outside file_response :=
  rows ← select_candidates (candidate_with_id candidate_id);
  candidate ← scalar_one_or_none rows;
  match candidate with
  | None => raise_http 404 "Candidate not found"
  | Some candidate =>
      if negb (has_resume_path candidate)
      then raise_http 404 "Resume not found"
      else
        let resume_path := default EmptyString (CandidateDB.resume_path candidate) in
        files ← read_disk;
        if negb (exists_on files resume_path)
        then raise_http 404 "Resume file not found on server"
        else mret {| path := resume_path;
                     filename := basename resume_path;
                     media_type := "application/octet-stream" |}
  end.

End Handlers.

End ReadRoutes.

(** ** What a screening leaves of a row *)

Module Frame.

(** The columns of a candidate row that no screening assigns;
    [updated_at], which the table refreshes on every update, is not among
    them. *)
Definition application_of (c : CandidateDB.t) :=
  (CandidateDB.id c, CandidateDB.job_id c, CandidateDB.name c, CandidateDB.email c,
   CandidateDB.phone c, CandidateDB.linkedin_url c, CandidateDB.github_url c,
   CandidateDB.portfolio_url c, CandidateDB.cover_letter c, CandidateDB.resume_path c,
   CandidateDB.applied_at c).

(** The columns of a job row that no screening assigns. *)
Definition posting_of (j : JobDB.t) :=
  (JobDB.id j, JobDB.title j, JobDB.status j, JobDB.description j,
   JobDB.requirements j, JobDB.min_experience_years j, JobDB.experience_level j,
   JobDB.total_applicants j).

(** [CandidateDB.job_id == job_id, CandidateDB.match_score.isnot(None)]. *)
Definition scored_in (job_id : string) (c : CandidateDB.t) : bool :=
  String.eqb (CandidateDB.job_id c) job_id
  && bool_decide (is_Some (CandidateDB.match_score c)).

(** [CandidateDB.job_id == job_id, CandidateDB.status == 'shortlisted']. *)
Definition shortlisted_in (job_id : string) (c : CandidateDB.t) : bool :=
  String.eqb (CandidateDB.job_id c) job_id
  && String.eqb (CandidateDB.status c) "shortlisted".

(** The rows a list of candidate references does not name are kept; of the
    others the application columns are. *)
Definition left_alone (candidates_data : list ScreeningCrew.candidate_ref)
           (c c' : CandidateDB.t) : Prop :=
  application_of c' = application_of c
  /\ (~ In (CandidateDB.id c) (List.map ScreeningCrew.id candidates_data) -> c' = c).

(** The status a score of [z] leads to in [run_screening_task] and
    [rescreen_candidate]. *)
Definition verdict (settings : Settings.t) (z : Z) : string :=
  if (Settings.min_match_score settings <=? z)%Z then "shortlisted" else "rejected".

End Frame.

(** ** [screening.py]: the results of a screening *)

Module Results.
Import Db Routes.

(** A score as a number: [sum] and the comparisons raise on anything
    else. *)
Definition number (v : pyval) : outcome Z :=
  match v with
  | PInt z => Return z
  | PBool b => Return (Z.b2z b)
  | _ => Raise "TypeError"
  end.

(** The key of [order_by(CandidateDB.match_score.desc())]; rows of equal
    score are left in the order of the table. *)
Definition order_key (c : CandidateDB.t) : Z :=
  match CandidateDB.match_score c with
  | Some (PInt z) => z
  | Some (PBool b) => Z.b2z b
  | _ => 0%Z
  end.

(** [len([s for s in scores if p(s)])]. *)
Definition count (p : Z -> bool) (scores : list Z) : pyval :=
  PInt (Z.of_nat (List.length (List.filter p scores))).

Definition top_candidate (c : CandidateDB.t) : pyval :=
  PDict [ ("id", PStr (CandidateDB.id c));
          ("name", PStr (CandidateDB.name c));
          ("score", default PNone (CandidateDB.match_score c));
          ("status", PStr (CandidateDB.status c)) ].

Section Handler.
Context {Outside : Type}.
Variable settings : Settings.t.
(** [round(sum(scores) / len(scores), 1)] for scores that are there. *)
Variable rounded_average : list Z -> pyval.

Definition get_screening_results (job_id : string) : handler Outside dict :=
  rows ← select_jobs (job_with_id job_id);
  job ← scalar_one_or_none rows;
  match job with
  | None => raise_http 404 "Job not found"
  | Some job =>
      rows ← select_candidates (Frame.scored_in job_id);
      let screened_candidates := ScreeningCrew.sort_desc order_key rows in
      scores ← lift (mapM number
                       (List.filter Py.truthy
                          (List.map (fun c => default PNone (CandidateDB.match_score c))
                                    screened_candidates)));
      let average_score :=
        match scores with
        | [] => PInt 0
        | _ => rounded_average scores
        end in
      let distribution :=
        PDict [ ("90-100", count (fun s => (90 <=? s)%Z && (s <=? 100)%Z) scores);
                ("80-89", count (fun s => (80 <=? s)%Z && (s <? 90)%Z) scores);
                ("70-79", count (fun s => (70 <=? s)%Z && (s <? 80)%Z) scores);
                ("60-69", count (fun s => (60 <=? s)%Z && (s <? 70)%Z) scores);
                ("below_60", count (fun s => (s <? 60)%Z) scores) ] in
      mret (dict_of
              [ ("job_id", PStr job_id);
                ("job_title", PStr (JobDB.title job));
                ("total_applicants", PInt (JobDB.total_applicants job));
                ("screened_count", PInt (Z.of_nat (List.length screened_candidates)));
                ("average_score", average_score);
                ("score_distribution", distribution);
                ("top_candidates",
                  PList (List.map top_candidate (List.firstn 10 screened_candidates)));
                ("qualified_count",
                  count (fun s => (Settings.min_match_score settings <=? s)%Z) scores) ])
  end.

End Handler.

(** The score of a row is an integer. *)
Definition integer_score (c : CandidateDB.t) : Prop :=
  exists z, CandidateDB.match_score c = Some (PInt z).

(** The rows of a job that carry the score 0. *)
Definition scored_zero_in (job_id : string) (c : CandidateDB.t) : bool :=
  Frame.scored_in job_id c && negb (Py.truthy (default PNone (CandidateDB.match_score c))).

(** The rows of a job that carry a score and are shortlisted. *)
Definition scored_shortlisted_in (job_id : string) (c : CandidateDB.t) : bool :=
  Frame.scored_in job_id c && String.eqb (CandidateDB.status c) "shortlisted".

End Results.

(** ** [tools/resume_parser.py] *)

Module ResumeParser.
Import Db.

(** [Path(p).name]: the last component of the path, empty components and
    "." left aside. *)
Definition name (p : string) : string :=
  List.last
    (List.filter (fun part => negb (String.eqb part EmptyString) && negb (String.eqb part "."))
                 (Py.split "/" p))
    EmptyString.

(** [Path(p).suffix], as pathlib has it up to Python 3.13: the name from
    its last dot on, unless that dot opens or closes the name. *)
Definition suffix (p : string) : string :=
  let n := name p in
  match Os.last_index "." n with
  | Some i => if (0 <? i)%nat && (i <? String.length n - 1)%nat then Py.drop i n
              else EmptyString
  | None => EmptyString
  end.

Section Run.
(** [_parse_pdf] and [_parse_docx]: PyMuPDF and python-docx at work on the
    file, the text they extract or the exception they raise. *)
Variable _parse_pdf : filesystem -> string -> outcome string.
Variable _parse_docx : filesystem -> string -> outcome string.

Definition _run (files : filesystem) (resume_path : string) : string :=
  if negb (exists_on files resume_path)
  then "Error: File not found at " +:+ resume_path
  else
    let file_ext := Py.lower (suffix resume_path) in
    let parsed :=
      if String.eqb file_ext ".pdf" then Some (_parse_pdf files resume_path)
      else if List.existsb (String.eqb file_ext) [ ".doc"; ".docx" ]
           then Some (_parse_docx files resume_path)
      else None in
    match parsed with
    | None =>
        "Error: Unsupported file format " +:+ file_ext +:+ ". Supported: PDF, DOC, DOCX"
    | Some (Raise e) => "Error parsing resume: " +:+ e
    | Some (Return text) =>
        if String.eqb (Py.strip text) EmptyString
        then "Error: Could not extract text from resume. File may be empty or corrupted."
        else "RESUME CONTENT:" +:+ newline +:+ text
    end.

(** The parser as [rescreen_candidate] calls it. *)
Definition parser_run (files : filesystem) (resume_path : string) : outcome string :=
  Return (_run files resume_path).

End Run.

End ResumeParser.

(** ** [services/email_service.py] *)

Module EmailService.

(** What Resend is given: the parameters of the mail and the values
    interpolated into its HTML body. *)
Record invitation : Type :=
  { from_ : string;
    to : string;
    subject : string;
    candidate_name : string;
    job_title : string;
    interview_date : option string;
    interview_link : option string;
    questions_preview : option string }.

Definition optional (v : option string) : pyval :=
  match v with
  | Some s => PStr s
  | None => PNone
  end.

Section Service.
Context {Outside : Type}.
(** [settings.resend_api_key] and [settings.email_from]. *)
Variable resend_api_key : option string.
Variable email_from : string.
(** [resend.Emails.send(params)]: the response, or [str(e)] of the
    exception raised. *)
Variable resend_send : Outside -> invitation -> outcome dict * Outside.

Definition init_resend : bool :=
  match resend_api_key with
  | Some key => negb (String.eqb key EmptyString)
  | None => false
  end.

Definition send_interview_invite (o : Outside)
           (candidate_email candidate_name job_title : string)
           (interview_date interview_link : option string) : dict * Outside :=
  if negb init_resend
  then (dict_of [ ("success", PBool false);
                  ("error", PStr "Email service not configured") ], o)
  else
    let subject := "Interview Invitation: " +:+ job_title in
    match resend_send o {| from_ := email_from; to := candidate_email; subject := subject;
                           candidate_name := candidate_name; job_title := job_title;
                           interview_date := interview_date;
                           interview_link := interview_link;
                           questions_preview := None |} with
    | (Return response, o') =>
        (dict_of [ ("success", PBool true);
                   ("email_id", get response "id" PNone);
                   ("message", PStr "Interview invite sent") ], o')
    | (Raise error_msg, o') =>
        if Py.contains "testing emails to your own email" error_msg
           || Py.contains "verify a domain" error_msg
        then (dict_of
                [ ("success", PBool false);
                  ("error", PStr "Resend is in test mode. Emails can only be sent to your registered email. To send to candidates, verify a domain at resend.com/domains");
                  ("preview", PDict [ ("to", PStr candidate_email);
                                      ("subject", PStr subject);
                                      ("interview_date", optional interview_date);
                                      ("interview_link", optional interview_link) ]) ], o')
        else (dict_of [ ("success", PBool false); ("error", PStr error_msg) ], o')
    end.

End Service.

End EmailService.

(** ** [candidates.py]: the assessment mail *)

Module Assessment.
Import Db Routes.

Section Handler.
Context {Outside : Type}.
(** [services.send_screening_result], given the email, the name, the job
    title, the score, the status and the assessment. *)
Variable send_screening_result :
  Outside -> string -> string -> string -> pyval -> string -> option pyval
  -> dict * Outside.

Definition send_assessment_email (candidate_id : string) : handler Outside dict :=
  rows ← select_candidates (candidate_with_id candidate_id);
  candidate ← scalar_one_or_none rows;
  match candidate with
  | None => raise_http 404 "Candidate not found"
  | Some candidate =>
      rows ← select_jobs (job_with_id (CandidateDB.job_id candidate));
      job ← scalar_one_or_none rows;
      match job with
      | None => raise_http 404 "Job not found"
      | Some job =>
          match CandidateDB.match_score candidate with
          | None => raise_http 400 "Candidate has not been screened yet"
          | Some match_score =>
              email_result ← ask (fun o =>
                  send_screening_result o (CandidateDB.email candidate)
                    (CandidateDB.name candidate) (JobDB.title job) match_score
                    (CandidateDB.status candidate) (CandidateDB.ai_assessment candidate));
              if Py.truthy (get email_result "success" PNone) then
                mret (dict_of
                        [ ("id", PStr (CandidateDB.id candidate));
                          ("email", PStr (CandidateDB.email candidate));
                          ("message", PStr "Assessment email sent successfully");
                          ("email_id", get email_result "email_id" PNone) ])
              else if Py.truthy (get email_result "preview" PNone) then
                mret (dict_of
                        [ ("id", PStr (CandidateDB.id candidate));
                          ("email", PStr (CandidateDB.email candidate));
                          ("message", PStr "Email preview generated (Resend in test mode)");
                          ("test_mode", PBool true);
                          ("preview", get email_result "preview" PNone);
                          ("note", PStr "To send real emails, verify a domain at resend.com/domains") ])
              else
                raise_http 500 ("Failed to send email: "
                                +:+ Py.str (get email_result "error" PNone))
          end
      end
  end.

End Handler.

End Assessment.

(** * Properties *)

(** ** Text *)

Section TextFacts.

Lemma append_nil_l (t : string) : EmptyString +:+ t = t.
Proof. reflexivity. Qed.

Lemma append_cons (c : ascii) (s t : string) : String c s +:+ t = String c (s +:+ t).
Proof. reflexivity. Qed.

Lemma append_nil_r (s : string) : s +:+ EmptyString = s.
Proof.
  induction s as [|c s IH]; [reflexivity|].
  now rewrite append_cons, IH.
Qed.

Lemma append_assoc (a b c : string) : (a +:+ b) +:+ c = a +:+ (b +:+ c).
Proof.
  induction a as [|x a IH]; [reflexivity|].
  now rewrite !append_cons, IH.
Qed.

Lemma length_append (a b : string) :
  String.length (a +:+ b) = (String.length a + String.length b)%nat.
Proof.
  induction a as [|x a IH]; [reflexivity|].
  rewrite append_cons. simpl. now rewrite IH.
Qed.

Lemma lower_append (a b : string) : Py.lower (a +:+ b) = Py.lower a +:+ Py.lower b.
Proof.
  induction a as [|x a IH]; [reflexivity|].
  rewrite append_cons. simpl. now rewrite IH, append_cons.
Qed.

Lemma length_lower (s : string) : String.length (Py.lower s) = String.length s.
Proof. induction s as [|c s IH]; simpl; [reflexivity | now rewrite IH]. Qed.

Lemma isdigit_lower_char (c : ascii) : Py.isdigit (Py.lower_char c) = Py.isdigit c.
Proof. destruct c as [[] [] [] [] [] [] [] []]; reflexivity. Qed.

Lemma lower_char_digit (c : ascii) : Py.isdigit c = true -> Py.lower_char c = c.
Proof. destruct c as [[] [] [] [] [] [] [] []]; intro H; (reflexivity || discriminate H). Qed.

Lemma digit_not_separator (c : ascii) :
  Py.isdigit c = true -> ScreeningCrew.space_or_colon c = false.
Proof. destruct c as [[] [] [] [] [] [] [] []]; intro H; (reflexivity || discriminate H). Qed.

Lemma lower_digits (ds : string) : Py.all_digits ds = true -> Py.lower ds = ds.
Proof.
  unfold Py.all_digits.
  induction ds as [|c ds IH]; simpl; [reflexivity|].
  intros [Hc Hds]%andb_prop.
  now rewrite (lower_char_digit c Hc), IH.
Qed.

Lemma starts_in_lower (s : string) :
  Py.starts_in Py.isdigit (Py.lower s) = Py.starts_in Py.isdigit s.
Proof. destruct s; simpl; [reflexivity | apply isdigit_lower_char]. Qed.

Lemma take_length_append (a b : string) : Py.take (String.length a) (a +:+ b) = a.
Proof.
  induction a as [|x a IH].
  - destruct b; reflexivity.
  - rewrite append_cons. simpl. now rewrite IH.
Qed.

Lemma take_append (a b : string) :
  Py.take (String.length (a +:+ b) - String.length b) (a +:+ b) = a.
Proof.
  rewrite length_append.
  replace (String.length a + String.length b - String.length b)%nat
    with (String.length a) by lia.
  apply take_length_append.
Qed.

Lemma take_length_le (n : nat) (s : string) :
  (String.length (Py.take n s) <= String.length s)%nat.
Proof.
  revert s; induction n as [|n IH]; intros [|c s]; simpl; try lia.
  specialize (IH s). lia.
Qed.

Lemma strip_prefix_length (l s rest : string) :
  Re.strip_prefix l s = Some rest -> (String.length rest <= String.length s)%nat.
Proof.
  revert s; induction l as [|x l IH]; intros s; simpl.
  - now intros [= ->].
  - destruct s as [|y s]; [discriminate|].
    destruct (Ascii.eqb x y); [|discriminate].
    intros H%IH. simpl. lia.
Qed.

Lemma strip_prefix_inv (l s rest : string) :
  Re.strip_prefix l s = Some rest -> s = l +:+ rest.
Proof.
  revert s; induction l as [|x l IH]; intros s; simpl.
  - now intros [= ->].
  - destruct s as [|y s]; [discriminate|].
    destruct (Ascii.eqb_spec x y) as [->|]; [|discriminate].
    intros H%IH. now rewrite H.
Qed.

Lemma occurs_append (c : ascii) (a b : string) :
  Re.occurs c (a +:+ b) = Re.occurs c a || Re.occurs c b.
Proof.
  induction a as [|x a IH]; [reflexivity|].
  rewrite append_cons. simpl. now rewrite IH, orb_assoc.
Qed.

Lemma occurs_digits (c : ascii) (ds : string) :
  Py.all_digits ds = true -> Py.isdigit c = false -> Re.occurs c ds = false.
Proof.
  unfold Py.all_digits. intros Hds Hc.
  induction ds as [|d ds IH]; [reflexivity|].
  simpl in *. apply andb_prop in Hds as [Hd Hds].
  rewrite (IH Hds), orb_false_r.
  destruct (Ascii.eqb_spec c d) as [->|]; [congruence | reflexivity].
Qed.

Lemma strip_prefix_append (l s : string) : Re.strip_prefix l (l +:+ s) = Some s.
Proof.
  induction l as [|x l IH]; [destruct s; reflexivity|].
  rewrite append_cons. simpl. now rewrite Ascii.eqb_refl.
Qed.

Lemma strip_prefix_none (l s : string) :
  String.prefix l s = false -> Re.strip_prefix l s = None.
Proof.
  revert s; induction l as [|x l IH]; intros s; simpl.
  - destruct s; discriminate.
  - destruct s as [|y s]; [reflexivity|]. simpl.
    destruct (ascii_dec x y) as [->|Hne].
    + rewrite Ascii.eqb_refl. apply IH.
    + intros _. destruct (Ascii.eqb_spec x y); [contradiction | reflexivity].
Qed.

End TextFacts.

(** ** The matcher *)

Section MatcherFacts.
Context {A : Type}.

(** Where [star] succeeds, its continuation succeeded on what was left
    after a run of characters of the class. *)
Lemma star_inv (p : ascii -> bool) (s : string) (k : string -> option A) (a : A) :
  Re.star p s k = Some a ->
  exists run rest, s = run +:+ rest /\ Py.all_chars p run = true /\ k rest = Some a.
Proof.
  revert a; induction s as [|c s IH]; intros a; simpl.
  - intros H. exists EmptyString, EmptyString. auto.
  - destruct (p c) eqn:Hc.
    + destruct (Re.star p s k) as [a'|] eqn:Hs.
      * intros [= <-].
        destruct (IH a' eq_refl) as (run & rest & -> & Hrun & Hk).
        exists (String c run), rest. rewrite append_cons. simpl. rewrite Hc, Hrun. auto.
      * intros H. exists EmptyString, (String c s). auto.
    + intros H. exists EmptyString, (String c s). auto.
Qed.

(** The longest run is tried first. *)
Lemma star_greedy (p : ascii -> bool) (run rest : string) (k : string -> option A) (a : A) :
  Py.all_chars p run = true ->
  Py.starts_in p rest = false ->
  k rest = Some a ->
  Re.star p (run +:+ rest) k = Some a.
Proof.
  intros Hrun Hrest Hk.
  induction run as [|c run IH].
  - rewrite append_nil_l.
    destruct rest as [|c rest]; simpl in *; [assumption|].
    now rewrite Hrest.
  - simpl in Hrun. apply andb_prop in Hrun as [Hc Hrun].
    rewrite append_cons. simpl. now rewrite Hc, (IH Hrun).
Qed.

(** Group 1 holds digits after any match of an expression whose groups
    are all [(\d+)], and is set where the expression captures. *)
Lemma rmatch_group (r : Re.regex) :
  Re.digit_groups r ->
  forall (s : string) (g : option string) (k : string -> option string -> option A)
         (b : bool) (a : A),
    Re.group_ok b g ->
    Re.rmatch r s g k = Some a ->
    exists rest g', Re.group_ok (b && negb (Re.captures r)) g' /\ k rest g' = Some a.
Proof.
  induction r as [l|p|p|r1 IH1 r2 IH2|r1 IH1 r2 IH2|r1 IH1|r1 IH1];
    simpl; intros Hd s g k b a Hg Hm.
  - destruct (Re.strip_prefix l s) as [rest|]; [|discriminate].
    exists rest, g. now rewrite andb_true_r.
  - apply star_inv in Hm as (run & rest & _ & _ & Hk).
    exists rest, g. now rewrite andb_true_r.
  - destruct s as [|c s]; [discriminate|].
    destruct (p c); [|discriminate].
    apply star_inv in Hm as (run & rest & _ & _ & Hk).
    exists rest, g. now rewrite andb_true_r.
  - destruct Hd as [Hd1 Hd2].
    destruct (IH1 Hd1 _ _ _ _ _ Hg Hm) as (rest1 & g1 & Hg1 & Hm2).
    destruct (IH2 Hd2 _ _ _ _ _ Hg1 Hm2) as (rest2 & g2 & Hg2 & Hk).
    exists rest2, g2. split; [|assumption].
    now rewrite negb_orb, andb_assoc.
  - destruct Hd as [Hd1 Hd2].
    destruct (Re.rmatch r1 s g k) as [a'|] eqn:H1.
    + injection Hm as ->.
      destruct (IH1 Hd1 _ _ _ _ _ Hg H1) as (rest & g' & Hg' & Hk).
      exists rest, g'. split; [|assumption].
      destruct g'; simpl in *; [assumption|].
      rewrite negb_andb.
      apply andb_prop in Hg' as [-> ->]. reflexivity.
    + destruct (IH2 Hd2 _ _ _ _ _ Hg Hm) as (rest & g' & Hg' & Hk).
      exists rest, g'. split; [|assumption].
      destruct g'; simpl in *; [assumption|].
      rewrite negb_andb.
      apply andb_prop in Hg' as [-> ->]. now rewrite orb_true_r.
  - destruct (Re.rmatch r1 s g k) as [a'|] eqn:H1.
    + injection Hm as ->.
      destruct (IH1 Hd _ _ _ _ _ Hg H1) as (rest & g' & Hg' & Hk).
      exists rest, g'. split; [|assumption].
      rewrite andb_true_r.
      destruct g'; simpl in *; [assumption|].
      now apply andb_prop in Hg' as [-> _].
    + exists s, g. now rewrite andb_true_r.
  - subst r1. simpl in Hm.
    destruct s as [|c s]; [discriminate|].
    destruct (Py.isdigit c) eqn:Hc; [|discriminate].
    apply star_inv in Hm as (run & rest & -> & Hrun & Hk).
    eexists rest, _. split; [|exact Hk].
    rewrite andb_false_r.
    change (String c (run +:+ rest)) with (String c run +:+ rest).
    rewrite take_append. simpl.
    unfold Py.is_digit_string, Py.all_digits. simpl. now rewrite Hc, Hrun.
Qed.

(** What is left after a match is no longer than the text, and group 1
    is a piece of it. *)
Lemma rmatch_within (r : Re.regex) :
  forall (s : string) (g : option string) (k : string -> option string -> option A)
         (a : A) (n : nat),
    (String.length s <= n)%nat ->
    Re.group_within n g ->
    Re.rmatch r s g k = Some a ->
    exists rest g',
      (String.length rest <= String.length s)%nat
      /\ Re.group_within n g' /\ k rest g' = Some a.
Proof.
  induction r as [l|p|p|r1 IH1 r2 IH2|r1 IH1 r2 IH2|r1 IH1|r1 IH1];
    simpl; intros s g k a n Hs Hg Hm.
  - destruct (Re.strip_prefix l s) as [rest|] eqn:Hl; [|discriminate].
    apply strip_prefix_length in Hl. exists rest, g. auto.
  - apply star_inv in Hm as (run & rest & -> & _ & Hk).
    exists rest, g. rewrite length_append. split; [lia | auto].
  - destruct s as [|c s]; [discriminate|].
    destruct (p c); [|discriminate].
    apply star_inv in Hm as (run & rest & -> & _ & Hk).
    exists rest, g. simpl. rewrite length_append. split; [lia | auto].
  - destruct (IH1 _ _ _ _ _ Hs Hg Hm) as (rest1 & g1 & Hl1 & Hg1 & Hm2).
    assert (Hs1 : (String.length rest1 <= n)%nat) by lia.
    destruct (IH2 _ _ _ _ _ Hs1 Hg1 Hm2) as (rest2 & g2 & Hl2 & Hg2 & Hk).
    exists rest2, g2. split; [lia | auto].
  - destruct (Re.rmatch r1 s g k) as [a'|] eqn:H1.
    + injection Hm as ->. exact (IH1 _ _ _ _ _ Hs Hg H1).
    + exact (IH2 _ _ _ _ _ Hs Hg Hm).
  - destruct (Re.rmatch r1 s g k) as [a'|] eqn:H1.
    + injection Hm as ->. exact (IH1 _ _ _ _ _ Hs Hg H1).
    + exists s, g. auto.
  - destruct (IH1 _ _ _ _ _ Hs Hg Hm) as (rest & g' & Hl & _ & Hk).
    eexists rest, _. split; [exact Hl|]. split; [|exact Hk].
    simpl. pose proof (take_length_le (String.length s - String.length rest) s). lia.
Qed.

(** The continuation of a match runs on an end of the text. *)
Lemma rmatch_rest (r : Re.regex) :
  forall (s : string) (g : option string) (k : string -> option string -> option A)
         (a : A),
    Re.rmatch r s g k = Some a ->
    exists pre rest g', s = pre +:+ rest /\ k rest g' = Some a.
Proof.
  induction r as [l|p|p|r1 IH1 r2 IH2|r1 IH1 r2 IH2|r1 IH1|r1 IH1];
    simpl; intros s g k a Hm.
  - destruct (Re.strip_prefix l s) as [rest|] eqn:Hl; [|discriminate].
    apply strip_prefix_inv in Hl. eauto.
  - apply star_inv in Hm as (run & rest & -> & _ & Hk). eauto.
  - destruct s as [|c s]; [discriminate|].
    destruct (p c); [|discriminate].
    apply star_inv in Hm as (run & rest & -> & _ & Hk).
    exists (String c run), rest, g. auto.
  - destruct (IH1 _ _ _ _ Hm) as (pre1 & rest1 & g1 & -> & Hm2).
    destruct (IH2 _ _ _ _ Hm2) as (pre2 & rest2 & g2 & -> & Hk).
    exists (pre1 +:+ pre2), rest2, g2. now rewrite append_assoc.
  - destruct (Re.rmatch r1 s g k) as [a'|] eqn:H1.
    + injection Hm as ->. exact (IH1 _ _ _ _ H1).
    + exact (IH2 _ _ _ _ Hm).
  - destruct (Re.rmatch r1 s g k) as [a'|] eqn:H1.
    + injection Hm as ->. exact (IH1 _ _ _ _ H1).
    + exists EmptyString, s, g. auto.
  - destruct (IH1 _ _ _ _ Hm) as (pre & rest & g' & Hs & Hk). eauto.
Qed.

(** A match goes through one of the literals the expression promises. *)
Lemma rmatch_literal_head (r : Re.regex) :
  forall (cs : list ascii) (s : string) (g : option string)
         (k : string -> option string -> option A) (a : A),
    Re.literal_heads r = Some cs ->
    Re.rmatch r s g k = Some a ->
    exists c, In c cs /\ Re.occurs c s = true.
Proof.
  induction r as [l|p|p|r1 IH1 r2 IH2|r1 IH1 r2 IH2|r1 IH1|r1 IH1];
    simpl; intros cs s g k a Hcs Hm; try discriminate.
  - destruct l as [|c l]; [discriminate|]. injection Hcs as <-.
    destruct (Re.strip_prefix (String c l) s) as [rest|] eqn:Hl; [|discriminate].
    apply strip_prefix_inv in Hl as ->.
    exists c. split; [now left|]. simpl. now rewrite Ascii.eqb_refl.
  - destruct (Re.literal_heads r1) as [cs1|].
    + injection Hcs as <-. exact (IH1 _ _ _ _ _ eq_refl Hm).
    + apply rmatch_rest in Hm as (pre & rest & g' & -> & Hm2).
      destruct (IH2 _ _ _ _ _ Hcs Hm2) as (c & Hin & Hc).
      exists c. split; [assumption|]. rewrite occurs_append, Hc. apply orb_true_r.
  - destruct (Re.literal_heads r1) as [cs1|]; [|discriminate].
    destruct (Re.literal_heads r2) as [cs2|]; [|discriminate].
    injection Hcs as <-.
    destruct (Re.rmatch r1 s g k) as [a'|] eqn:H1.
    + destruct (IH1 _ _ _ _ _ eq_refl H1) as (c & Hin & Hc).
      exists c. split; [apply in_or_app; now left | assumption].
    + destruct (IH2 _ _ _ _ _ eq_refl Hm) as (c & Hin & Hc).
      exists c. split; [apply in_or_app; now right | assumption].
  - exact (IH1 _ _ _ _ _ Hcs Hm).
Qed.

End MatcherFacts.

(** ** Score extraction *)

Section ScoreFacts.
Import Re ScreeningCrew.

Lemma search_group (r : regex) (s : string) (g : option string) :
  digit_groups r -> captures r = true ->
  search r s = Some g ->
  exists ds, g = Some ds /\ Py.is_digit_string ds = true.
Proof.
  intros Hd Hc.
  induction s as [|c s IH]; simpl;
    destruct (rmatch r _ None (fun _ g0 => Some g0)) as [g0|] eqn:Hm;
    try discriminate; try exact IH.
  all: intros [= ->].
  all: apply (rmatch_group r Hd _ _ _ true) in Hm as (rest & g' & Hg & [= ->]);
    [|reflexivity].
  all: rewrite Hc in Hg; destruct g as [ds|]; simpl in Hg; [eauto | discriminate].
Qed.

Lemma patterns_well_grouped : Forall well_grouped (match_score_pattern :: patterns).
Proof. repeat constructor. Qed.

(** Group 1 of a match is a piece of the text. *)
Lemma search_within (r : regex) (s ds : string) :
  search r s = Some (Some ds) -> (String.length ds <= String.length s)%nat.
Proof.
  induction s as [|c s IH]; simpl;
    destruct (rmatch r _ None (fun _ g0 => Some g0)) as [g0|] eqn:Hm;
    try discriminate.
  - intros [= ->].
    apply (rmatch_within r _ _ _ _ 0%nat) in Hm as (rest & g' & _ & Hg & [= ->]);
      simpl; auto.
  - intros [= ->].
    apply (rmatch_within r _ _ _ _ (S (String.length s))) in Hm
      as (rest & g' & _ & Hg & [= ->]); simpl; auto.
  - intros H%IH. lia.
Qed.

(** Without any of the literal characters an expression needs, the
    search finds nothing. *)
Lemma search_without_head (r : regex) (cs : list ascii) (s : string) :
  literal_heads r = Some cs ->
  (forall c, In c cs -> occurs c s = false) ->
  search r s = None.
Proof.
  intros Hcs.
  induction s as [|x s IH]; intros Hno; simpl;
    destruct (rmatch r _ None (fun _ g0 => Some g0)) as [g0|] eqn:Hm.
  - destruct (rmatch_literal_head r _ _ _ _ _ Hcs Hm) as (c & Hin & Hc).
    rewrite (Hno c Hin) in Hc. discriminate.
  - reflexivity.
  - destruct (rmatch_literal_head r _ _ _ _ _ Hcs Hm) as (c & Hin & Hc).
    rewrite (Hno c Hin) in Hc. discriminate.
  - apply IH. intros c Hin. specialize (Hno c Hin). simpl in Hno.
    now apply orb_false_elim in Hno as [_ Hno].
Qed.

(** The test on a pattern is decided by the number [int] finds. *)
Lemma score_by_number (p : pattern) (text : string) :
  score_by p text =
    match number_found p text with
    | Return (Some score) => Return (if in_range score then Some score else None)
    | Return None => Return None
    | Raise e => Raise e
    end.
Proof.
  unfold score_by, number_found, in_range.
  destruct (search (compiled p) text) as [g|]; [|reflexivity].
  destruct (Py.int g) as [score|e]; [|reflexivity].
  now destruct ((0 <=? score)%Z && (score <=? 100)%Z).
Qed.

(** [int(match.group(1))] raises nothing but [ValueError], and only on
    more digits than it converts. *)
Lemma number_found_raises (p : pattern) (text e : string) :
  well_grouped p ->
  number_found p text = Raise e ->
  e = "ValueError" /\ exceeds_int_limit p text = true.
Proof.
  intros [Hd Hc]. unfold number_found, exceeds_int_limit.
  destruct (search (compiled p) text) as [g|] eqn:Hs; [|discriminate].
  destruct (search_group _ _ _ Hd Hc Hs) as (ds & -> & Hds).
  unfold Py.int. rewrite Hds.
  destruct (Py.int_max_str_digits <? Z.of_nat (String.length ds))%Z; [|discriminate].
  now intros [= <-].
Qed.

(** The loop over the patterns ends without a score, with a score in
    range, or with the [ValueError] of [int]. *)
Lemma first_score_cases (ps : list pattern) (text : string) :
  Forall well_grouped ps ->
  first_score ps text = Return None
  \/ (exists score, first_score ps text = Return (Some score) /\ in_range score = true)
  \/ (first_score ps text = Raise "ValueError"
      /\ List.existsb (fun p => exceeds_int_limit p text) ps = true).
Proof.
  induction 1 as [|p ps Hp _ IH]; cbn [first_score List.existsb]; [now left|].
  rewrite (score_by_number p text).
  destruct (number_found p text) as [[score|]|e] eqn:Hn.
  - destruct (in_range score) eqn:Hr.
    + right. left. eauto.
    + destruct IH as [IH | [IH | [IH Hex]]]; auto.
      right. right. rewrite Hex. now rewrite orb_true_r.
  - destruct IH as [IH | [IH | [IH Hex]]]; auto.
    right. right. rewrite Hex. now rewrite orb_true_r.
  - destruct (number_found_raises p text e Hp Hn) as [-> Hex].
    right. right. now rewrite Hex.
Qed.

Lemma first_score_none (ps : list pattern) (text : string) :
  List.forallb (fun p => match number_found p text with
                         | Return (Some score) => negb (in_range score)
                         | Return None => true
                         | Raise _ => false
                         end) ps = true ->
  first_score ps text = Return None.
Proof.
  induction ps as [|p ps IH]; cbn [first_score List.forallb]; [reflexivity|].
  intros [Hn Hps]%andb_prop.
  rewrite (score_by_number p text).
  destruct (number_found p text) as [[score|]|e]; [| auto | discriminate].
  apply negb_true_iff in Hn. rewrite Hn. auto.
Qed.

Lemma in_range_bounds (score : Z) : in_range score = true -> (0 <= score <= 100)%Z.
Proof. unfold in_range. intros [H1 H2]%andb_prop. lia. Qed.

Lemma base_score_cases (matches misses : nat) :
  base_score matches misses = 45%Z \/ base_score matches misses = 70%Z
  \/ base_score matches misses = 55%Z.
Proof. unfold base_score. repeat case_match; auto. Qed.

Lemma keyword_score_range (text : string) : (25 <= keyword_score text <= 90)%Z.
Proof.
  unfold keyword_score.
  destruct (base_score_cases (findall_len match_words text) (findall_len miss_words text))
    as [-> | [-> | ->]]; repeat case_match; lia.
Qed.

(** Without a number in range, and with [int] converting what the
    patterns capture, the result is the keyword score. *)
Lemma extract_score_fallback (result : string) :
  no_numeric_score result = true ->
  extract_score_from_result result = Return (keyword_score (Py.lower result)).
Proof.
  unfold no_numeric_score. cbn [List.forallb].
  intros [Hn Hps]%andb_prop.
  unfold extract_score_from_result.
  rewrite (score_by_number match_score_pattern).
  rewrite (first_score_none _ _ Hps).
  destruct (number_found match_score_pattern (Py.lower result)) as [[score|]|e];
    [| reflexivity | discriminate].
  apply negb_true_iff in Hn. now rewrite Hn.
Qed.

(** The hypothesis of the fallback adds, to the words of the
    specification, that [int] converts what the patterns capture. *)
Lemma no_numeric_score_spec (result : string) :
  no_numeric_score result
  = yields_no_score result
    && negb (List.existsb (fun p => exceeds_int_limit p (Py.lower result))
                          (match_score_pattern :: patterns)).
Proof.
  unfold no_numeric_score, yields_no_score.
  generalize (Py.lower result) as text. intros text.
  pose proof patterns_well_grouped as Hw.
  induction Hw as [|p ps [Hd Hc] _ IH]; [reflexivity|].
  cbn [List.forallb List.existsb]. rewrite IH.
  unfold number_found, exceeds_int_limit.
  destruct (search (compiled p) text) as [g|] eqn:Hs.
  - destruct (search_group _ _ _ Hd Hc Hs) as (ds & -> & Hds).
    unfold Py.int. rewrite Hds.
    destruct (Py.int_max_str_digits <? Z.of_nat (String.length ds))%Z.
    + cbn [orb negb andb]. now rewrite !andb_false_r.
    + cbn [orb].
      destruct (negb (in_range (Py.digits_value 0 ds))); cbn [andb]; reflexivity.
  - reflexivity.
Qed.

(** The result is an integer between 0 and 100, unless [int] raises on
    what a pattern captures. *)
Lemma extract_score_outcome (result : string) :
  (exists n, extract_score_from_result result = Return n /\ (0 <= n <= 100)%Z)
  \/ (extract_score_from_result result = Raise "ValueError"
      /\ List.existsb (fun p => exceeds_int_limit p (Py.lower result))
           (match_score_pattern :: patterns) = true).
Proof.
  pose proof patterns_well_grouped as Hw.
  apply Forall_cons_1 in Hw as [Hw0 Hw].
  unfold extract_score_from_result. cbn [List.existsb].
  rewrite (score_by_number match_score_pattern).
  assert (Hrest :
    (exists n,
        match first_score patterns (Py.lower result) with
        | Return (Some score) => Return score
        | Return None => Return (keyword_score (Py.lower result))
        | Raise e => Raise e
        end = Return n /\ (0 <= n <= 100)%Z)
    \/ (match first_score patterns (Py.lower result) with
        | Return (Some score) => Return score
        | Return None => Return (keyword_score (Py.lower result))
        | Raise e => Raise e
        end = Raise "ValueError"
        /\ List.existsb (fun p => exceeds_int_limit p (Py.lower result)) patterns = true)).
  { destruct (first_score_cases patterns (Py.lower result) Hw)
      as [-> | [(n & -> & Hn) | [-> Hex]]].
    - left. eexists; split; [reflexivity|].
      pose proof (keyword_score_range (Py.lower result)). lia.
    - left. exists n. split; [reflexivity | now apply in_range_bounds].
    - right. auto. }
  destruct (number_found match_score_pattern (Py.lower result)) as [[score|]|e] eqn:Hn.
  - destruct (in_range score) eqn:Hr.
    + left. exists score. split; [reflexivity | now apply in_range_bounds].
    + destruct Hrest as [Hrest | [Hrest Hex]]; [now left|].
      right. split; [exact Hrest|]. rewrite Hex. apply orb_true_r.
  - destruct Hrest as [Hrest | [Hrest Hex]]; [now left|].
    right. split; [exact Hrest|]. rewrite Hex. apply orb_true_r.
  - destruct (number_found_raises _ _ e Hw0 Hn) as [-> Hex].
    right. split; [reflexivity|]. now rewrite Hex.
Qed.

(** On a text that has no more characters than [int] converts digits,
    nothing is raised. *)
Lemma extract_score_short (result : string) :
  (Z.of_nat (String.length result) <= Py.int_max_str_digits)%Z ->
  exists n, extract_score_from_result result = Return n /\ (0 <= n <= 100)%Z.
Proof.
  intros Hshort.
  destruct (extract_score_outcome result) as [H | [_ Hex]]; [exact H|].
  apply List.existsb_exists in Hex as (p & _ & Hp).
  unfold exceeds_int_limit in Hp.
  destruct (search (compiled p) (Py.lower result)) as [[ds|]|] eqn:Hs; try discriminate.
  apply search_within in Hs. rewrite length_lower in Hs.
  apply Z.ltb_lt in Hp. lia.
Qed.

(** Whatever the text, the crew functions get a score or an exception
    from the extraction; a score is in range. *)
Lemma extract_score_range (result : string) (n : Z) :
  extract_score_from_result result = Return n -> (0 <= n <= 100)%Z.
Proof.
  intros Hn.
  destruct (extract_score_outcome result) as [(n' & Hn' & Hr) | [Hraise _]];
    [|congruence].
  rewrite Hn in Hn'. injection Hn' as <-. exact Hr.
Qed.

End ScoreFacts.

Section MatchScoreLine.
Import Re ScreeningCrew.

Lemma find_cons (l : string) (c : ascii) (s : string) :
  Py.find l (String c s)
  = if String.prefix l (String c s) then Some 0%nat else S <$> Py.find l s.
Proof. reflexivity. Qed.

Lemma search_cons (r : regex) (c : ascii) (s : string) :
  search r (String c s)
  = match rmatch r (String c s) None (fun _ g => Some g) with
    | Some g => Some g
    | None => search r s
    end.
Proof. reflexivity. Qed.

(** Before the first occurrence of its leading literal, an expression
    matches nowhere. *)
Lemma search_skip (l : string) (r : regex) (a b : string) :
  Py.find l (a +:+ b) = Some (String.length a) ->
  search (Seq (Lit l) r) (a +:+ b) = search (Seq (Lit l) r) b.
Proof.
  induction a as [|c a IH]; [reflexivity|].
  rewrite append_cons, find_cons, search_cons. simpl String.length.
  destruct (String.prefix l (String c (a +:+ b))) eqn:Hp; [discriminate|].
  destruct (Py.find l (a +:+ b)) as [i|] eqn:Hf; cbn [fmap option_fmap option_map];
    [|discriminate].
  intros [= ->].
  cbn [rmatch]. rewrite (strip_prefix_none _ _ Hp). now apply IH.
Qed.

Lemma digits_value_nonneg (ds : string) (acc : Z) :
  Py.all_digits ds = true -> (0 <= acc)%Z -> (0 <= Py.digits_value acc ds)%Z.
Proof.
  unfold Py.all_digits.
  revert acc; induction ds as [|c ds IH]; simpl; intros acc Hds Hacc; [assumption|].
  apply andb_prop in Hds as [Hc Hds].
  apply IH; [assumption|].
  unfold Py.isdigit, Py.between in Hc.
  apply andb_prop in Hc as [Hlo _]. apply N.leb_le in Hlo. lia.
Qed.

(** At a [match_score: n] the first pattern captures exactly [n]. *)
Lemma match_score_here (ds post : string) :
  Py.is_digit_string ds = true ->
  Py.starts_in Py.isdigit post = false ->
  search (compiled match_score_pattern) ("match_score: " +:+ ds +:+ post)
  = Some (Some ds).
Proof.
  unfold Py.is_digit_string, Py.all_digits.
  intros [Hne Hds]%andb_prop Hpost.
  destruct ds as [|d ds]; [discriminate|].
  simpl in Hds. apply andb_prop in Hds as [Hd Hds].
  assert (Hm : rmatch (compiled match_score_pattern)
                 ("match_score" +:+ ": " +:+ String d ds +:+ post) None
                 (fun _ g => Some g) = Some (Some (String d ds))).
  { cbn [compiled match_score_pattern rmatch].
    rewrite strip_prefix_append.
    apply star_greedy.
    - reflexivity.
    - rewrite append_cons. simpl. now apply digit_not_separator.
    - rewrite append_cons at 1. cbn [rmatch digits_group]. rewrite Hd.
      apply star_greedy; [exact Hds | exact Hpost |].
      rewrite <- append_cons, take_append. reflexivity. }
  change ("match_score: " +:+ String d ds +:+ post)
    with (String "m" ("atch_score" +:+ ": " +:+ String d ds +:+ post)).
  change ("match_score" +:+ ": " +:+ String d ds +:+ post)
    with (String "m" ("atch_score" +:+ ": " +:+ String d ds +:+ post)) in Hm.
  rewrite search_cons. now rewrite Hm.
Qed.

(** At a [rating: n] the rating pattern captures [n]. *)
Lemma rating_here (ds : string) :
  Py.is_digit_string ds = true ->
  search (Seq (Lit "rating") (Seq (Plus space_or_colon) digits_group)) ("rating: " +:+ ds)
  = Some (Some ds).
Proof.
  unfold Py.is_digit_string, Py.all_digits.
  intros [Hne Hds]%andb_prop.
  destruct ds as [|d ds]; [discriminate|].
  simpl in Hds. apply andb_prop in Hds as [Hd Hds].
  assert (Hm : rmatch (Seq (Lit "rating") (Seq (Plus space_or_colon) digits_group))
                 ("rating" +:+ String ":" (" " +:+ (String d ds +:+ EmptyString))) None
                 (fun _ g => Some g) = Some (Some (String d ds))).
  { cbn [rmatch].
    rewrite strip_prefix_append.
    change (space_or_colon ":") with true. cbv iota.
    apply star_greedy.
    - reflexivity.
    - rewrite append_cons. simpl. now apply digit_not_separator.
    - rewrite append_cons at 1. cbn [rmatch digits_group]. rewrite Hd.
      apply star_greedy; [exact Hds | reflexivity |].
      rewrite <- append_cons, take_append. reflexivity. }
  rewrite append_nil_r in Hm.
  change ("rating: " +:+ String d ds)
    with (String "r" ("ating" +:+ String ":" (" " +:+ String d ds))).
  change ("rating" +:+ String ":" (" " +:+ String d ds))
    with (String "r" ("ating" +:+ String ":" (" " +:+ String d ds))) in Hm.
  rewrite search_cons. now rewrite Hm.
Qed.

(** A character that is no digit and not in [rating: ] is not in the
    text. *)
Lemma rating_text_without (ds : string) (cs : list ascii) :
  Py.all_digits ds = true ->
  List.forallb (fun c => negb (Py.isdigit c) && negb (occurs c "rating: ")) cs = true ->
  forall c, In c cs -> occurs c ("rating: " +:+ ds) = false.
Proof.
  intros Hall Hcs c Hin.
  rewrite List.forallb_forall in Hcs. specialize (Hcs c Hin).
  apply andb_prop in Hcs as [Hc1 Hc2].
  apply negb_true_iff in Hc1, Hc2.
  now rewrite occurs_append, Hc2, (occurs_digits c ds Hall Hc1).
Qed.

(** On [rating: ] and more digits than [int] converts, no pattern yields a
    number in range, and the extraction raises. *)
Lemma rating_too_long (ds : string) :
  Py.is_digit_string ds = true ->
  (Py.int_max_str_digits <? Z.of_nat (String.length ds))%Z = true ->
  in_range (Py.digits_value 0 ds) = false ->
  yields_no_score ("rating: " +:+ ds) = true
  /\ extract_score_from_result ("rating: " +:+ ds) = Raise "ValueError".
Proof.
  intros Hds Hlong Hout.
  assert (Hall : Py.all_digits ds = true)
    by (unfold Py.is_digit_string in Hds; now apply andb_prop in Hds).
  assert (Hlower : Py.lower ("rating: " +:+ ds) = "rating: " +:+ ds)
    by (now rewrite lower_append, (lower_digits ds Hall)).
  split.
  - unfold yields_no_score. rewrite Hlower.
    cbn [List.forallb patterns match_score_pattern compiled].
    do 3 (erewrite search_without_head;
          [| reflexivity | apply (rating_text_without ds _ Hall); reflexivity]).
    rewrite (rating_here ds Hds).
    do 2 (erewrite search_without_head;
          [| reflexivity | apply (rating_text_without ds _ Hall); reflexivity]).
    now rewrite Hout.
  - unfold extract_score_from_result. rewrite Hlower.
    cbn [first_score patterns]. unfold score_by.
    cbn [match_score_pattern compiled].
    do 3 (erewrite search_without_head;
          [| reflexivity | apply (rating_text_without ds _ Hall); reflexivity]).
    rewrite (rating_here ds Hds).
    unfold Py.int. now rewrite Hds, Hlong.
Qed.
End MatchScoreLine.

(** C1 (as amended).  [extract_score_from_result] returns an integer
    between 0 and 100 or raises [ValueError]; it raises only when the
    leftmost match of a numeric pattern captures more than 4300 digits,
    hence never on a text of at most 4300 characters; and when the first
    occurrence of [match_score] in the lower-cased text is a
    [MATCH_SCORE: n] whose number is at most 100 and written with at most
    4300 digits, it returns that [n]. *)
Theorem extract_score_range_and_first_match_score :
  (forall result : string,
      (exists n, ScreeningCrew.extract_score_from_result result = Return n
                 /\ (0 <= n <= 100)%Z)
      \/ (ScreeningCrew.extract_score_from_result result = Raise "ValueError"
          /\ List.existsb
               (fun p => ScreeningCrew.exceeds_int_limit p (Py.lower result))
               (ScreeningCrew.match_score_pattern :: ScreeningCrew.patterns) = true))
  /\
  (forall result : string,
      (Z.of_nat (String.length result) <= Py.int_max_str_digits)%Z ->
      exists n, ScreeningCrew.extract_score_from_result result = Return n
                /\ (0 <= n <= 100)%Z)
  /\
  (forall before digits after : string,
      Py.find "match_score" (Py.lower (before +:+ "MATCH_SCORE: " +:+ digits +:+ after))
      = Some (String.length before) ->
      Py.is_digit_string digits = true ->
      (Z.of_nat (String.length digits) <= Py.int_max_str_digits)%Z ->
      Py.starts_in Py.isdigit after = false ->
      (Py.digits_value 0 digits <= 100)%Z ->
      ScreeningCrew.extract_score_from_result
        (before +:+ "MATCH_SCORE: " +:+ digits +:+ after)
      = Return (Py.digits_value 0 digits)).
Proof.
  split; [exact extract_score_outcome|].
  split; [exact extract_score_short|].
  intros before digits after Hfind Hdigits Hlength Hafter Hle.
  assert (Hall : Py.all_digits digits = true)
    by (unfold Py.is_digit_string in Hdigits; now apply andb_prop in Hdigits).
  unfold ScreeningCrew.extract_score_from_result, ScreeningCrew.score_by.
  rewrite !lower_append in *.
  rewrite (lower_digits digits Hall) in *.
  change (Py.lower "MATCH_SCORE: ") with "match_score: " in *.
  rewrite <- (length_lower before) in Hfind.
  pose proof (search_skip "match_score"
                (Re.Seq (Re.Star ScreeningCrew.space_or_colon) ScreeningCrew.digits_group)
                _ _ Hfind) as Hskip.
  change (Re.Seq (Re.Lit "match_score") _)
    with (ScreeningCrew.compiled ScreeningCrew.match_score_pattern) in Hskip.
  rewrite Hskip.
  rewrite (match_score_here digits (Py.lower after) Hdigits)
    by (now rewrite starts_in_lower).
  unfold Py.int. rewrite Hdigits.
  destruct (Z.ltb_spec Py.int_max_str_digits (Z.of_nat (String.length digits))); [lia|].
  pose proof (digits_value_nonneg digits 0 Hall ltac:(lia)) as Hnn.
  destruct (Z.leb_spec 0 (Py.digits_value 0 digits)); [|lia].
  destruct (Z.leb_spec (Py.digits_value 0 digits) 100); [|lia].
  reflexivity.
Qed.

Lemma extract_score_first_match_score_witness :
  ScreeningCrew.extract_score_from_result
    (("Assessment" +:+ newline) +:+ "MATCH_SCORE: " +:+ "72" +:+ (newline +:+ "Hire"))
  = Return 72%Z.
Proof.
  apply (proj2 (proj2 extract_score_range_and_first_match_score)
           ("Assessment" +:+ newline) "72" (newline +:+ "Hire")).
  - vm_compute. reflexivity.
  - vm_compute. reflexivity.
  - vm_compute. discriminate.
  - vm_compute. reflexivity.
  - vm_compute. discriminate.
Defined.

(** C1, as stated, fails: a text can hold the line [MATCH_SCORE: 50] and
    yet score 55, because an earlier [match_score] carries a number out of
    range. *)
Lemma extract_score_line_not_returned :
  ~ (forall (result : string) (n : Z),
        (0 <= n <= 100)%Z ->
        In ("MATCH_SCORE: " +:+ pretty n) (Py.split newline result) ->
        ScreeningCrew.extract_score_from_result result = Return n).
Proof.
  intros H.
  specialize (H ("match_score: 250" +:+ newline +:+ "MATCH_SCORE: 50") 50%Z ltac:(lia)).
  assert (Hin : In ("MATCH_SCORE: " +:+ pretty 50%Z)
                   (Py.split newline ("match_score: 250" +:+ newline +:+ "MATCH_SCORE: 50"))).
  { vm_compute. right. left. reflexivity. }
  specialize (H Hin). vm_compute in H. discriminate H.
Qed.

(** C4 (as amended).  When no numeric pattern finds a number between 0
    and 100, and none captures more digits than [int] converts, the
    result is the keyword count: a base of 45 when the miss words outnumber
    the match words, 70 when the match words exceed twice the miss words, 55
    otherwise; plus 20 capped at 90 for "strong hire", minus 20 floored at
    25 for "no hire" or "reject", plus 10 capped at 80 for "hire", the base
    itself otherwise; and it lies between 25 and 90. *)
Theorem extract_score_keyword_fallback (result : string) :
  ScreeningCrew.no_numeric_score result = true ->
  let text := Py.lower result in
  let matches := Re.findall_len ScreeningCrew.match_words text in
  let misses := Re.findall_len ScreeningCrew.miss_words text in
  let base := (if (matches <? misses)%nat then 45
               else if (2 * misses <? matches)%nat then 70
               else 55)%Z in
  let score := (if Py.contains "strong hire" text then Z.min (base + 20) 90
                else if Py.contains "no hire" text || Py.contains "reject" text
                     then Z.max (base - 20) 25
                else if Py.contains "hire" text then Z.min (base + 10) 80
                else base)%Z in
  ScreeningCrew.extract_score_from_result result = Return score
  /\ (25 <= score <= 90)%Z.
Proof.
  intros Hnone text matches misses base score.
  assert (Hscore : score = ScreeningCrew.keyword_score text).
  { unfold score, base, ScreeningCrew.keyword_score, ScreeningCrew.base_score.
    fold matches misses. rewrite (Nat.mul_comm misses 2).
    repeat case_match; reflexivity. }
  rewrite Hscore. split.
  - now apply extract_score_fallback.
  - apply keyword_score_range.
Qed.

Lemma extract_score_keyword_fallback_witness :
  ScreeningCrew.extract_score_from_result "Strong hire: meets the bar, has the skills"
  = Return 90%Z
  /\ (25 <= 90 <= 90)%Z.
Proof.
  apply (extract_score_keyword_fallback "Strong hire: meets the bar, has the skills").
  vm_compute. reflexivity.
Defined.

(** C4, as stated, fails: in [rating: 1] followed by 4300 zeros no
    pattern yields a number between 0 and 100, and yet the keywords are
    not counted, because [int] raises on the 4301 digits. *)
Lemma extract_score_no_fallback_on_long_number :
  ~ (forall result : string,
        ScreeningCrew.yields_no_score result = true ->
        exists score : Z,
          ScreeningCrew.extract_score_from_result result = Return score
          /\ (25 <= score <= 90)%Z).
Proof.
  intros H.
  destruct (rating_too_long ("1" +:+ Py.repeat "0" 4300)) as [Hnone Hraise].
  - vm_compute. reflexivity.
  - vm_compute. reflexivity.
  - vm_compute. reflexivity.
  - destruct (H _ Hnone) as (score & Hscore & _).
    rewrite Hraise in Hscore. discriminate Hscore.
Qed.

(** C7.  [extract_recommendation] returns one of [strong_hire],
    [strong_no_hire], [no_hire], [hire] and [review]; [strong_hire] whenever
    the lower-cased text contains "strong hire"; [review] whenever it
    contains none of the hire keywords. *)
Theorem extract_recommendation_values (result : string) :
  In (ScreeningCrew.extract_recommendation result)
     [ "strong_hire"; "strong_no_hire"; "no_hire"; "hire"; "review" ]
  /\ (Py.contains "strong hire" (Py.lower result) = true ->
      ScreeningCrew.extract_recommendation result = "strong_hire")
  /\ (Py.contains "strong hire" (Py.lower result) = false ->
      Py.contains "strong no hire" (Py.lower result) = false ->
      Py.contains "no hire" (Py.lower result) = false ->
      Py.contains "hire" (Py.lower result) = false ->
      ScreeningCrew.extract_recommendation result = "review").
Proof.
  unfold ScreeningCrew.extract_recommendation.
  repeat split.
  - repeat case_match; simpl; auto 10.
  - now intros ->.
  - now intros -> -> -> ->.
Qed.

Lemma extract_recommendation_values_witness :
  ScreeningCrew.extract_recommendation "RECOMMENDATION: Strong Hire" = "strong_hire"
  /\ ScreeningCrew.extract_recommendation "RECOMMENDATION: Maybe" = "review".
Proof.
  split.
  - apply (proj1 (proj2 (extract_recommendation_values "RECOMMENDATION: Strong Hire"))).
    vm_compute. reflexivity.
  - apply (proj2 (proj2 (extract_recommendation_values "RECOMMENDATION: Maybe")));
      vm_compute; reflexivity.
Defined.


(** ** The crews *)

Section CrewFacts.
Import ScreeningCrew.
Variable World : Type.
Variable path_exists : World -> string -> bool.
Variable kickoff : World -> crew_request -> outcome string * World.

Lemma failed_is_failure (e : string) (score : Z) : is_failure (failed e score).
Proof. unfold is_failure, failed. repeat split; eauto. Qed.

(** [run_crew] returns a dict with an integer score whatever the agents
    do. *)
Lemma run_crew_returns (w : World) (request : crew_request) (score_on_error : Z) :
  exists d, fst (run_crew World kickoff w request score_on_error) = Return d
            /\ exists score, d !! "match_score" = Some (PInt score).
Proof.
  unfold run_crew.
  destruct (kickoff w request) as [[result_str|e] w']; simpl.
  - unfold completed.
    destruct (extract_score_from_result result_str) as [n|e];
      eexists; (split; [reflexivity|]); eexists; reflexivity.
  - eexists; split; [reflexivity|]. eexists. reflexivity.
Qed.

Lemma run_crew_raised (w : World) (request : crew_request) (score_on_error : Z) (e : string) :
  fst (kickoff w request) = Raise e ->
  fst (run_crew World kickoff w request score_on_error) = Return (failed e score_on_error).
Proof.
  unfold run_crew.
  destruct (kickoff w request) as [[result_str|e'] w']; simpl; [discriminate|].
  now intros [= ->].
Qed.

Lemma screen_candidate_returns (w : World) (resume_path : string)
      (job_requirements : list requirement) (job_description : string)
      (min_experience_years : Z) (experience_level : string) :
  exists d, fst (screen_candidate World path_exists kickoff w resume_path job_requirements
                   job_description min_experience_years experience_level) = Return d
            /\ exists score, d !! "match_score" = Some (PInt score).
Proof.
  unfold screen_candidate.
  destruct (path_exists w resume_path); cbn [negb fst].
  - apply run_crew_returns.
  - eexists; split; [reflexivity|]. eexists. reflexivity.
Qed.

Lemma quick_screen_candidate_returns (w : World) (resume_text : string)
      (job_requirements : list requirement) (job_description : string)
      (min_experience_years : Z) :
  exists d, fst (quick_screen_candidate World kickoff w resume_text job_requirements
                   job_description min_experience_years) = Return d
            /\ exists score, d !! "match_score" = Some (PInt score).
Proof. unfold quick_screen_candidate. apply run_crew_returns. Qed.

End CrewFacts.

Section EntryFacts.
Import ScreeningCrew.
Variable World : Type.
Variable path_exists : World -> string -> bool.
Variable build : World -> Entry.brief -> outcome unit * World.
Variable kickoff : World -> Entry.brief -> outcome string * World.








(** On requirement rows and with a crew that gets built, the entry points
    are the calls the handlers make. *)
Lemma join_items_rows (job_requirements : list requirement) :
  mapM (fun r => Entry.join_item (get r "skill" (PStr ""))) (List.map row job_requirements)
  = Return (List.map skill job_requirements).
Proof.
  induction job_requirements as [|r rs IH]; [reflexivity|].
  cbn [List.map mapM]. rewrite IH.
  unfold get, row, dict_of. cbn [app list_to_map foldr uncurry].
  now rewrite lookup_insert_eq.
Qed.

Lemma entry_on_rows (w : World) (resume_path resume_text : string)
      (job_requirements : list requirement) (job_description : string)
      (min_experience_years : Z) (experience_level : string) :
  (forall w' b, build w' b = (Return tt, w')) ->
  Entry.screen_candidate World path_exists build kickoff w resume_path
    (List.map row job_requirements) job_description min_experience_years experience_level
  = screen_candidate World path_exists (fun w' request => kickoff w' (brief_of request))
      w resume_path job_requirements job_description min_experience_years experience_level
  /\ Entry.quick_screen_candidate World build kickoff w resume_text
       (List.map row job_requirements) job_description min_experience_years
     = quick_screen_candidate World (fun w' request => kickoff w' (brief_of request))
         w resume_text job_requirements job_description min_experience_years.
Proof.
  intros Hbuilt. split.
  - unfold Entry.screen_candidate, screen_candidate.
    destruct (path_exists w resume_path); cbn [negb]; [|reflexivity].
    unfold Entry.run_crew, run_crew, Entry.try_kickoff. rewrite Hbuilt.
    destruct job_requirements as [|r rs]; cbn [List.map brief_of].
    + now rewrite List.map_map.
    + reflexivity.
  - unfold Entry.quick_screen_candidate, quick_screen_candidate.
    destruct job_requirements as [|r rs].
    + cbn [List.map].
      match goal with
      | |- context [mapM _ ?rows] =>
          replace rows
            with (List.map row
                    (List.map (fun s => {| skill := Py.title s; level := None;
                                           required := true |})
                              (List.firstn 10 (found_skills common_skills_quick
                                                 job_description))))
            by (now rewrite List.map_map)
      end.
      rewrite join_items_rows.
      unfold Entry.run_crew, run_crew, Entry.try_kickoff. now rewrite Hbuilt.
    + cbn [List.map].
      change (row r :: List.map row rs) with (List.map row (r :: rs)).
      rewrite join_items_rows.
      unfold Entry.run_crew, run_crew, Entry.try_kickoff. now rewrite Hbuilt.
Qed.

End EntryFacts.




(** ** Ranking *)

Section SortFacts.
Context {A : Type} (key : A -> Z).

Lemma insert_desc_perm (x : A) (l : list A) :
  Permutation (ScreeningCrew.insert_desc key x l) (x :: l).
Proof.
  induction l as [|y l IH]; simpl; [reflexivity|].
  destruct (key x <? key y)%Z; [|reflexivity].
  rewrite IH. apply perm_swap.
Qed.

Lemma sort_desc_perm (l : list A) : Permutation (ScreeningCrew.sort_desc key l) l.
Proof.
  induction l as [|x l IH]; simpl; [reflexivity|].
  rewrite insert_desc_perm. now constructor.
Qed.

Lemma insert_desc_sorted (x : A) (l : list A) :
  StronglySorted (fun a b => (key b <= key a)%Z) l ->
  StronglySorted (fun a b => (key b <= key a)%Z) (ScreeningCrew.insert_desc key x l).
Proof.
  induction 1 as [|y l Hl IH Hy]; simpl.
  - repeat constructor.
  - destruct (Z.ltb_spec (key x) (key y)) as [Hlt|Hge].
    + constructor; [exact IH|].
      rewrite (insert_desc_perm x l). constructor; [lia | exact Hy].
    + constructor; [now constructor|].
      constructor; [exact Hge|].
      eapply Forall_impl; [exact Hy|]. simpl. intros z Hz. lia.
Qed.

Lemma sort_desc_sorted (l : list A) :
  StronglySorted (fun a b => (key b <= key a)%Z) (ScreeningCrew.sort_desc key l).
Proof.
  induction l as [|x l IH]; simpl; [constructor | now apply insert_desc_sorted].
Qed.

End SortFacts.

Section RankingFacts.
Import ScreeningCrew.

Lemma all_keys_ints (results : list dict) :
  Forall (fun d => exists z, d !! "match_score" = Some (PInt z)) results ->
  all_keys results = Return (List.map (fun d => (score_of d, d)) results).
Proof.
  induction 1 as [|d results [z Hz] _ IH]; simpl; [reflexivity|].
  unfold match_score_key, get, score_of. rewrite Hz, IH. reflexivity.
Qed.

Lemma sort_by_match_score_ints (results : list dict) :
  Forall (fun d => exists z, d !! "match_score" = Some (PInt z)) results ->
  exists sorted,
    sort_by_match_score results = Return sorted
    /\ Permutation sorted results
    /\ StronglySorted (fun a b => (score_of b <= score_of a)%Z) sorted.
Proof.
  intros Hints. unfold sort_by_match_score. rewrite (all_keys_ints results Hints).
  eexists; split; [reflexivity|].
  set (keyed := List.map (fun d => (score_of d, d)) results).
  assert (Hsnd : List.map snd keyed = results).
  { unfold keyed. rewrite List.map_map. simpl. apply List.map_id. }
  assert (Hfst : Forall (fun kd => fst kd = score_of (snd kd)) keyed).
  { unfold keyed. apply List.Forall_forall. intros kd Hin.
    apply List.in_map_iff in Hin as (d & <- & _). reflexivity. }
  split.
  - etransitivity; [apply Permutation_map, sort_desc_perm|].
    now rewrite Hsnd.
  - pose proof (sort_desc_sorted fst keyed) as Hsorted.
    assert (Hfst' : Forall (fun kd => fst kd = score_of (snd kd)) (sort_desc fst keyed)).
    { eapply Permutation_Forall; [|exact Hfst]. symmetry. apply sort_desc_perm. }
    clear Hfst Hsnd. induction Hsorted as [|kd l Hl IH Hkd]; simpl; constructor.
    + apply IH. now inversion Hfst'.
    + inversion Hfst' as [|? ? Hhd Htl]; subst.
      apply List.Forall_forall. intros d Hin.
      apply List.in_map_iff in Hin as (kd' & <- & Hin).
      rewrite List.Forall_forall in Hkd, Htl.
      rewrite <- Hhd, <- (Htl kd' Hin). now apply Hkd.
Qed.

Variable World : Type.
Variable path_exists : World -> string -> bool.
Variable kickoff : World -> crew_request -> outcome string * World.

Lemma screen_each_cons (w : World) (candidate : candidate_ref)
      (rest : list candidate_ref) (job_requirements : list requirement)
      (job_description : string) (min_experience_years : Z) (experience_level : string) :
  screen_each World path_exists kickoff w (candidate :: rest) job_requirements
    job_description min_experience_years experience_level
  = match screen_candidate World path_exists kickoff w (resume_path candidate)
            job_requirements job_description min_experience_years experience_level with
    | (Return result, w1) =>
        match screen_each World path_exists kickoff w1 rest job_requirements
                job_description min_experience_years experience_level with
        | (Return results, w2) =>
            (Return (<["candidate_id" := PStr (id candidate)]> result :: results), w2)
        | (Raise e, w2) => (Raise e, w2)
        end
    | (Raise e, w1) => (Raise e, w1)
    end.
Proof. reflexivity. Qed.

(** The loop returns one result per candidate, in order, each with the
    candidate's id and an integer score. *)
Lemma screen_each_results (candidates : list candidate_ref) :
  forall (w : World) (job_requirements : list requirement) (job_description : string)
         (min_experience_years : Z) (experience_level : string),
  exists results,
    fst (screen_each World path_exists kickoff w candidates job_requirements
           job_description min_experience_years experience_level) = Return results
    /\ List.map (fun d => d !! "candidate_id") results
       = List.map (fun c => Some (PStr (id c))) candidates
    /\ Forall (fun d => exists z, d !! "match_score" = Some (PInt z)) results.
Proof.
  induction candidates as [|candidate rest IH]; intros w reqs desc min_exp level.
  - exists []. repeat split; constructor.
  - rewrite screen_each_cons.
    destruct (screen_candidate_returns World path_exists kickoff w
                (resume_path candidate) reqs desc min_exp level) as (d & Hd & z & Hz).
    destruct (screen_candidate World path_exists kickoff w (resume_path candidate)
                reqs desc min_exp level) as [r w1].
    cbn [fst] in Hd. subst r.
    destruct (IH w1 reqs desc min_exp level) as (results & Hres & Hids & Hints).
    destruct (screen_each World path_exists kickoff w1 rest reqs desc min_exp level)
      as [r w2].
    cbn [fst] in Hres. subst r. cbn [fst].
    eexists; split; [reflexivity|]. split.
    + cbn [List.map]. rewrite lookup_insert_eq. now rewrite Hids.
    + constructor; [|exact Hints].
      exists z. rewrite lookup_insert_ne by discriminate. exact Hz.
Qed.

End RankingFacts.

(** C6.  [screen_multiple_candidates] returns one result per input
    candidate, each carrying that candidate's id as [candidate_id], ordered
    by non-increasing match score. *)
Theorem screen_multiple_candidates_ranked
        (World : Type) (path_exists : World -> string -> bool)
        (kickoff : World -> ScreeningCrew.crew_request -> outcome string * World)
        (w : World) (candidates : list ScreeningCrew.candidate_ref)
        (job_requirements : list ScreeningCrew.requirement) (job_description : string)
        (min_experience_years : Z) (experience_level : string) :
  exists results,
    fst (ScreeningCrew.screen_multiple_candidates World path_exists kickoff w candidates
           job_requirements job_description min_experience_years experience_level)
    = Return results
    /\ List.length results = List.length candidates
    /\ Permutation (List.map (fun d => d !! "candidate_id") results)
                   (List.map (fun c => Some (PStr (ScreeningCrew.id c))) candidates)
    /\ Forall (fun d => exists z, d !! "match_score" = Some (PInt z)) results
    /\ StronglySorted
         (fun a b => (ScreeningCrew.score_of b <= ScreeningCrew.score_of a)%Z) results.
Proof.
  unfold ScreeningCrew.screen_multiple_candidates.
  destruct (screen_each_results World path_exists kickoff candidates w job_requirements
              job_description min_experience_years experience_level)
    as (results & Hres & Hids & Hints).
  destruct (ScreeningCrew.screen_each World path_exists kickoff w candidates
              job_requirements job_description min_experience_years experience_level)
    as [r w'].
  cbn [fst] in Hres. subst r. cbn [fst].
  destruct (sort_by_match_score_ints results Hints) as (sorted & -> & Hperm & Hsorted).
  exists sorted. split; [reflexivity|].
  assert (Hmap : Permutation (List.map (fun d : dict => d !! "candidate_id") sorted)
                   (List.map (fun c => Some (PStr (ScreeningCrew.id c))) candidates)).
  { rewrite <- Hids. now apply Permutation_map. }
  repeat split.
  - apply Permutation_length in Hmap. now rewrite !List.length_map in Hmap.
  - exact Hmap.
  - eapply Permutation_Forall; [symmetry; exact Hperm | exact Hints].
  - exact Hsorted.
Qed.


(** ** Skill matching *)

Section SkillMatcherFacts.
Import SkillMatcher.

Lemma mapM_lower_strip (skills : list json) :
  List.forallb is_text skills = true ->
  mapM lower_strip skills = Return (List.map normal skills).
Proof.
  induction skills as [|v skills IH]; simpl; [reflexivity|].
  intros [Hv Hs]%andb_prop.
  destruct v; try discriminate. rewrite (IH Hs). reflexivity.
Qed.

Lemma is_matched_normal (skills : list json) (req : json) :
  is_matched (List.map normal skills) (skill_of req) = counts_as_matched skills req.
Proof.
  unfold is_matched, counts_as_matched.
  induction skills as [|v skills IH]; simpl; [reflexivity | now rewrite IH].
Qed.

(** What the loop has tallied after the requirements [reqs]. *)
Lemma tally_requirements (skills : list json) (reqs : list json) :
  List.forallb valid_requirement reqs = true ->
  forall t : tally,
    foldM (tally_requirement (List.map normal skills)) t reqs
    = Return
        {| matched_required :=
             matched_required t ++
             List.map skill_of
               (List.filter (fun r => is_required r && counts_as_matched skills r) reqs);
           missing_required :=
             missing_required t ++
             List.map skill_of
               (List.filter (fun r => is_required r && negb (counts_as_matched skills r)) reqs);
           matched_optional :=
             matched_optional t ++
             List.map skill_of
               (List.filter (fun r => negb (is_required r) && counts_as_matched skills r) reqs);
           missing_optional :=
             missing_optional t ++
             List.map skill_of
               (List.filter (fun r => negb (is_required r)
                                      && negb (counts_as_matched skills r)) reqs) |}.
Proof.
  induction reqs as [|req reqs IH]; intros Hvalid t.
  - simpl. rewrite !app_nil_r. now destruct t.
  - cbn [List.forallb] in Hvalid. apply andb_prop in Hvalid as [Hreq Hreqs].
    cbn [foldM].
    assert (Hstep : tally_requirement (List.map normal skills) t req
                    = Return
                        (if counts_as_matched skills req then
                           if is_required req
                           then {| matched_required := matched_required t ++ [skill_of req];
                                   missing_required := missing_required t;
                                   matched_optional := matched_optional t;
                                   missing_optional := missing_optional t |}
                           else {| matched_required := matched_required t;
                                   missing_required := missing_required t;
                                   matched_optional := matched_optional t ++ [skill_of req];
                                   missing_optional := missing_optional t |}
                         else
                           if is_required req
                           then {| matched_required := matched_required t;
                                   missing_required := missing_required t ++ [skill_of req];
                                   matched_optional := matched_optional t;
                                   missing_optional := missing_optional t |}
                           else {| matched_required := matched_required t;
                                   missing_required := missing_required t;
                                   matched_optional := matched_optional t;
                                   missing_optional := missing_optional t ++ [skill_of req] |})).
    { rewrite <- is_matched_normal.
      destruct req as [| | | | |?|items]; try discriminate.
      unfold tally_requirement, skill_of, is_required, field, get.
      simpl in Hreq.
      destruct (assoc "skill" items) as [v|]; [destruct v; try discriminate|];
        reflexivity. }
    rewrite Hstep. cbn [mbind outcome_bind].
    rewrite (IH Hreqs). cbn [List.filter].
    destruct (counts_as_matched skills req), (is_required req);
      cbn [andb negb matched_required missing_required matched_optional
           missing_optional List.map];
      rewrite <- ?app_assoc; reflexivity.
Qed.

Lemma filter_split_length {A : Type} (p q : A -> bool) (l : list A) :
  (List.length (List.filter (fun x => p x && q x) l)
   + List.length (List.filter (fun x => p x && negb (q x)) l))%nat
  = List.length (List.filter p l).
Proof.
  induction l as [|x l IH]; simpl; [reflexivity|].
  destruct (p x), (q x); simpl; lia.
Qed.

End SkillMatcherFacts.

(** C3 (as amended).  On a JSON object with a list of candidate skills
    that are texts and a non-empty list of requirements that are objects
    whose skill, where given, is a text, [_run] reports an
    overall score equal to [required_score * 0.7 + optional_score * 0.3],
    where each score is the percentage of the required, respectively
    optional, requirements that are matched, 100 when there is none, and a
    requirement is matched iff its lower-cased, stripped skill is a
    substring of a lower-cased, stripped candidate skill or the other way
    round.  The report is a function of the input text. *)
Theorem skill_matcher_overall_score
        (loads : string -> option SkillMatcher.json) (input_data : string)
        (data : SkillMatcher.json) :
  loads input_data = Some data ->
  SkillMatcher.valid_input data = true ->
  let skills := SkillMatcher.items_of (SkillMatcher.field "candidate_skills" SkillMatcher.JNull data) in
  let reqs := SkillMatcher.items_of (SkillMatcher.field "job_requirements" SkillMatcher.JNull data) in
  let required_score :=
    SkillMatcher.matched_percentage skills SkillMatcher.is_required reqs in
  let optional_score :=
    SkillMatcher.matched_percentage skills (fun r => negb (SkillMatcher.is_required r)) reqs in
  exists r,
    SkillMatcher._run loads input_data = Return (SkillMatcher.Analysis r)
    /\ SkillMatcher.required_score r = required_score
    /\ SkillMatcher.optional_score r = optional_score
    /\ SkillMatcher.overall_score r = (required_score * 0.7 + optional_score * 0.3)%float.
Proof.
  intros Hloads Hvalid.
  destruct data as [| | | | |?|items]; try discriminate.
  unfold SkillMatcher.valid_input in Hvalid.
  unfold SkillMatcher.field, SkillMatcher.items_of.
  destruct (SkillMatcher.assoc "candidate_skills" items) as [[| | | | |skills|?]|] eqn:Hskills;
    try discriminate.
  destruct (SkillMatcher.assoc "job_requirements" items) as [[| | | | |[|req reqs]|?]|] eqn:Hreqs;
    try discriminate.
  apply andb_prop in Hvalid as [Htexts Hobjects].
  cbv zeta.
  unfold SkillMatcher._run, SkillMatcher.read_input.
  rewrite Hloads. cbn [mbind outcome_bind SkillMatcher.get].
  rewrite Hskills, Hreqs. cbn [SkillMatcher.iterate mbind outcome_bind].
  rewrite (mapM_lower_strip skills Htexts). cbn [mbind outcome_bind mret outcome_ret].
  cbn [SkillMatcher.truthy negb SkillMatcher.iterate mbind outcome_bind].
  rewrite (tally_requirements skills (req :: reqs) Hobjects).
  cbn [mbind outcome_bind].
  eexists. split; [reflexivity|].
  unfold SkillMatcher.make_report, SkillMatcher.matched_percentage.
  cbn [SkillMatcher.required_score SkillMatcher.optional_score SkillMatcher.overall_score
       SkillMatcher.matched_required SkillMatcher.missing_required
       SkillMatcher.matched_optional SkillMatcher.missing_optional
       SkillMatcher.no_tally app].
  rewrite !List.length_map.
  rewrite !filter_split_length.
  repeat split.
Qed.

Lemma skill_matcher_overall_score_witness :
  exists r,
    SkillMatcher._run
      (fun _ => Some (SkillMatcher.JObj
         [ ("candidate_skills",
             SkillMatcher.JArr [ SkillMatcher.JStr "Python"; SkillMatcher.JStr " SQL " ]);
           ("job_requirements",
             SkillMatcher.JArr
               [ SkillMatcher.JObj [ ("skill", SkillMatcher.JStr "python") ];
                 SkillMatcher.JObj [ ("skill", SkillMatcher.JStr "Rust") ];
                 SkillMatcher.JObj [ ("skill", SkillMatcher.JStr "sql server");
                                     ("required", SkillMatcher.JBool false) ] ]) ]))
      "input"
    = Return (SkillMatcher.Analysis r)
    /\ PrimFloat.eqb (SkillMatcher.required_score r) 50 = true
    /\ PrimFloat.eqb (SkillMatcher.optional_score r) 100 = true
    /\ PrimFloat.eqb (SkillMatcher.overall_score r) 65 = true.
Proof.
  destruct (skill_matcher_overall_score
              (fun _ => Some (SkillMatcher.JObj
                 [ ("candidate_skills",
                     SkillMatcher.JArr [ SkillMatcher.JStr "Python"; SkillMatcher.JStr " SQL " ]);
                   ("job_requirements",
                     SkillMatcher.JArr
                       [ SkillMatcher.JObj [ ("skill", SkillMatcher.JStr "python") ];
                         SkillMatcher.JObj [ ("skill", SkillMatcher.JStr "Rust") ];
                         SkillMatcher.JObj [ ("skill", SkillMatcher.JStr "sql server");
                                             ("required", SkillMatcher.JBool false) ] ]) ]))
              "input" _ eq_refl eq_refl)
    as (r & Hrun & Hrequired & Hoptional & Hoverall).
  exists r. split; [exact Hrun|].
  rewrite Hoverall, Hrequired, Hoptional.
  vm_compute. auto.
Defined.

(** C3, as stated, fails: a JSON object with a list of candidate skills
    and a non-empty list of requirements need not get a score.  Where the
    requirements are texts, the [list of required skills] of the tool's
    description, [req.get] raises [AttributeError] after the [try]. *)
Lemma skill_matcher_requirement_texts_raise :
  ~ (forall (loads : string -> option SkillMatcher.json) (input_data : string)
            (data : SkillMatcher.json),
        loads input_data = Some data ->
        SkillMatcher.claimed_input data = true ->
        exists r, SkillMatcher._run loads input_data = Return (SkillMatcher.Analysis r)).
Proof.
  intros H.
  destruct (H (fun _ => Some (SkillMatcher.JObj
                 [ ("candidate_skills", SkillMatcher.JArr [ SkillMatcher.JStr "Python" ]);
                   ("job_requirements", SkillMatcher.JArr [ SkillMatcher.JStr "Python" ]) ]))
              "input" _ eq_refl eq_refl) as (r & Hr).
  vm_compute in Hr. discriminate Hr.
Qed.


(** ** Request handlers *)

Section HandlerFacts.
Import Db Routes.
Context {Outside : Type}.

Lemma run_bind {A B : Type} (m : handler Outside A) (k : A -> handler Outside B)
      (s : session Outside) :
  (m ≫= k) s
  = match m s with
    | (Done a, s') => k a s'
    | (HTTPException code detail, s') => (HTTPException code detail, s')
    | (Unhandled e, s') => (Unhandled e, s')
    end.
Proof. reflexivity. Qed.

Lemma run_ret {A : Type} (a : A) (s : session Outside) :
  (mret a : handler Outside A) s = (Done a, s).
Proof. reflexivity. Qed.

Lemma run_ask {A : Type} (f : Outside -> A * Outside) (s : session Outside) :
  ask f s
  = (Done (fst (f (outside s))),
     {| committed := committed s; working := working s; disk := disk s;
        background := background s; outside := snd (f (outside s)) |}).
Proof. unfold ask. now destruct (f (outside s)). Qed.

Lemma run_try_except {A : Type} (body : handler Outside A) (handle : string -> handler Outside A)
      (s : session Outside) :
  try_except body handle s
  = match body s with
    | (Done a, s') => (Done a, s')
    | (HTTPException code detail, s') => handle detail s'
    | (Unhandled e, s') => handle e s'
    end.
Proof. reflexivity. Qed.

Lemma length_candidates_data_of (l : list CandidateDB.t) :
  List.length (candidates_data_of l) = List.length (List.filter has_resume_path l).
Proof.
  induction l as [|c l IH]; [reflexivity|].
  cbn [candidates_data_of flat_map List.filter]. rewrite List.length_app.
  fold (candidates_data_of l). rewrite IH.
  unfold has_resume_path.
  destruct (CandidateDB.resume_path c) as [path|]; [|reflexivity].
  destruct (String.eqb path EmptyString); reflexivity.
Qed.

End HandlerFacts.

(** Runs a handler on a session, one primitive at a time. *)
Ltac run :=
  repeat (rewrite ?run_bind, ?run_ret;
          cbn [Db.select_jobs Db.select_candidates Db.count_committed Db.pure
               Db.raise_http Db.raise_exc Db.with_working Db.commit Db.makedirs
               Db.write_file Db.add_task Db.read_disk Db.scalar_one_or_none
               Db.one_or_none Db.open_session Db.working Db.committed Db.disk
               Db.background Db.outside Db.db Db.fs Db.queue Db.world fst snd]).

(** C9 (as amended).  The handler of POST /job/{job_id}/screen leaves the
    rows, the files and the outside untouched on every invocation.  When the
    job exists and some unscreened candidate is selected, it queues one
    [run_screening_task] for the selected candidates that have a resume path
    and returns a "processing" payload whose [candidates_to_screen] is their
    number; when the job does not exist it raises HTTP 404, when no
    unscreened candidate is selected it returns "No unscreened candidates
    found", and it queues nothing in either case. *)
Theorem screen_candidates_frame {Outside : Type} (st : Db.state Outside)
        (job_id : string) (limit : option Z) :
  let r := fst (Db.serve (Routes.screen_candidates job_id limit) st) in
  let st' := snd (Db.serve (Routes.screen_candidates job_id limit) st) in
  Db.db st' = Db.db st /\ Db.fs st' = Db.fs st /\ Db.world st' = Db.world st /\
  match List.filter (Routes.job_with_id job_id) (Db.jobs (Db.db st)) with
  | [] => r = Db.HTTPException 404 "Job not found" /\ Db.queue st' = Db.queue st
  | [job] =>
      let selected :=
        Routes.limited limit
          (List.filter (Routes.unscreened_in job_id) (Db.candidates (Db.db st))) in
      exists payload,
        r = Db.Done payload /\
        match selected with
        | [] =>
            Db.queue st' = Db.queue st
            /\ payload !! "message" = Some (PStr "No unscreened candidates found")
            /\ payload !! "status" = None
        | _ :: _ =>
            (exists task, Db.queue st' = (Db.queue st ++ [task])%list
                          /\ Db.task_job_id task = job_id
                          /\ Db.task_candidates task = Routes.candidates_data_of selected)
            /\ payload !! "status" = Some (PStr "processing")
            /\ payload !! "candidates_to_screen"
               = Some (PInt (Z.of_nat
                               (List.length (List.filter Routes.has_resume_path selected))))
        end
  | _ :: _ :: _ => Db.queue st' = Db.queue st
  end.
Proof.
  intros r st'. subst r st'.
  unfold Db.serve, Routes.screen_candidates.
  run.
  destruct (List.filter (Routes.job_with_id job_id) (Db.jobs (Db.db st)))
    as [|job [|job' rows]]; run.
  1, 3: auto.
  set (selected := Routes.limited limit
                     (List.filter (Routes.unscreened_in job_id) (Db.candidates (Db.db st)))).
  destruct selected as [|c selected'] eqn:Hsel; run.
  - repeat split. eexists. repeat split.
  - repeat split. eexists. repeat split.
    + eexists. repeat split.
    + rewrite <- length_candidates_data_of. reflexivity.
Qed.

(** C9, as stated, fails: for a job nobody applied to, the handler returns
    a payload that is not "processing" and queues no task. *)
Lemma screen_candidates_not_always_processing :
  ~ (forall (st : Db.state unit) (job_id : string) (limit : option Z),
        exists payload task,
          fst (Db.serve (Routes.screen_candidates job_id limit) st) = Db.Done payload
          /\ payload !! "status" = Some (PStr "processing")
          /\ Db.queue (snd (Db.serve (Routes.screen_candidates job_id limit) st))
             = (Db.queue st ++ [task])%list).
Proof.
  intros H.
  destruct (H Sample.empty_job "j1" None) as (payload & task & Hdone & Hstatus & _).
  unfold Db.serve, Routes.screen_candidates in Hdone.
  cbn in Hdone. injection Hdone as <-.
  vm_compute in Hstatus. discriminate Hstatus.
Qed.

Section StoreFacts.

Lemma filter_none {A : Type} (p : A -> bool) (l : list A) :
  (forall z, In z l -> p z = false) -> List.filter p l = [].
Proof.
  induction l as [|x l IH]; intros H; [reflexivity|].
  cbn [List.filter]. rewrite (H x (or_introl eq_refl)).
  apply IH. intros z Hz. apply H. now right.
Qed.

(** A key that is unique in a table selects exactly the row that has it. *)
Lemma filter_key_unique {A : Type} (key : A -> string) (l : list A) (x : A) :
  NoDup (List.map key l) -> In x l ->
  List.filter (fun y => String.eqb (key y) (key x)) l = [x].
Proof.
  induction l as [|y l IH]; intros Hnd Hin; [destruct Hin|].
  cbn [List.map] in Hnd. apply NoDup_cons in Hnd as [Hy Hnd].
  cbn [List.filter].
  destruct Hin as [-> | Hin].
  - rewrite String.eqb_refl. f_equal.
    apply filter_none. intros z Hz.
    destruct (String.eqb_spec (key z) (key x)) as [He|]; [|reflexivity].
    exfalso. apply Hy. rewrite <- He. apply list_elem_of_In. now apply List.in_map.
  - destruct (String.eqb_spec (key y) (key x)) as [He|]; [|now apply IH].
    exfalso. apply Hy. rewrite He. apply list_elem_of_In. now apply List.in_map.
Qed.

Lemma filter_nil_existsb {A : Type} (p : A -> bool) (l : list A) :
  List.filter p l = [] -> List.existsb p l = false.
Proof.
  induction l as [|x l IH]; simpl; [reflexivity|].
  destruct (p x); [discriminate | exact IH].
Qed.

End StoreFacts.

Section ApplicationInvariant.
Import Db Routes.
Context {Outside : Type}.

Lemma existsb_false_not_in (rows : list CandidateDB.t) (id : string) :
  List.existsb (fun c' => String.eqb (CandidateDB.id c') id) rows = false ->
  id ∉ List.map CandidateDB.id rows.
Proof.
  induction rows as [|c rows IH]; cbn [List.existsb List.map]; intros H.
  - apply not_elem_of_nil.
  - apply orb_false_elim in H as [Hc Hrows].
    apply not_elem_of_cons. split; [|now apply IH].
    intros ->. now rewrite String.eqb_refl in Hc.
Qed.

Lemma update_jobs_ids (id : string) (f : JobDB.t -> JobDB.t) (st : store) :
  (forall j, JobDB.id (f j) = JobDB.id j) ->
  List.map JobDB.id (jobs (update_jobs id f st)) = List.map JobDB.id (jobs st).
Proof.
  intros Hf. unfold update_jobs. cbn [jobs]. rewrite List.map_map.
  apply List.map_ext. intros j. destruct (String.eqb (JobDB.id j) id); [apply Hf | reflexivity].
Qed.

(** [submit_application] keeps the keys unique and the applications to a
    job distinct by email. *)
Lemma submit_application_keeps_store
      (settings : Settings.t) (utcnow : Outside -> Z * Outside)
      (uuid4 : Outside -> string * Outside) (st : state Outside)
      (job_id name email : string)
      (phone linkedin_url github_url portfolio_url cover_letter : option string)
      (filename content : string) :
  keys_unique (db st) -> applications_unique (db st) ->
  let st' := snd (serve (submit_application settings utcnow uuid4 job_id name email
                           phone linkedin_url github_url portfolio_url cover_letter
                           filename content) st) in
  keys_unique (db st') /\ applications_unique (db st').
Proof.
  intros Hkeys Happs st'. subst st'.
  destruct st as [store files tasks outside0]. cbn [db] in Hkeys, Happs.
  unfold serve, submit_application. run.
  destruct (List.filter (job_with_id job_id) (jobs store)) as [|job [|j2 rest]]; run; auto.
  destruct (negb (JobDB.status job =? "active")); run; auto.
  destruct (List.filter (applied_with job_id email) (candidates store))
    as [|c [|c2 rows]] eqn:Hnone; run; auto.
  destruct (negb (List.existsb _ allowed_extensions)); run; auto.
  destruct (_ <? _)%Z; run; auto.
  rewrite run_ask. run. rewrite run_ask. run.
  unfold add. cbn [working candidates CandidateDB.id].
  destruct (List.existsb _ (candidates store)) eqn:Hfresh; run; auto.
  rewrite run_ask. run.
  destruct Hkeys as [Hjobs Hcands]. split; [split|].
  - now rewrite update_jobs_ids.
  - cbn [update_jobs candidates]. rewrite List.map_app. cbn [List.map CandidateDB.id].
    apply NoDup_app. split; [exact Hcands|]. split; [|apply NoDup_singleton].
    intros x Hx ->%list_elem_of_singleton.
    exact (existsb_false_not_in _ _ Hfresh Hx).
  - intros j e. cbn [update_jobs candidates]. rewrite List.filter_app, List.length_app.
    cbn [List.filter].
    destruct (applied_with j e _) eqn:Hnew; [|specialize (Happs j e); simpl; lia].
    unfold applied_with in Hnew. cbn [CandidateDB.job_id CandidateDB.email] in Hnew.
    apply andb_prop in Hnew as [->%String.eqb_eq ->%String.eqb_eq].
    rewrite Hnone. simpl. lia.
Qed.

End ApplicationInvariant.

(** C10.  In a store whose keys are unique and where no two applications
    to one job share an email, [submit_application] for an existing job
    fails with HTTP 400 and leaves the rows, the files, the task queue and
    the outside as they were when the email has already applied to that job,
    when the file extension is none of .pdf, .docx and .doc, and when the
    content is larger than [max_file_size_mb]. *)
Theorem submit_application_rejects_unchanged {Outside : Type}
        (settings : Settings.t) (utcnow : Outside -> Z * Outside)
        (uuid4 : Outside -> string * Outside) (st : Db.state Outside)
        (job : JobDB.t) (name email : string)
        (phone linkedin_url github_url portfolio_url cover_letter : option string)
        (filename content : string) :
  Routes.keys_unique (Db.db st) ->
  Routes.applications_unique (Db.db st) ->
  In job (Db.jobs (Db.db st)) ->
  List.existsb (Routes.applied_with (JobDB.id job) email) (Db.candidates (Db.db st)) = true
  \/ List.existsb (String.eqb (Py.lower (snd (Os.splitext filename))))
                  Routes.allowed_extensions = false
  \/ (Settings.max_file_size_mb settings * 1024 * 1024
      < Z.of_nat (String.length content))%Z ->
  exists detail,
    Db.serve (Routes.submit_application settings utcnow uuid4 (JobDB.id job) name email
                phone linkedin_url github_url portfolio_url cover_letter filename content)
             st
    = (Db.HTTPException 400 detail, st).
Proof.
  intros [Hjobs _] Happs Hjob Hcase.
  unfold Db.serve, Routes.submit_application.
  run.
  unfold Routes.job_with_id.
  rewrite (filter_key_unique JobDB.id _ job Hjobs Hjob). run.
  destruct st as [store files tasks outside]. cbn [Db.db] in *.
  destruct (negb (JobDB.status job =? "active")); run; [eauto|].
  specialize (Happs (JobDB.id job) email).
  destruct (List.filter (Routes.applied_with (JobDB.id job) email) (Db.candidates store))
    as [|c [|c' rows]] eqn:Hrows; run.
  - apply filter_nil_existsb in Hrows.
    destruct (List.existsb (String.eqb (Py.lower (snd (Os.splitext filename))))
                Routes.allowed_extensions) eqn:Hext; cbn [negb]; run; [|eauto].
    destruct Hcase as [Hdup | [Hbad | Hbig]]; [congruence | discriminate |].
    destruct (Z.ltb_spec (Settings.max_file_size_mb settings * 1024 * 1024)
                (Z.of_nat (String.length content))); [|lia].
    run. eauto.
  - eauto.
  - cbn [List.length] in Happs. lia.
Qed.

Section ScreeningTaskFacts.
Import Db Routes.
Context {Outside : Type}.
Variable settings : Settings.t.
Variable kickoff : Outside -> ScreeningCrew.crew_request -> outcome string * Outside.
Variable utcnow : Outside -> Z * Outside.

(** A crew call made from a handler returns a dict with an integer score
    and touches nothing but the outside. *)
Lemma in_world_returns (call : World -> outcome dict * World) (s : session Outside) :
  (forall w, exists d, fst (call w) = Return d
                       /\ exists z, d !! "match_score" = Some (PInt z)) ->
  exists d z o,
    in_world call s
    = (Done d, {| committed := committed s; working := working s; disk := disk s;
                  background := background s; outside := o |})
    /\ d !! "match_score" = Some (PInt z).
Proof.
  intros Hcall. unfold in_world.
  destruct (Hcall (disk s, outside s)) as (d & Hd & z & Hz).
  destruct (call (disk s, outside s)) as [r w]. cbn [fst] in Hd. subst r.
  exists d, z, (snd w). split; [reflexivity | exact Hz].
Qed.

Lemma kept_or_screened_refl (l : list CandidateDB.t) :
  Forall2 (Routes.kept_or_screened settings) l l.
Proof. induction l; constructor; [now left | assumption]. Qed.

Lemma kept_or_screened_trans (l1 l2 l3 : list CandidateDB.t) :
  Forall2 (Routes.kept_or_screened settings) l1 l2 ->
  Forall2 (Routes.kept_or_screened settings) l2 l3 ->
  Forall2 (Routes.kept_or_screened settings) l1 l3.
Proof.
  intros H12. revert l3.
  induction H12 as [|c1 c2 l1 l2 Hc _ IH]; intros l3 H23.
  - inversion H23. constructor.
  - inversion H23 as [|? c3 ? l3' Hc' Hl]; subst.
    constructor; [|now apply IH].
    destruct Hc' as [-> | [Hid Hs]]; [exact Hc|].
    right. split; [|exact Hs].
    destruct Hc as [-> | [Hid' _]]; congruence.
Qed.

Lemma kept_or_screened_ids (l l' : list CandidateDB.t) :
  Forall2 (Routes.kept_or_screened settings) l l' ->
  List.map CandidateDB.id l' = List.map CandidateDB.id l.
Proof.
  induction 1 as [|c c' l l' Hc _ IH]; [reflexivity|].
  cbn [List.map]. rewrite IH.
  destruct Hc as [-> | [-> _]]; reflexivity.
Qed.

(** A row of the later table comes from a row of the earlier one. *)
Lemma kept_or_screened_origin (l l' : list CandidateDB.t) (c' : CandidateDB.t) :
  Forall2 (Routes.kept_or_screened settings) l l' -> In c' l' ->
  exists c, In c l /\ Routes.kept_or_screened settings c c'.
Proof.
  induction 1 as [|c0 c0' l l' Hc _ IH]; intros Hin; [destruct Hin|].
  destruct Hin as [<- | Hin].
  - exists c0. split; [now left | exact Hc].
  - destruct (IH Hin) as (c & Hc0 & Hk). exists c. split; [now right | exact Hk].
Qed.

Lemma update_twice (id : string) (f g : CandidateDB.t -> CandidateDB.t) (st : store) :
  (forall c, CandidateDB.id (f c) = CandidateDB.id c) ->
  update_candidates id g (update_candidates id f st)
  = update_candidates id (fun c => g (f c)) st.
Proof.
  intros Hid. unfold update_candidates. cbn [jobs candidates]. f_equal.
  rewrite List.map_map. apply List.map_ext. intros c.
  destruct (String.eqb_spec (CandidateDB.id c) id) as [He|Hne].
  - rewrite Hid. now rewrite <- He, String.eqb_refl.
  - destruct (String.eqb_spec (CandidateDB.id c) id); [contradiction | reflexivity].
Qed.

Lemma update_screened (id : string) (f : CandidateDB.t -> CandidateDB.t)
      (rows : list CandidateDB.t) :
  (forall c, CandidateDB.id (f c) = CandidateDB.id c /\ screened settings (f c)) ->
  let rows' := List.map (fun c => if String.eqb (CandidateDB.id c) id then f c else c) rows in
  Forall2 (Routes.kept_or_screened settings) rows rows'
  /\ (forall c', In c' rows' -> CandidateDB.id c' = id -> screened settings c').
Proof.
  intros Hf rows'. subst rows'. split.
  - induction rows as [|c rows IH]; cbn [List.map]; constructor; [|exact IH].
    destruct (String.eqb (CandidateDB.id c) id); [right; apply Hf | now left].
  - intros c' Hin Hid. apply List.in_map_iff in Hin as (c & <- & _).
    destruct (String.eqb_spec (CandidateDB.id c) id) as [He|Hne]; [apply Hf|].
    contradiction.
Qed.

Lemma filter_key_length (rows : list CandidateDB.t) (id : string) :
  NoDup (List.map CandidateDB.id rows) ->
  (List.length (List.filter (candidate_with_id id) rows) <= 1)%nat.
Proof.
  induction rows as [|c rows IH]; intros Hnd; [simpl; lia|].
  cbn [List.map] in Hnd. apply NoDup_cons in Hnd as [Hc Hnd].
  cbn [List.filter]. unfold candidate_with_id at 1.
  destruct (String.eqb_spec (CandidateDB.id c) id) as [He|Hne]; [|now apply IH].
  assert (Hnone : List.filter (candidate_with_id id) rows = []).
  { clear IH Hnd. induction rows as [|c0 rows IH0]; [reflexivity|].
    cbn [List.filter]. unfold candidate_with_id at 1.
    destruct (String.eqb_spec (CandidateDB.id c0) id) as [He0|].
    - exfalso. apply Hc. cbn [List.map]. rewrite He, <- He0. left.
    - apply IH0. intros Hin. apply Hc. cbn [List.map]. now right. }
  rewrite Hnone. simpl. lia.
Qed.

Lemma filter_nil_no_row (rows : list CandidateDB.t) (id : string) (c : CandidateDB.t) :
  List.filter (candidate_with_id id) rows = [] -> In c rows -> CandidateDB.id c <> id.
Proof.
  intros Hnil Hin Hid.
  assert (Hf : In c (List.filter (candidate_with_id id) rows)).
  { apply List.filter_In. split; [exact Hin|].
    unfold candidate_with_id. now rewrite Hid, String.eqb_refl. }
  rewrite Hnil in Hf. destruct Hf.
Qed.

(** One turn of the loop: every row is kept or screened, and the rows of
    the candidate at hand are screened. *)
Lemma screen_one_effect (job_requirements : list ScreeningCrew.requirement)
      (job_description : string) (min_exp : Z) (exp_level : string)
      (candidate : ScreeningCrew.candidate_ref) (s : session Outside) :
  working s = committed s ->
  NoDup (List.map CandidateDB.id (candidates (committed s))) ->
  exists s',
    screen_one settings kickoff utcnow job_requirements job_description min_exp exp_level
      candidate s = (Done tt, s')
    /\ working s' = committed s'
    /\ jobs (committed s') = jobs (committed s)
    /\ Forall2 (Routes.kept_or_screened settings) (candidates (committed s))
               (candidates (committed s'))
    /\ (forall c', In c' (candidates (committed s')) ->
                   CandidateDB.id c' = ScreeningCrew.id candidate ->
                   screened settings c').
Proof.
  intros Hsync Hkeys.
  unfold screen_one. rewrite run_try_except, run_bind.
  destruct (in_world_returns
              (fun w => ScreeningCrew.screen_candidate World path_exists (kickoff_in kickoff) w
                          (ScreeningCrew.resume_path candidate) job_requirements
                          job_description min_exp exp_level) s) as (d & z & o & -> & Hz).
  { intros w. apply screen_candidate_returns. }
  run.
  pose proof (filter_key_length _ (ScreeningCrew.id candidate) Hkeys) as Hlen.
  rewrite Hsync.
  destruct (List.filter (candidate_with_id (ScreeningCrew.id candidate))
              (candidates (committed s))) as [|c [|c' rows]] eqn:Hrows; run.
  - eexists. split; [reflexivity|]. cbn [working committed]. repeat split; auto.
    + apply kept_or_screened_refl.
    + intros c' Hin Hid. exfalso. exact (filter_nil_no_row _ _ _ Hrows Hin Hid).
  - rewrite run_ask. run.
    unfold get. rewrite Hz. cbn [Py.ge lift]. run.
    eexists. split; [reflexivity|]. cbn [working committed].
    rewrite update_twice by reflexivity.
    cbn [update_candidates jobs candidates]. repeat split.
    all: apply (update_screened (ScreeningCrew.id candidate)).
    all: intros c0; split; [reflexivity|]; exists z; split; reflexivity.
  - cbn [List.length] in Hlen. lia.
Qed.

Lemma for_each_cons {A : Type} (body : A -> handler Outside unit) (x : A) (l : list A)
      (s : session Outside) :
  for_each body (x :: l) s
  = match body x s with
    | (Done _, s') => for_each body l s'
    | (HTTPException code detail, s') => (HTTPException code detail, s')
    | (Unhandled e, s') => (Unhandled e, s')
    end.
Proof. reflexivity. Qed.

(** The loop of [run_screening_task]. *)
Lemma screen_all_effect (job_requirements : list ScreeningCrew.requirement)
      (job_description : string) (min_exp : Z) (exp_level : string)
      (candidates_data : list ScreeningCrew.candidate_ref) :
  forall s : session Outside,
    working s = committed s ->
    NoDup (List.map CandidateDB.id (candidates (committed s))) ->
    exists s',
      for_each (screen_one settings kickoff utcnow job_requirements job_description
                  min_exp exp_level) candidates_data s = (Done tt, s')
      /\ working s' = committed s'
      /\ jobs (committed s') = jobs (committed s)
      /\ Forall2 (Routes.kept_or_screened settings) (candidates (committed s))
                 (candidates (committed s'))
      /\ (forall candidate c',
             In candidate candidates_data ->
             In c' (candidates (committed s')) ->
             CandidateDB.id c' = ScreeningCrew.id candidate ->
             screened settings c').
Proof.
  induction candidates_data as [|candidate rest IH]; intros s Hsync Hkeys.
  - exists s. repeat split; auto.
    + apply kept_or_screened_refl.
    + intros ? ? [].
  - rewrite for_each_cons.
    destruct (screen_one_effect job_requirements job_description min_exp exp_level
                candidate s Hsync Hkeys) as (s1 & -> & Hsync1 & Hjobs1 & Hrows1 & Hdone1).
    assert (Hkeys1 : NoDup (List.map CandidateDB.id (candidates (committed s1))))
      by (now rewrite (kept_or_screened_ids _ _ Hrows1)).
    destruct (IH s1 Hsync1 Hkeys1) as (s' & -> & Hsync' & Hjobs' & Hrows' & Hdone').
    exists s'. repeat split; auto.
    + congruence.
    + eapply kept_or_screened_trans; eassumption.
    + intros ref c' [<- | Hin] Hc' Hid; [|eauto].
      destruct (kept_or_screened_origin _ _ _ Hrows' Hc') as (c1 & Hc1 & [-> | [Hid1 Hs]]).
      * now apply Hdone1.
      * exact Hs.
Qed.

End ScreeningTaskFacts.

Section RescreenFacts.
Import Db Routes.
Context {Outside : Type}.
Variable settings : Settings.t.
Variable kickoff : Outside -> ScreeningCrew.crew_request -> outcome string * Outside.
Variable utcnow : Outside -> Z * Outside.
Variable parser_run : filesystem -> string -> outcome string.
Variable analyzer_run : string -> outcome string.

Lemma rescreen_candidate_effect (candidate_id : string) (s : session Outside) :
  working s = committed s ->
  let r := fst (rescreen_candidate settings kickoff utcnow parser_run analyzer_run
                  candidate_id s) in
  let s' := snd (rescreen_candidate settings kickoff utcnow parser_run analyzer_run
                   candidate_id s) in
  working s' = committed s'
  /\ Forall2 (Routes.kept_or_screened settings) (candidates (committed s))
             (candidates (committed s'))
  /\ (forall payload c',
         r = Done payload ->
         payload !! "status" <> Some (PStr "failed") ->
         In c' (candidates (committed s')) ->
         CandidateDB.id c' = candidate_id ->
         screened settings c').
Proof.
  intros Hsync r s'. subst r s'.
  destruct s as [rows0 working0 files0 tasks0 outside0].
  cbn [working committed] in Hsync. subst working0.
  unfold rescreen_candidate. run.
  destruct (List.filter (candidate_with_id candidate_id) (candidates rows0))
    as [|candidate [|c2 rows]]; run.
  1, 3: repeat split; auto using kept_or_screened_refl; intros ? ? Heq; discriminate Heq.
  destruct (List.filter (job_with_id (CandidateDB.job_id candidate)) (jobs rows0))
    as [|job [|j2 jobs']]; run.
  1, 3: repeat split; auto using kept_or_screened_refl; intros ? ? Heq; discriminate Heq.
  destruct (CandidateDB.resume_path candidate) as [resume_path|]; run.
  2: repeat split; auto using kept_or_screened_refl; intros ? ? Heq; discriminate Heq.
  destruct (String.eqb resume_path EmptyString); run.
  1: repeat split; auto using kept_or_screened_refl; intros ? ? Heq; discriminate Heq.
  rewrite run_try_except. run.
  destruct (parser_run files0 resume_path) as [resume_text|e]; cbn [lift]; run.
  2: { repeat split; auto using kept_or_screened_refl.
       intros payload c' [= <-] Hstatus. exfalso. apply Hstatus. reflexivity. }
  destruct (analyzer_run resume_text) as [analysis|e]; cbn [lift]; run.
  2: { repeat split; auto using kept_or_screened_refl.
       intros payload c' [= <-] Hstatus. exfalso. apply Hstatus. reflexivity. }
  match goal with
  | |- context [in_world ?call ?s0] =>
      destruct (in_world_returns call s0) as (d & z & o & -> & Hz)
  end.
  { intros w. apply quick_screen_candidate_returns. }
  run. rewrite run_ask. run.
  assert (Hget : get d "match_score" (PInt 0) = PInt z)
    by (unfold get; now rewrite Hz).
  rewrite !Hget. cbn [Py.ge lift]. run.
  rewrite update_twice by reflexivity.
  cbn [update_candidates jobs candidates]. repeat split.
  - apply (update_screened settings candidate_id).
    intros c0; split; [reflexivity|]; exists z; split; reflexivity.
  - intros payload c' _ _. apply (update_screened settings candidate_id).
    intros c0; split; [reflexivity|]; exists z; split; reflexivity.
Qed.

End RescreenFacts.

(** C2.  After [run_screening_task] and after [rescreen_candidate], every
    candidate row is as it was or carries a match score with the status that
    follows from it: "shortlisted" when the score is at least
    [settings.min_match_score], "rejected" otherwise.  The rows of the
    candidates the task was given, and the row of a candidate re-screened
    without failure, are of the second kind; none of them is left "applied"
    or "screening".  Candidate ids are the primary key of their table. *)
Theorem screening_sets_status_by_threshold {Outside : Type}
        (settings : Settings.t)
        (kickoff : Outside -> ScreeningCrew.crew_request -> outcome string * Outside)
        (utcnow : Outside -> Z * Outside)
        (parser_run : Db.filesystem -> string -> outcome string)
        (analyzer_run : string -> outcome string)
        (st : Db.state Outside) (job_id : string)
        (candidates_data : list ScreeningCrew.candidate_ref)
        (job_requirements : list ScreeningCrew.requirement) (job_description : string)
        (min_exp : Z) (exp_level : string) (candidate_id : string) :
  NoDup (List.map CandidateDB.id (Db.candidates (Db.db st))) ->
  let after_task :=
    Db.in_background
      (Routes.run_screening_task settings kickoff utcnow job_id candidates_data
         job_requirements job_description min_exp exp_level) st in
  let rescreened :=
    Db.serve (Routes.rescreen_candidate settings kickoff utcnow parser_run analyzer_run
                candidate_id) st in
  (Forall2 (Routes.kept_or_screened settings) (Db.candidates (Db.db st))
           (Db.candidates (Db.db after_task))
   /\ forall candidate c',
        In candidate candidates_data ->
        In c' (Db.candidates (Db.db after_task)) ->
        CandidateDB.id c' = ScreeningCrew.id candidate ->
        Routes.screened settings c')
  /\ (Forall2 (Routes.kept_or_screened settings) (Db.candidates (Db.db st))
              (Db.candidates (Db.db (snd rescreened)))
      /\ forall payload c',
           fst rescreened = Db.Done payload ->
           payload !! "status" <> Some (PStr "failed") ->
           In c' (Db.candidates (Db.db (snd rescreened))) ->
           CandidateDB.id c' = candidate_id ->
           Routes.screened settings c')
  /\ (forall c, Routes.screened settings c ->
                CandidateDB.status c <> "applied" /\ CandidateDB.status c <> "screening").
Proof.
  intros Hkeys after_task rescreened. subst after_task rescreened. split; [|split].
  - unfold Db.in_background, Routes.run_screening_task. rewrite run_bind.
    destruct (screen_all_effect settings kickoff utcnow job_requirements job_description
                min_exp exp_level candidates_data (Db.open_session st) eq_refl Hkeys)
      as (s1 & -> & Hsync & _ & Hrows & Hdone).
    destruct s1 as [rows1 working1 files1 tasks1 outside1].
    cbn [Db.working Db.committed] in *. subst working1.
    cbn [Db.open_session Db.committed] in Hrows.
    run.
    destruct (List.filter (Routes.job_with_id job_id) (Db.jobs rows1)) as [|job [|j2 rest]];
      run; split; assumption.
  - pose proof (rescreen_candidate_effect settings kickoff utcnow parser_run analyzer_run
                  candidate_id (Db.open_session st) eq_refl) as (Hsync & Hrows & Hdone).
    unfold Db.serve.
    destruct (Routes.rescreen_candidate settings kickoff utcnow parser_run analyzer_run
                candidate_id (Db.open_session st)) as [r s'].
    cbn [fst snd Db.open_session Db.committed] in *.
    destruct r as [payload| |]; cbn [fst snd Db.db]; rewrite ?Hsync;
      (split; [exact Hrows|]); intros payload' c' Heq; try discriminate Heq.
    injection Heq as <-. now apply Hdone.
  - intros c (z & _ & Hstatus). rewrite Hstatus.
    destruct (Settings.min_match_score settings <=? z)%Z; split; discriminate.
Qed.

Lemma screening_sets_status_by_threshold_witness :
  Forall2 (Routes.kept_or_screened Settings.default)
          (Db.candidates (Db.db Sample.one_application))
          (Db.candidates
             (Db.db (Db.in_background
                       (Routes.run_screening_task Settings.default
                          (Sample.answering "MATCH_SCORE: 72") Sample.clock "j1"
                          [ {| ScreeningCrew.id := "c1";
                               ScreeningCrew.resume_path := "./data/resumes/j1/c1_Ada.pdf" |} ]
                          [] "Python and SQL" 0%Z "mid")
                       Sample.one_application))).
Proof.
  apply (screening_sets_status_by_threshold Settings.default
           (Sample.answering "MATCH_SCORE: 72") Sample.clock
           (fun _ _ => Return "RESUME CONTENT: Python") (fun _ => Return "DETECTED SKILLS: python")
           Sample.one_application "j1"
           [ {| ScreeningCrew.id := "c1";
                ScreeningCrew.resume_path := "./data/resumes/j1/c1_Ada.pdf" |} ]
           [] "Python and SQL" 0%Z "mid" "c1").
  apply NoDup_singleton.
Defined.

Lemma submit_application_rejects_unchanged_witness :
  exists detail,
    Db.serve (Routes.submit_application Settings.default Sample.clock Sample.uuid
                (JobDB.id Sample.job) "Ada" "ada@example.com" None None None None None
                "cv.pdf" "%PDF")
             Sample.one_application
    = (Db.HTTPException 400 detail, Sample.one_application).
Proof.
  apply (submit_application_rejects_unchanged Settings.default Sample.clock Sample.uuid
           Sample.one_application Sample.job "Ada" "ada@example.com"
           None None None None None "cv.pdf" "%PDF").
  - split; apply NoDup_singleton.
  - intros job_id email. cbn [Sample.one_application Db.db Db.candidates List.filter].
    destruct (Routes.applied_with job_id email Sample.candidate); simpl; lia.
  - left. reflexivity.
  - left. reflexivity.
Defined.

(** C8.  The statuses written at application time and by screening are
    members of [CandidateStatus]; the status [send_interview_invitation]
    writes is not. *)
Theorem interview_invitation_status_outside_enum :
  Forall (fun status => CandidateStatus.member status = true)
         [ "applied"; "screening"; "shortlisted"; "rejected" ]
  /\ List.map CandidateDB.status
       (Db.candidates
          (Db.db (snd (Db.serve
                         (Routes.send_interview_invitation Sample.clock Sample.mail_sent
                            "c1" None None)
                         Sample.one_application))))
     = [ "interview_scheduled" ]
  /\ CandidateStatus.member "interview_scheduled" = false.
Proof.
  split; [repeat constructor|].
  split; [|reflexivity].
  vm_compute. reflexivity.
Qed.

(** ** The definitions at work *)

Example score_from_match_score_line :
  ScreeningCrew.extract_score_from_result
    ("MATCH_SCORE: 85" +:+ newline +:+ "RECOMMENDATION: Hire") = Return 85%Z.
Proof. vm_compute. reflexivity. Qed.

Example score_from_final_score :
  ScreeningCrew.extract_score_from_result "Final Score: 85/100" = Return 85%Z.
Proof. vm_compute. reflexivity. Qed.

(** A percentage out of range is passed over for the next pattern. *)
Example score_from_rating :
  ScreeningCrew.extract_score_from_result
    "The candidate scores 120% on enthusiasm, rating: 7" = Return 7%Z.
Proof. vm_compute. reflexivity. Qed.

Example score_from_bold_number :
  ScreeningCrew.extract_score_from_result "Overall: **64**" = Return 64%Z.
Proof. vm_compute. reflexivity. Qed.

Example score_from_keywords :
  ScreeningCrew.extract_score_from_result "No hire: lacks Python, missing SQL, has Excel"
  = Return 25%Z.
Proof. vm_compute. reflexivity. Qed.

Example recommendation_strong_no_hire :
  ScreeningCrew.extract_recommendation "Recommendation: Strong No Hire" = "strong_no_hire".
Proof. vm_compute. reflexivity. Qed.

Example splitext_last_dot : Os.splitext "resume.final.PDF" = ("resume.final", ".PDF").
Proof. vm_compute. reflexivity. Qed.

Example splitext_leading_dots : Os.splitext "dir/..pdf" = ("dir/..pdf", EmptyString).
Proof. vm_compute. reflexivity. Qed.

Example title_of_skill : Py.title "scikit-learn" = "Scikit-Learn".
Proof. vm_compute. reflexivity. Qed.

Example skills_read_off_analysis :
  Routes.extracted_skills_of
    ("NAME: Ada" +:+ newline +:+ "DETECTED SKILLS: python, sql" +:+ newline +:+ "YEARS: 3")
  = [ PDict [ ("name", PStr "python"); ("level", PStr "intermediate") ];
      PDict [ ("name", PStr "sql"); ("level", PStr "intermediate") ] ].
Proof. vm_compute. reflexivity. Qed.

(** A first application is stored as "applied" and counted. *)
Example application_is_stored :
  let st := snd (Db.serve
                   (Routes.submit_application Settings.default Sample.clock Sample.uuid
                      "j1" "Ada L." "ada@example.com" None None None None None
                      "cv.PDF" "%PDF")
                   Sample.empty_job) in
  List.map (fun c => (CandidateDB.id c, CandidateDB.status c, CandidateDB.resume_path c))
           (Db.candidates (Db.db st))
  = [ ("9f1c2e7a", "applied", Some "./data/resumes/j1/9f1c2e7a_Ada L.pdf") ]
  /\ List.map JobDB.total_applicants (Db.jobs (Db.db st)) = [ 2%Z ].
Proof. vm_compute. split; reflexivity. Qed.

Example application_with_wrong_extension :
  fst (Db.serve
         (Routes.submit_application Settings.default Sample.clock Sample.uuid
            "j1" "Ada L." "ada@example.com" None None None None None "cv.txt" "%PDF")
         Sample.empty_job)
  = Db.HTTPException 400 "Invalid file type. Allowed: .pdf, .docx, .doc".
Proof. vm_compute. reflexivity. Qed.

(** A score of 72 shortlists under the default threshold of 60; a missing
    resume file scores 0 and rejects. *)
Example task_shortlists_and_rejects :
  List.map (fun c => (CandidateDB.status c, CandidateDB.match_score c))
    (Db.candidates
       (Db.db (Db.in_background
                 (Routes.run_screening_task Settings.default
                    (Sample.answering "MATCH_SCORE: 72") Sample.clock "j1"
                    [ {| ScreeningCrew.id := "c1";
                         ScreeningCrew.resume_path := "./data/resumes/j1/c1_Ada.pdf" |} ]
                    [] "Python and SQL" 0%Z "mid")
                 Sample.one_application)))
  = [ ("shortlisted", Some (PInt 72)) ]
  /\ List.map (fun c => (CandidateDB.status c, CandidateDB.match_score c))
       (Db.candidates
          (Db.db (Db.in_background
                    (Routes.run_screening_task Settings.default
                       (Sample.answering "MATCH_SCORE: 72") Sample.clock "j1"
                       [ {| ScreeningCrew.id := "c1";
                            ScreeningCrew.resume_path := "missing.pdf" |} ]
                       [] "Python and SQL" 0%Z "mid")
                    Sample.one_application)))
     = [ ("rejected", Some (PInt 0)) ].
Proof. vm_compute. split; reflexivity. Qed.

(** ** Further properties of the score extraction *)

Section ExtractionFacts.
Import ScreeningCrew.

Lemma lower_char_idempotent (c : ascii) : Py.lower_char (Py.lower_char c) = Py.lower_char c.
Proof. destruct c as [[] [] [] [] [] [] [] []]; reflexivity. Qed.

Lemma lower_idempotent (s : string) : Py.lower (Py.lower s) = Py.lower s.
Proof.
  induction s as [|c s IH]; [reflexivity|].
  cbn [Py.lower]. now rewrite lower_char_idempotent, IH.
Qed.

Lemma keyword_score_strong_hire (text : string) :
  Py.contains "strong hire" text = true -> (65 <= keyword_score text <= 90)%Z.
Proof.
  intros H. unfold keyword_score. rewrite H.
  destruct (base_score_cases (Re.findall_len match_words text) (Re.findall_len miss_words text))
    as [-> | [-> | ->]]; lia.
Qed.

Lemma keyword_score_no_hire (text : string) :
  Py.contains "strong hire" text = false ->
  Py.contains "no hire" text || Py.contains "reject" text = true ->
  (25 <= keyword_score text <= 50)%Z.
Proof.
  intros H1 H2. unfold keyword_score. rewrite H1, H2.
  destruct (base_score_cases (Re.findall_len match_words text) (Re.findall_len miss_words text))
    as [-> | [-> | ->]]; lia.
Qed.

End ExtractionFacts.

(** X1.  Both extractors read the text without regard to case: the score
    and the recommendation of a text are those of its lower-cased form. *)
Theorem extraction_ignores_case (result : string) :
  ScreeningCrew.extract_score_from_result (Py.lower result)
  = ScreeningCrew.extract_score_from_result result
  /\ ScreeningCrew.extract_recommendation (Py.lower result)
     = ScreeningCrew.extract_recommendation result.
Proof.
  unfold ScreeningCrew.extract_score_from_result, ScreeningCrew.extract_recommendation.
  now rewrite lower_idempotent.
Qed.

(** X2.  When no numeric pattern finds a number in range, and none
    captures more digits than [int] converts, the verdict words alone
    decide on which side of the default threshold of 60 the score falls: a text with "strong hire" scores between 65 and 90, a text
    with "no hire" or "reject" and without "strong hire" between 25 and
    50. *)
Theorem keyword_verdict_decides_shortlisting (result : string) :
  ScreeningCrew.no_numeric_score result = true ->
  exists n,
    ScreeningCrew.extract_score_from_result result = Return n
    /\ (Py.contains "strong hire" (Py.lower result) = true ->
        (65 <= n <= 90)%Z /\ (Settings.min_match_score Settings.default <= n)%Z)
    /\ (Py.contains "strong hire" (Py.lower result) = false ->
        Py.contains "no hire" (Py.lower result) || Py.contains "reject" (Py.lower result)
        = true ->
        (25 <= n <= 50)%Z /\ (n < Settings.min_match_score Settings.default)%Z).
Proof.
  intros Hnone. rewrite (extract_score_fallback result Hnone).
  eexists. split; [reflexivity|]. split.
  - intros H. pose proof (keyword_score_strong_hire _ H). cbn. lia.
  - intros H1 H2. pose proof (keyword_score_no_hire _ H1 H2). cbn. lia.
Qed.

Lemma keyword_verdict_decides_shortlisting_witness :
  exists n,
    ScreeningCrew.extract_score_from_result "Reject: lacks the required experience"
    = Return n
    /\ (Py.contains "strong hire" (Py.lower "Reject: lacks the required experience") = true ->
        (65 <= n <= 90)%Z /\ (Settings.min_match_score Settings.default <= n)%Z)
    /\ (Py.contains "strong hire" (Py.lower "Reject: lacks the required experience") = false ->
        Py.contains "no hire" (Py.lower "Reject: lacks the required experience")
        || Py.contains "reject" (Py.lower "Reject: lacks the required experience")
        = true ->
        (25 <= n <= 50)%Z /\ (n < Settings.min_match_score Settings.default)%Z).
Proof.
  apply (keyword_verdict_decides_shortlisting "Reject: lacks the required experience").
  vm_compute. reflexivity.
Defined.

(** X3.  When the resume file exists and the crew answers with a text,
    what [screen_candidate] returns is decided by the extraction of the
    score from that text.  Where it gives a score, the score is between 0
    and 100 and the payload is "completed", holding the text as analysis,
    the score, the recommendation extracted from the text, and no error.
    Where it raises, which it does only on more than 4300 digits under a
    numeric pattern, the payload is the failure payload with score 0.  So
    for [quick_screen_candidate], which looks at no file and whose failure
    payload has score 50. *)
Theorem screening_completed_payload
        (World : Type) (path_exists : World -> string -> bool)
        (kickoff : World -> ScreeningCrew.crew_request -> outcome string * World)
        (w : World) (resume_path resume_text text : string)
        (job_requirements : list ScreeningCrew.requirement) (job_description : string)
        (min_experience_years : Z) (experience_level : string) :
  path_exists w resume_path = true ->
  (forall request, fst (kickoff w request) = Return text) ->
  let full :=
    fst (ScreeningCrew.screen_candidate World path_exists kickoff w resume_path
           job_requirements job_description min_experience_years experience_level) in
  let quick :=
    fst (ScreeningCrew.quick_screen_candidate World kickoff w resume_text
           job_requirements job_description min_experience_years) in
  (forall n,
      ScreeningCrew.extract_score_from_result text = Return n ->
      (0 <= n <= 100)%Z
      /\ forall r,
           r = full \/ r = quick ->
           exists d,
             r = Return d
             /\ d !! "status" = Some (PStr "completed")
             /\ d !! "analysis" = Some (PStr text)
             /\ d !! "match_score" = Some (PInt n)
             /\ d !! "recommendation"
                = Some (PStr (ScreeningCrew.extract_recommendation text))
             /\ d !! "error" = None)
  /\ (forall e,
         ScreeningCrew.extract_score_from_result text = Raise e ->
         List.existsb (fun p => ScreeningCrew.exceeds_int_limit p (Py.lower text))
                      (ScreeningCrew.match_score_pattern :: ScreeningCrew.patterns) = true
         /\ (exists d, full = Return d /\ ScreeningCrew.is_failure d
                       /\ d !! "match_score" = Some (PInt 0))
         /\ (exists d, quick = Return d /\ ScreeningCrew.is_failure d
                       /\ d !! "match_score" = Some (PInt 50))).
Proof.
  intros Hexists Hanswer full quick. subst full quick.
  assert (Hrun : forall request score_on_error,
             fst (ScreeningCrew.run_crew World kickoff w request score_on_error)
             = match ScreeningCrew.completed text with
               | Return d => Return d
               | Raise e => Return (ScreeningCrew.failed e score_on_error)
               end).
  { intros request score_on_error. unfold ScreeningCrew.run_crew.
    specialize (Hanswer request).
    destruct (kickoff w request) as [r w']. cbn [fst] in Hanswer. subst r.
    now destruct (ScreeningCrew.completed text). }
  unfold ScreeningCrew.screen_candidate, ScreeningCrew.quick_screen_candidate.
  rewrite Hexists. cbn [negb]. split.
  - intros n Hn. split; [exact (extract_score_range text n Hn)|].
    intros r [-> | ->]; rewrite Hrun; unfold ScreeningCrew.completed; rewrite Hn;
      (eexists; split; [reflexivity|]; repeat split; reflexivity).
  - intros e He. split.
    + destruct (extract_score_outcome text) as [(n & Hn & _) | [_ Hlimit]];
        [congruence | exact Hlimit].
    + split; rewrite Hrun; unfold ScreeningCrew.completed; rewrite He;
        (eexists; split; [reflexivity|]; split; [apply failed_is_failure | reflexivity]).
Qed.

Lemma screening_completed_payload_witness :
  (0 <= 72 <= 100)%Z
  /\ forall r,
       r = fst (ScreeningCrew.screen_candidate unit (fun _ _ => true)
                  (fun w _ => (Return "MATCH_SCORE: 72", w)) tt "cv.pdf"
                  [] "python" 0%Z "mid")
       \/ r = fst (ScreeningCrew.quick_screen_candidate unit
                     (fun w _ => (Return "MATCH_SCORE: 72", w)) tt "text"
                     [] "python" 0%Z) ->
       exists d,
         r = Return d
         /\ d !! "status" = Some (PStr "completed")
         /\ d !! "analysis" = Some (PStr "MATCH_SCORE: 72")
         /\ d !! "match_score" = Some (PInt 72)
         /\ d !! "recommendation"
            = Some (PStr (ScreeningCrew.extract_recommendation "MATCH_SCORE: 72"))
         /\ d !! "error" = None.
Proof.
  apply (proj1 (screening_completed_payload unit (fun _ _ => true)
                  (fun w _ => (Return "MATCH_SCORE: 72", w)) tt "cv.pdf" "text"
                  "MATCH_SCORE: 72" [] "python" 0%Z "mid" eq_refl
                  (fun request => eq_refl)) 72%Z).
  vm_compute. reflexivity.
Defined.

(** ** Applications that are accepted *)

Section ApplicationFacts.
Import Db Routes.
Context {Outside : Type}.

Lemma existsb_false_filter {A : Type} (p : A -> bool) (l : list A) :
  List.existsb p l = false -> List.filter p l = [].
Proof.
  induction l as [|x l IH]; cbn [List.existsb List.filter]; [reflexivity|].
  destruct (p x); [discriminate | exact IH].
Qed.

Lemma join_not_empty (a b : string) : b <> EmptyString -> Os.join a b <> EmptyString.
Proof.
  intros Hb. unfold Os.join.
  destruct (String.prefix "/" b); [exact Hb|].
  destruct (_ || _).
  - destruct a; [exact Hb | discriminate].
  - destruct a; discriminate.
Qed.

Lemma append_not_empty (a b : string) : b <> EmptyString -> a +:+ b <> EmptyString.
Proof. intros Hb. destruct a; [exact Hb | discriminate]. Qed.

(** The state an accepted application leaves. *)
Lemma submit_application_accepted
      (settings : Settings.t) (utcnow : Outside -> Z * Outside)
      (uuid4 : Outside -> string * Outside) (st : state Outside)
      (job : JobDB.t) (name email : string)
      (phone linkedin_url github_url portfolio_url cover_letter : option string)
      (filename content : string) :
  keys_unique (db st) ->
  In job (jobs (db st)) ->
  JobDB.status job = "active" ->
  List.existsb (applied_with (JobDB.id job) email) (candidates (db st)) = false ->
  List.existsb (String.eqb (Py.lower (snd (Os.splitext filename)))) allowed_extensions
  = true ->
  (Z.of_nat (String.length content) <= Settings.max_file_size_mb settings * 1024 * 1024)%Z ->
  List.existsb (candidate_with_id (Py.take 8 (fst (uuid4 (world st))))) (candidates (db st))
  = false ->
  exists payload resume_path c applied_at updated_at o,
    serve (submit_application settings utcnow uuid4 (JobDB.id job) name email
             phone linkedin_url github_url portfolio_url cover_letter filename content) st
    = (Done payload,
       {| db := {| jobs := List.map (fun j => if String.eqb (JobDB.id j) (JobDB.id job)
                                               then JobDB.count_applicant updated_at j
                                               else j)
                                    (jobs (db st));
                   candidates := (candidates (db st) ++ [c])%list |};
          fs := {| dirs := {[ Os.join (Settings.resume_dir settings) (JobDB.id job) ]}
                           ∪ dirs (fs st);
                   files := <[resume_path := content]> (files (fs st)) |};
          queue := queue st;
          world := o |})
    /\ payload !! "success" = Some (PBool true)
    /\ payload !! "candidate_id" = Some (PStr (Py.take 8 (fst (uuid4 (world st)))))
    /\ resume_path <> EmptyString
    /\ c = {| CandidateDB.id := Py.take 8 (fst (uuid4 (world st)));
              CandidateDB.job_id := JobDB.id job;
              CandidateDB.name := name;
              CandidateDB.email := email;
              CandidateDB.phone := phone;
              CandidateDB.linkedin_url := linkedin_url;
              CandidateDB.github_url := github_url;
              CandidateDB.portfolio_url := portfolio_url;
              CandidateDB.cover_letter := cover_letter;
              CandidateDB.skills := [];
              CandidateDB.resume_path := Some resume_path;
              CandidateDB.status := "applied";
              CandidateDB.match_score := None;
              CandidateDB.ai_assessment := None;
              CandidateDB.match_details := None;
              CandidateDB.applied_at := Some applied_at;
              CandidateDB.updated_at := Some applied_at;
              CandidateDB.screened_at := None |}
    /\ resume_path
       = Os.join (Os.join (Settings.resume_dir settings) (JobDB.id job))
           (Py.take 8 (fst (uuid4 (world st))) +:+ "_"
            +:+ Py.take 50
                  (Py.strip
                     (Py.filter_chars
                        (fun c => Py.isalnum c || Py.contains (String c EmptyString) " -_")
                        name))
            +:+ Py.lower (snd (Os.splitext filename))).
Proof.
  intros [Hjobs _] Hjob Hactive Hnew Hext Hsize Hfresh.
  destruct st as [store files0 tasks outside0]. cbn [db world fs queue] in *.
  unfold serve, submit_application. run.
  unfold job_with_id. rewrite (filter_key_unique JobDB.id _ job Hjobs Hjob). run.
  rewrite Hactive, String.eqb_refl. cbn [negb].
  run. rewrite (existsb_false_filter _ _ Hnew). run.
  rewrite Hext. cbn [negb].
  destruct (Z.ltb_spec (Settings.max_file_size_mb settings * 1024 * 1024)
              (Z.of_nat (String.length content))); [lia|].
  run. rewrite run_ask. run. rewrite run_ask. run.
  unfold add. cbn [working candidates CandidateDB.id].
  unfold candidate_with_id in Hfresh. rewrite Hfresh. run.
  rewrite run_ask. run.
  do 6 eexists. split; [reflexivity|].
  split; [reflexivity|]. split; [reflexivity|]. split; [|split; reflexivity].
  apply join_not_empty, append_not_empty. discriminate.
Qed.

End ApplicationFacts.

(** X4.  [submit_application] keeps the store well formed whatever it
    answers: the keys of both tables stay unique and no two applications to
    one job share an email. *)
Theorem application_keeps_store_well_formed {Outside : Type}
        (settings : Settings.t) (utcnow : Outside -> Z * Outside)
        (uuid4 : Outside -> string * Outside) (st : Db.state Outside)
        (job_id name email : string)
        (phone linkedin_url github_url portfolio_url cover_letter : option string)
        (filename content : string) :
  Routes.keys_unique (Db.db st) ->
  Routes.applications_unique (Db.db st) ->
  let st' := snd (Db.serve (Routes.submit_application settings utcnow uuid4 job_id name
                              email phone linkedin_url github_url portfolio_url cover_letter
                              filename content) st) in
  Routes.keys_unique (Db.db st') /\ Routes.applications_unique (Db.db st').
Proof.
  intros Hkeys Happs. now apply submit_application_keeps_store.
Qed.

Lemma application_keeps_store_well_formed_witness :
  let st' := snd (Db.serve (Routes.submit_application Settings.default Sample.clock
                              Sample.uuid "j1" "Grace" "grace@example.com"
                              None None None None None "cv.pdf" "%PDF")
                           Sample.one_application) in
  Routes.keys_unique (Db.db st') /\ Routes.applications_unique (Db.db st').
Proof.
  apply (application_keeps_store_well_formed Settings.default Sample.clock Sample.uuid
           Sample.one_application "j1" "Grace" "grace@example.com"
           None None None None None "cv.pdf" "%PDF").
  - split; apply NoDup_singleton.
  - intros job_id email. cbn [Sample.one_application Db.db Db.candidates List.filter].
    destruct (Routes.applied_with job_id email Sample.candidate); simpl; lia.
Defined.

(** X5.  An application to an active job, from an email that has not
    applied to it, with an allowed extension, a content within the size
    limit and a fresh candidate id, is accepted: the answer carries the
    candidate id (the first eight characters of the UUID), one row is
    appended, in status "applied", without a score, with a resume path at
    which the disk now holds the uploaded content; the other files, the
    other rows, the other jobs and the task queue stay as they were, and the
    job counts one applicant more. *)
Theorem application_accepted {Outside : Type}
        (settings : Settings.t) (utcnow : Outside -> Z * Outside)
        (uuid4 : Outside -> string * Outside) (st : Db.state Outside)
        (job : JobDB.t) (name email : string)
        (phone linkedin_url github_url portfolio_url cover_letter : option string)
        (filename content : string) :
  Routes.keys_unique (Db.db st) ->
  In job (Db.jobs (Db.db st)) ->
  JobDB.status job = "active" ->
  List.existsb (Routes.applied_with (JobDB.id job) email) (Db.candidates (Db.db st))
  = false ->
  List.existsb (String.eqb (Py.lower (snd (Os.splitext filename))))
               Routes.allowed_extensions = true ->
  (Z.of_nat (String.length content) <= Settings.max_file_size_mb settings * 1024 * 1024)%Z ->
  List.existsb (Routes.candidate_with_id (Py.take 8 (fst (uuid4 (Db.world st)))))
               (Db.candidates (Db.db st)) = false ->
  let candidate_id := Py.take 8 (fst (uuid4 (Db.world st))) in
  let served :=
    Db.serve (Routes.submit_application settings utcnow uuid4 (JobDB.id job) name email
                phone linkedin_url github_url portfolio_url cover_letter filename content)
             st in
  exists payload c resume_path,
    fst served = Db.Done payload
    /\ payload !! "success" = Some (PBool true)
    /\ payload !! "candidate_id" = Some (PStr candidate_id)
    /\ Db.candidates (Db.db (snd served)) = (Db.candidates (Db.db st) ++ [c])%list
    /\ CandidateDB.id c = candidate_id
    /\ CandidateDB.job_id c = JobDB.id job
    /\ CandidateDB.name c = name
    /\ CandidateDB.email c = email
    /\ CandidateDB.status c = "applied"
    /\ CandidateDB.match_score c = None
    /\ CandidateDB.resume_path c = Some resume_path
    /\ Db.files (Db.fs (snd served)) !! resume_path = Some content
    /\ (forall p, p <> resume_path ->
                  Db.files (Db.fs (snd served)) !! p = Db.files (Db.fs st) !! p)
    /\ Db.queue (snd served) = Db.queue st
    /\ Forall2 (fun j j' =>
                  if String.eqb (JobDB.id j) (JobDB.id job)
                  then JobDB.id j' = JobDB.id j
                       /\ JobDB.total_applicants j' = (JobDB.total_applicants j + 1)%Z
                       /\ JobDB.screened_count j' = JobDB.screened_count j
                       /\ JobDB.shortlisted_count j' = JobDB.shortlisted_count j
                       /\ JobDB.status j' = JobDB.status j
                  else j' = j)
               (Db.jobs (Db.db st)) (Db.jobs (Db.db (snd served))).
Proof.
  intros Hkeys Hjob Hactive Hnew Hext Hsize Hfresh candidate_id served.
  subst candidate_id served.
  destruct (submit_application_accepted settings utcnow uuid4 st job name email phone
              linkedin_url github_url portfolio_url cover_letter filename content
              Hkeys Hjob Hactive Hnew Hext Hsize Hfresh)
    as (payload & resume_path & c & applied_at & updated_at & o & -> & Hsuccess & Hid & _ & -> & _).
  exists payload. eexists. exists resume_path.
  cbn [fst snd Db.db Db.fs Db.queue Db.files Db.candidates Db.jobs].
  split; [reflexivity|]. split; [exact Hsuccess|]. split; [exact Hid|].
  split; [reflexivity|]. do 7 (split; [reflexivity|]).
  split; [apply lookup_insert_eq|].
  split; [intros p Hp; now apply lookup_insert_ne|].
  split; [reflexivity|].
  generalize (Db.jobs (Db.db st)) as l. clear. intros l.
  induction l as [|j l IH]; cbn [List.map]; constructor; [|exact IH].
  destruct (String.eqb (JobDB.id j) (JobDB.id job)); [|reflexivity].
  repeat split.
Qed.

Lemma application_accepted_witness :
  exists payload c resume_path,
    fst (Db.serve (Routes.submit_application Settings.default Sample.clock Sample.uuid
                     (JobDB.id Sample.job) "Grace" "grace@example.com"
                     None None None None None "cv.PDF" "%PDF")
                  Sample.one_application) = Db.Done payload
    /\ payload !! "success" = Some (PBool true)
    /\ payload !! "candidate_id" = Some (PStr "9f1c2e7a")
    /\ Db.candidates
         (Db.db (snd (Db.serve
                        (Routes.submit_application Settings.default Sample.clock Sample.uuid
                           (JobDB.id Sample.job) "Grace" "grace@example.com"
                           None None None None None "cv.PDF" "%PDF")
                        Sample.one_application)))
       = [Sample.candidate; c]
    /\ CandidateDB.status c = "applied"
    /\ CandidateDB.resume_path c = Some resume_path
    /\ Db.files
         (Db.fs (snd (Db.serve
                        (Routes.submit_application Settings.default Sample.clock Sample.uuid
                           (JobDB.id Sample.job) "Grace" "grace@example.com"
                           None None None None None "cv.PDF" "%PDF")
                        Sample.one_application))) !! resume_path
       = Some "%PDF".
Proof.
  destruct (application_accepted Settings.default Sample.clock Sample.uuid
              Sample.one_application Sample.job "Grace" "grace@example.com"
              None None None None None "cv.PDF" "%PDF")
    as (payload & c & resume_path & H1 & H2 & H3 & H4 & _ & _ & _ & _ & H5 & _ & H6 & H7 & _).
  - split; apply NoDup_singleton.
  - left. reflexivity.
  - reflexivity.
  - reflexivity.
  - reflexivity.
  - vm_compute. discriminate.
  - reflexivity.
  - exists payload, c, resume_path. repeat split; assumption.
Defined.

(** ** Reading an application back *)

Section ReadFacts.
Import Db Routes ReadRoutes.
Context {Outside : Type}.

Lemma status_message_default (status : string) :
  default "Application in progress" (SkillMatcher.assoc status status_messages)
  = "Application in progress"
  <-> CandidateStatus.member status = false \/ status = "withdrawn".
Proof.
  unfold status_messages, CandidateStatus.member, CandidateStatus.values.
  cbn [SkillMatcher.assoc List.existsb].
  rewrite !(String.eqb_sym status).
  repeat match goal with
         | |- context [String.eqb ?k status] =>
             destruct (String.eqb_spec k status) as [<- | ?];
             [vm_compute; split; [intros H; discriminate H
                                 | intros [H | H]; discriminate H] |]
         end.
  cbn [default orb].
  split; [|reflexivity]. intros _.
  destruct (String.eqb_spec "withdrawn" status) as [<- | ?]; [now right | now left].
Qed.

Lemma filter_key_map (k : string) (g : JobDB.t -> JobDB.t) (l : list JobDB.t) :
  (forall j, JobDB.id (g j) = JobDB.id j) ->
  List.filter (job_with_id k) (List.map g l) = List.map g (List.filter (job_with_id k) l).
Proof.
  intros Hg. induction l as [|j l IH]; [reflexivity|].
  cbn [List.map List.filter].
  assert (He : job_with_id k (g j) = job_with_id k j)
    by (unfold job_with_id; now rewrite Hg).
  rewrite He. destruct (job_with_id k j); cbn [List.map]; now rewrite IH.
Qed.

Lemma candidates_data_of_app (l1 l2 : list CandidateDB.t) :
  candidates_data_of (l1 ++ l2) = (candidates_data_of l1 ++ candidates_data_of l2)%list.
Proof. unfold candidates_data_of. apply List.flat_map_app. Qed.

Lemma exists_on_written (disk0 : filesystem) (ds : gset string) (p content : string) :
  exists_on {| dirs := ds; files := <[p := content]> (files disk0) |} p = true.
Proof.
  unfold exists_on. cbn [dirs files]. apply orb_true_iff. right.
  apply bool_decide_eq_true. rewrite lookup_insert_eq. eauto.
Qed.

End ReadFacts.

(** X6.  [check_application_status] changes nothing.  In a store where no
    two applications to one job share an email it answers HTTP 404 exactly
    when no application matches, and the status of the matching application
    otherwise; the message is the default "Application in progress" exactly
    for "withdrawn" and for a status outside [CandidateStatus]. *)
Theorem check_application_status_reports {Outside : Type} (st : Db.state Outside)
        (job_id email : string) :
  Routes.applications_unique (Db.db st) ->
  let served := Db.serve (ReadRoutes.check_application_status job_id email) st in
  snd served = st
  /\ match List.filter (Routes.applied_with job_id email) (Db.candidates (Db.db st)) with
     | [] => fst served = Db.HTTPException 404 "Application not found"
     | c :: _ =>
         exists d,
           fst served = Db.Done d
           /\ d !! "status" = Some (PStr (CandidateDB.status c))
           /\ d !! "match_score" = Some (default PNone (CandidateDB.match_score c))
           /\ (d !! "message" = Some (PStr "Application in progress")
               <-> CandidateStatus.member (CandidateDB.status c) = false
                   \/ CandidateDB.status c = "withdrawn")
     end.
Proof.
  intros Happs served. subst served.
  specialize (Happs job_id email).
  destruct st as [store files0 tasks outside0]. cbn [Db.db] in *.
  unfold Db.serve, ReadRoutes.check_application_status. run.
  destruct (List.filter (Routes.applied_with job_id email) (Db.candidates store))
    as [|c [|c' rows]]; run.
  - split; reflexivity.
  - split; [reflexivity|]. eexists. split; [reflexivity|].
    split; [reflexivity|]. split; [reflexivity|].
    etransitivity; [|apply status_message_default].
    change (dict_of _ !! "message")
      with (Some (PStr (default "Application in progress"
                          (SkillMatcher.assoc (CandidateDB.status c)
                             ReadRoutes.status_messages)))).
    split; [intros [= Hm]; exact Hm | intros ->; reflexivity].
  - cbn [List.length] in Happs. lia.
Qed.

Lemma check_application_status_reports_witness :
  exists d,
    fst (Db.serve (ReadRoutes.check_application_status "j1" "ada@example.com")
                  Sample.one_application) = Db.Done d
    /\ d !! "status" = Some (PStr "applied").
Proof.
  destruct (check_application_status_reports Sample.one_application "j1" "ada@example.com")
    as (_ & d & Hd & Hstatus & _).
  - intros job_id email. cbn [Sample.one_application Db.db Db.candidates List.filter].
    destruct (Routes.applied_with job_id email Sample.candidate); simpl; lia.
  - exists d. split; [exact Hd | exact Hstatus].
Defined.

(** X7.  What an accepted application wrote can be read back: right after
    it, [check_application_status] for the same job and email reports
    "applied" with no score, and [get_candidate_resume] for the new
    candidate id answers with a path at which the disk holds the uploaded
    content; neither changes anything. *)
Theorem accepted_application_read_back {Outside : Type}
        (settings : Settings.t) (utcnow : Outside -> Z * Outside)
        (uuid4 : Outside -> string * Outside) (st : Db.state Outside)
        (job : JobDB.t) (name email : string)
        (phone linkedin_url github_url portfolio_url cover_letter : option string)
        (filename content : string) :
  Routes.keys_unique (Db.db st) ->
  In job (Db.jobs (Db.db st)) ->
  JobDB.status job = "active" ->
  List.existsb (Routes.applied_with (JobDB.id job) email) (Db.candidates (Db.db st))
  = false ->
  List.existsb (String.eqb (Py.lower (snd (Os.splitext filename))))
               Routes.allowed_extensions = true ->
  (Z.of_nat (String.length content) <= Settings.max_file_size_mb settings * 1024 * 1024)%Z ->
  List.existsb (Routes.candidate_with_id (Py.take 8 (fst (uuid4 (Db.world st)))))
               (Db.candidates (Db.db st)) = false ->
  let candidate_id := Py.take 8 (fst (uuid4 (Db.world st))) in
  let st' :=
    snd (Db.serve (Routes.submit_application settings utcnow uuid4 (JobDB.id job) name
                     email phone linkedin_url github_url portfolio_url cover_letter
                     filename content) st) in
  (exists d,
      Db.serve (ReadRoutes.check_application_status (JobDB.id job) email) st'
      = (Db.Done d, st')
      /\ d !! "status" = Some (PStr "applied")
      /\ d !! "message"
         = Some (PStr "Your application has been received and is being reviewed.")
      /\ d !! "match_score" = Some PNone)
  /\ (exists response,
         Db.serve (ReadRoutes.get_candidate_resume candidate_id) st'
         = (Db.Done response, st')
         /\ Db.files (Db.fs st') !! ReadRoutes.path response = Some content
         /\ ReadRoutes.filename response = ReadRoutes.basename (ReadRoutes.path response)).
Proof.
  intros Hkeys Hjob Hactive Hnew Hext Hsize Hfresh candidate_id st'.
  subst candidate_id st'.
  destruct (submit_application_accepted settings utcnow uuid4 st job name email phone
              linkedin_url github_url portfolio_url cover_letter filename content
              Hkeys Hjob Hactive Hnew Hext Hsize Hfresh)
    as (payload & resume_path & c & applied_at & updated_at & o & -> & _ & _ & Hpath & -> & _).
  cbn [snd]. split.
  - unfold Db.serve, ReadRoutes.check_application_status. run.
    cbn [Db.candidates]. rewrite List.filter_app, (existsb_false_filter _ _ Hnew).
    cbn [List.filter app]. unfold Routes.applied_with at 1.
    cbn [CandidateDB.job_id CandidateDB.email]. rewrite !String.eqb_refl.
    cbn [andb]. run.
    eexists. split; [reflexivity|]. repeat split.
  - unfold Db.serve, ReadRoutes.get_candidate_resume. run.
    cbn [Db.candidates]. rewrite List.filter_app, (existsb_false_filter _ _ Hfresh).
    cbn [List.filter app]. unfold Routes.candidate_with_id at 1.
    cbn [CandidateDB.id]. rewrite String.eqb_refl. run.
    unfold Routes.has_resume_path. cbn [CandidateDB.resume_path default].
    destruct (String.eqb_spec resume_path EmptyString) as [He|_]; [contradiction|].
    cbn [negb]. run. rewrite exists_on_written. cbn [negb]. run.
    eexists. split; [reflexivity|]. cbn [ReadRoutes.path ReadRoutes.filename Db.fs Db.files].
    split; [apply lookup_insert_eq | reflexivity].
Qed.

Lemma accepted_application_read_back_witness :
  exists response,
    Db.serve (ReadRoutes.get_candidate_resume "9f1c2e7a")
             (snd (Db.serve
                     (Routes.submit_application Settings.default Sample.clock Sample.uuid
                        (JobDB.id Sample.job) "Grace" "grace@example.com"
                        None None None None None "cv.PDF" "%PDF")
                     Sample.one_application))
    = (Db.Done response,
       snd (Db.serve
              (Routes.submit_application Settings.default Sample.clock Sample.uuid
                 (JobDB.id Sample.job) "Grace" "grace@example.com"
                 None None None None None "cv.PDF" "%PDF")
              Sample.one_application))
    /\ ReadRoutes.filename response = "9f1c2e7a_Grace.pdf".
Proof.
  destruct (accepted_application_read_back Settings.default Sample.clock Sample.uuid
              Sample.one_application Sample.job "Grace" "grace@example.com"
              None None None None None "cv.PDF" "%PDF")
    as (_ & response & Hserved & _ & Hname).
  - split; apply NoDup_singleton.
  - left. reflexivity.
  - reflexivity.
  - reflexivity.
  - reflexivity.
  - vm_compute. discriminate.
  - reflexivity.
  - exists response. split; [exact Hserved|].
    rewrite Hname. vm_compute in Hserved. injection Hserved as <-. reflexivity.
Defined.

(** X8.  An accepted applicant is picked up by the next screening request
    for the job: the request queues a task that lists the new candidate id
    together with a resume path at which the disk holds the uploaded
    content, and answers "processing". *)
Theorem accepted_applicant_is_queued {Outside : Type}
        (settings : Settings.t) (utcnow : Outside -> Z * Outside)
        (uuid4 : Outside -> string * Outside) (st : Db.state Outside)
        (job : JobDB.t) (name email : string)
        (phone linkedin_url github_url portfolio_url cover_letter : option string)
        (filename content : string) :
  Routes.keys_unique (Db.db st) ->
  In job (Db.jobs (Db.db st)) ->
  JobDB.status job = "active" ->
  List.existsb (Routes.applied_with (JobDB.id job) email) (Db.candidates (Db.db st))
  = false ->
  List.existsb (String.eqb (Py.lower (snd (Os.splitext filename))))
               Routes.allowed_extensions = true ->
  (Z.of_nat (String.length content) <= Settings.max_file_size_mb settings * 1024 * 1024)%Z ->
  List.existsb (Routes.candidate_with_id (Py.take 8 (fst (uuid4 (Db.world st)))))
               (Db.candidates (Db.db st)) = false ->
  let st' :=
    snd (Db.serve (Routes.submit_application settings utcnow uuid4 (JobDB.id job) name
                     email phone linkedin_url github_url portfolio_url cover_letter
                     filename content) st) in
  let screening := Db.serve (Routes.screen_candidates (JobDB.id job) None) st' in
  exists payload task candidate,
    fst screening = Db.Done payload
    /\ payload !! "status" = Some (PStr "processing")
    /\ Db.queue (snd screening) = (Db.queue st ++ [task])%list
    /\ Db.task_job_id task = JobDB.id job
    /\ In candidate (Db.task_candidates task)
    /\ ScreeningCrew.id candidate = Py.take 8 (fst (uuid4 (Db.world st)))
    /\ Db.files (Db.fs (snd screening)) !! ScreeningCrew.resume_path candidate
       = Some content.
Proof.
  intros Hkeys Hjob Hactive Hnew Hext Hsize Hfresh st' screening.
  subst st' screening.
  destruct (submit_application_accepted settings utcnow uuid4 st job name email phone
              linkedin_url github_url portfolio_url cover_letter filename content
              Hkeys Hjob Hactive Hnew Hext Hsize Hfresh)
    as (payload0 & resume_path & c & applied_at & updated_at & o & -> & _ & _ & Hpath & -> & _).
  cbn [snd]. destruct Hkeys as [Hjobs _].
  unfold Db.serve, Routes.screen_candidates. run.
  cbn [Db.jobs Db.candidates].
  rewrite filter_key_map
    by (intros j; destruct (String.eqb (JobDB.id j) (JobDB.id job)); reflexivity).
  unfold Routes.job_with_id. rewrite (filter_key_unique JobDB.id _ job Hjobs Hjob).
  cbn [List.map]. run. cbn [Db.candidates Routes.limited].
  match goal with
  | |- context [(_ ++ [?c])%list] => set (row := c)
  end.
  assert (Hrow : Routes.unscreened_in (JobDB.id job) row = true).
  { unfold Routes.unscreened_in, row.
    cbn [CandidateDB.job_id CandidateDB.status CandidateDB.match_score].
    rewrite String.eqb_refl.
    replace (bool_decide (is_Some (@None pyval))) with false
      by (symmetry; apply bool_decide_eq_false; intros [? Hs]; discriminate Hs).
    reflexivity. }
  rewrite !List.filter_app. cbn [List.filter]. rewrite !Hrow.
  set (ref := {| ScreeningCrew.id := Py.take 8 (fst (uuid4 (Db.world st)));
                 ScreeningCrew.resume_path := resume_path |}).
  assert (Hdata : forall l,
             Routes.candidates_data_of (l ++ [row])%list
             = (Routes.candidates_data_of l ++ [ref])%list).
  { intros l. rewrite candidates_data_of_app. f_equal. unfold row.
    cbn [Routes.candidates_data_of flat_map CandidateDB.resume_path CandidateDB.id app].
    destruct (String.eqb_spec resume_path EmptyString) as [He|_]; [contradiction|].
    reflexivity. }
  destruct (List.filter (Routes.unscreened_in (JobDB.id job)) (Db.candidates (Db.db st)))
    as [|c0 rows] eqn:Hrows.
  - specialize (Hdata []). cbn [app] in Hdata |- *. run. rewrite Hdata.
    eexists. eexists. exists ref. cbn [fst snd Db.queue Db.fs Db.files].
    split; [reflexivity|]. split; [reflexivity|]. split; [reflexivity|].
    cbn [Db.task_job_id Db.task_candidates]. split; [reflexivity|].
    split; [apply List.in_or_app; right; now left|].
    split; [reflexivity | apply lookup_insert_eq].
  - specialize (Hdata (c0 :: rows)). rewrite <- List.app_comm_cons in Hdata |- *.
    run. rewrite Hdata.
    eexists. eexists. exists ref. cbn [fst snd Db.queue Db.fs Db.files].
    split; [reflexivity|]. split; [reflexivity|]. split; [reflexivity|].
    cbn [Db.task_job_id Db.task_candidates]. split; [reflexivity|].
    split; [apply List.in_or_app; right; now left|].
    split; [reflexivity | apply lookup_insert_eq].
Qed.

Lemma accepted_applicant_is_queued_witness :
  exists payload task candidate,
    fst (Db.serve (Routes.screen_candidates (JobDB.id Sample.job) None)
           (snd (Db.serve
                   (Routes.submit_application Settings.default Sample.clock Sample.uuid
                      (JobDB.id Sample.job) "Grace" "grace@example.com"
                      None None None None None "cv.PDF" "%PDF")
                   Sample.one_application))) = Db.Done payload
    /\ payload !! "status" = Some (PStr "processing")
    /\ In candidate (Db.task_candidates task)
    /\ ScreeningCrew.id candidate = "9f1c2e7a".
Proof.
  destruct (accepted_applicant_is_queued Settings.default Sample.clock Sample.uuid
              Sample.one_application Sample.job "Grace" "grace@example.com"
              None None None None None "cv.PDF" "%PDF")
    as (payload & task & candidate & H1 & H2 & _ & _ & H3 & H4 & _).
  - split; apply NoDup_singleton.
  - left. reflexivity.
  - reflexivity.
  - reflexivity.
  - reflexivity.
  - vm_compute. discriminate.
  - reflexivity.
  - exists payload, task, candidate. repeat split; assumption.
Defined.

(** ** The frame of the screening task *)

Section TaskFrame.
Import Db Routes.
Context {Outside : Type}.
Variable settings : Settings.t.
Variable kickoff : Outside -> ScreeningCrew.crew_request -> outcome string * Outside.
Variable utcnow : Outside -> Z * Outside.

(** One turn of the loop assigns a score, a status and an instant to the
    rows of the candidate at hand, or nothing at all. *)
Lemma screen_one_shape (job_requirements : list ScreeningCrew.requirement)
      (job_description : string) (min_exp : Z) (exp_level : string)
      (candidate : ScreeningCrew.candidate_ref) (s : session Outside) :
  working s = committed s ->
  exists s',
    screen_one settings kickoff utcnow job_requirements job_description min_exp exp_level
      candidate s = (Done tt, s')
    /\ working s' = committed s'
    /\ disk s' = disk s
    /\ background s' = background s
    /\ jobs (committed s') = jobs (committed s)
    /\ (candidates (committed s') = candidates (committed s)
        \/ exists score now status,
             candidates (committed s')
             = List.map (fun c => if String.eqb (CandidateDB.id c) (ScreeningCrew.id candidate)
                                  then CandidateDB.set_status status
                                         (CandidateDB.record_screening score now c)
                                  else c)
                        (candidates (committed s))).
Proof.
  intros Hsync.
  unfold screen_one. rewrite run_try_except, run_bind.
  destruct (in_world_returns
              (fun w => ScreeningCrew.screen_candidate World path_exists (kickoff_in kickoff) w
                          (ScreeningCrew.resume_path candidate) job_requirements
                          job_description min_exp exp_level) s) as (d & z & o & -> & Hz).
  { intros w. apply screen_candidate_returns. }
  run. rewrite Hsync.
  destruct (List.filter (candidate_with_id (ScreeningCrew.id candidate))
              (candidates (committed s))) as [|c [|c' rows]]; run.
  - eexists. split; [reflexivity|]. cbn [working committed disk background].
    repeat split; auto.
  - rewrite run_ask. run.
    unfold get. rewrite Hz. cbn [Py.ge lift]. run.
    eexists. split; [reflexivity|]. cbn [working committed disk background].
    rewrite update_twice by reflexivity.
    cbn [update_candidates jobs candidates].
    do 4 (split; [reflexivity|]). right.
    eexists _, _, _. apply List.map_ext. intros c0.
    destruct (String.eqb (CandidateDB.id c0) (ScreeningCrew.id candidate)); reflexivity.
  - eexists. split; [reflexivity|]. cbn [working committed disk background].
    repeat split; auto.
Qed.

Lemma left_alone_refl (candidates_data : list ScreeningCrew.candidate_ref)
      (l : list CandidateDB.t) :
  Forall2 (Frame.left_alone candidates_data) l l.
Proof. induction l; constructor; [split; auto | assumption]. Qed.

Lemma left_alone_step (candidate : ScreeningCrew.candidate_ref)
      (rest : list ScreeningCrew.candidate_ref) (l1 l2 l3 : list CandidateDB.t) :
  (l2 = l1
   \/ exists score now status,
        l2 = List.map (fun c => if String.eqb (CandidateDB.id c) (ScreeningCrew.id candidate)
                                then CandidateDB.set_status status
                                       (CandidateDB.record_screening score now c)
                                else c) l1) ->
  Forall2 (Frame.left_alone rest) l2 l3 ->
  Forall2 (Frame.left_alone (candidate :: rest)) l1 l3.
Proof.
  intros [-> | (score & now & status & ->)] H.
  - induction H as [|c c' l l' [Happ Hkeep] _ IH]; constructor; [|exact IH].
    split; [exact Happ|]. intros Hc. apply Hkeep. intros Hin. apply Hc. now right.
  - revert l3 H. induction l1 as [|c l1 IH]; intros l3 H; inversion H; subst; constructor.
    + match goal with Hc : Frame.left_alone rest _ _ |- _ => destruct Hc as [Happ Hkeep] end.
      destruct (String.eqb_spec (CandidateDB.id c) (ScreeningCrew.id candidate)) as [He|Hne].
      * split; [rewrite Happ; reflexivity|].
        intros Hc. exfalso. apply Hc. left. now symmetry.
      * split; [exact Happ|]. intros Hc. apply Hkeep. intros Hin. apply Hc. now right.
    + now apply IH.
Qed.

(** The loop of [run_screening_task]. *)
Lemma screen_all_shape (job_requirements : list ScreeningCrew.requirement)
      (job_description : string) (min_exp : Z) (exp_level : string)
      (candidates_data : list ScreeningCrew.candidate_ref) :
  forall s : session Outside,
    working s = committed s ->
    exists s',
      for_each (screen_one settings kickoff utcnow job_requirements job_description
                  min_exp exp_level) candidates_data s = (Done tt, s')
      /\ working s' = committed s'
      /\ disk s' = disk s
      /\ background s' = background s
      /\ jobs (committed s') = jobs (committed s)
      /\ Forall2 (Frame.left_alone candidates_data) (candidates (committed s))
                 (candidates (committed s')).
Proof.
  induction candidates_data as [|candidate rest IH]; intros s Hsync.
  - exists s. repeat split; auto. apply left_alone_refl.
  - rewrite for_each_cons.
    destruct (screen_one_shape job_requirements job_description min_exp exp_level
                candidate s Hsync)
      as (s1 & -> & Hsync1 & Hdisk1 & Hqueue1 & Hjobs1 & Hrows1).
    destruct (IH s1 Hsync1) as (s' & -> & Hsync' & Hdisk' & Hqueue' & Hjobs' & Hrows').
    exists s'. split; [reflexivity|]. split; [exact Hsync'|].
    split; [congruence|]. split; [congruence|]. split; [congruence|].
    eapply left_alone_step; eassumption.
Qed.

(** The task as a whole: the state it leaves. *)
Lemma run_screening_task_shape (job_id : string)
      (candidates_data : list ScreeningCrew.candidate_ref)
      (job_requirements : list ScreeningCrew.requirement)
      (job_description : string) (min_exp : Z) (exp_level : string)
      (st : state Outside) :
  let st' := in_background
               (run_screening_task settings kickoff utcnow job_id candidates_data
                  job_requirements job_description min_exp exp_level) st in
  fs st' = fs st
  /\ queue st' = queue st
  /\ Forall2 (Frame.left_alone candidates_data) (candidates (db st)) (candidates (db st'))
  /\ match List.filter (job_with_id job_id) (jobs (db st)) with
     | [_] =>
         jobs (db st')
         = List.map (fun j => if String.eqb (JobDB.id j) job_id
                              then JobDB.set_counts
                                     (Z.of_nat (List.length
                                                  (List.filter (Frame.scored_in job_id)
                                                     (candidates (db st')))))
                                     (Z.of_nat (List.length
                                                  (List.filter (Frame.shortlisted_in job_id)
                                                     (candidates (db st')))))
                                     j
                              else j)
                    (jobs (db st))
     | _ => jobs (db st') = jobs (db st)
     end.
Proof.
  intros st'. subst st'.
  unfold in_background, run_screening_task. rewrite run_bind.
  destruct (screen_all_shape job_requirements job_description min_exp exp_level
              candidates_data (open_session st) eq_refl)
    as (s1 & -> & Hsync & Hdisk & Hqueue & Hjobs & Hrows).
  destruct s1 as [rows1 working1 files1 tasks1 outside1].
  cbn [working committed disk background open_session] in *. subst working1 files1 tasks1.
  run. rewrite Hjobs.
  destruct (List.filter (job_with_id job_id) (jobs (db st))) as [|job [|j2 rest]]; run;
    repeat split; auto.
  cbn [update_jobs jobs candidates]. rewrite Hjobs. reflexivity.
Qed.

End TaskFrame.

(** X9.  [run_screening_task] writes no file and queues nothing.  Of every
    candidate row it keeps the application columns (id, job, name, email,
    contact links, cover letter, resume path, time of application); a row
    whose id is not among the candidates it was given is kept as a whole.
    Of every job row it keeps the posting columns and the number of
    applicants; a job other than the one named is kept as a whole. *)
Theorem screening_task_frame {Outside : Type}
        (settings : Settings.t)
        (kickoff : Outside -> ScreeningCrew.crew_request -> outcome string * Outside)
        (utcnow : Outside -> Z * Outside)
        (st : Db.state Outside) (job_id : string)
        (candidates_data : list ScreeningCrew.candidate_ref)
        (job_requirements : list ScreeningCrew.requirement) (job_description : string)
        (min_exp : Z) (exp_level : string) :
  let st' :=
    Db.in_background
      (Routes.run_screening_task settings kickoff utcnow job_id candidates_data
         job_requirements job_description min_exp exp_level) st in
  Db.fs st' = Db.fs st
  /\ Db.queue st' = Db.queue st
  /\ Forall2 (fun c c' =>
                Frame.application_of c' = Frame.application_of c
                /\ (~ In (CandidateDB.id c) (List.map ScreeningCrew.id candidates_data) ->
                    c' = c))
             (Db.candidates (Db.db st)) (Db.candidates (Db.db st'))
  /\ Forall2 (fun j j' =>
                Frame.posting_of j' = Frame.posting_of j
                /\ (JobDB.id j <> job_id -> j' = j))
             (Db.jobs (Db.db st)) (Db.jobs (Db.db st')).
Proof.
  intros st'. subst st'.
  destruct (run_screening_task_shape settings kickoff utcnow job_id candidates_data
              job_requirements job_description min_exp exp_level st)
    as (Hfs & Hqueue & Hrows & Hjobs).
  split; [exact Hfs|]. split; [exact Hqueue|]. split; [exact Hrows|].
  assert (Hsame : forall l : list JobDB.t,
             Forall2 (fun j j' => Frame.posting_of j' = Frame.posting_of j
                                  /\ (JobDB.id j <> job_id -> j' = j)) l l)
    by (induction l; constructor; auto).
  destruct (List.filter (Routes.job_with_id job_id) (Db.jobs (Db.db st)))
    as [|job [|j2 rest]]; rewrite Hjobs; try apply Hsame.
  generalize (Db.jobs (Db.db st)) as l. intros l.
  induction l as [|j l IH]; cbn [List.map]; constructor; [|exact IH].
  destruct (String.eqb_spec (JobDB.id j) job_id) as [He|Hne].
  - split; [reflexivity|]. intros Hj. contradiction.
  - split; reflexivity.
Qed.

(** X10.  When the job named exists, [run_screening_task] ends by
    recounting it over the rows as the task leaves them: its
    [screened_count] is the number of the job's candidates that carry a
    score and its [shortlisted_count] the number of those in status
    "shortlisted"; [total_applicants] stays as it was. *)
Theorem screening_task_recounts {Outside : Type}
        (settings : Settings.t)
        (kickoff : Outside -> ScreeningCrew.crew_request -> outcome string * Outside)
        (utcnow : Outside -> Z * Outside)
        (st : Db.state Outside) (job : JobDB.t)
        (candidates_data : list ScreeningCrew.candidate_ref)
        (job_requirements : list ScreeningCrew.requirement) (job_description : string)
        (min_exp : Z) (exp_level : string) :
  NoDup (List.map JobDB.id (Db.jobs (Db.db st))) ->
  In job (Db.jobs (Db.db st)) ->
  let st' :=
    Db.in_background
      (Routes.run_screening_task settings kickoff utcnow (JobDB.id job) candidates_data
         job_requirements job_description min_exp exp_level) st in
  exists job',
    List.filter (Routes.job_with_id (JobDB.id job)) (Db.jobs (Db.db st')) = [job']
    /\ JobDB.screened_count job'
       = Z.of_nat (List.length (List.filter (Frame.scored_in (JobDB.id job))
                                            (Db.candidates (Db.db st'))))
    /\ JobDB.shortlisted_count job'
       = Z.of_nat (List.length (List.filter (Frame.shortlisted_in (JobDB.id job))
                                            (Db.candidates (Db.db st'))))
    /\ JobDB.total_applicants job' = JobDB.total_applicants job.
Proof.
  intros Hkeys Hjob st'. subst st'.
  destruct (run_screening_task_shape settings kickoff utcnow (JobDB.id job) candidates_data
              job_requirements job_description min_exp exp_level st)
    as (_ & _ & _ & Hjobs).
  unfold Routes.job_with_id in Hjobs at 1.
  rewrite (filter_key_unique JobDB.id _ job Hkeys Hjob) in Hjobs.
  rewrite Hjobs.
  rewrite filter_key_map
    by (intros j; destruct (String.eqb (JobDB.id j) (JobDB.id job)); reflexivity).
  unfold Routes.job_with_id at 1.
  rewrite (filter_key_unique JobDB.id _ job Hkeys Hjob).
  cbn [List.map]. rewrite String.eqb_refl.
  eexists. split; [reflexivity|]. repeat split.
Qed.

Lemma screening_task_recounts_witness :
  exists job',
    List.filter (Routes.job_with_id "j1")
      (Db.jobs
         (Db.db (Db.in_background
                   (Routes.run_screening_task Settings.default
                      (Sample.answering "MATCH_SCORE: 72") Sample.clock "j1"
                      [ {| ScreeningCrew.id := "c1";
                           ScreeningCrew.resume_path := "./data/resumes/j1/c1_Ada.pdf" |} ]
                      [] "Python and SQL" 0%Z "mid")
                   Sample.one_application))) = [job']
    /\ JobDB.screened_count job' = 1%Z
    /\ JobDB.shortlisted_count job' = 1%Z.
Proof.
  destruct (screening_task_recounts Settings.default (Sample.answering "MATCH_SCORE: 72")
              Sample.clock Sample.one_application Sample.job
              [ {| ScreeningCrew.id := "c1";
                   ScreeningCrew.resume_path := "./data/resumes/j1/c1_Ada.pdf" |} ]
              [] "Python and SQL" 0%Z "mid")
    as (job' & Hjob' & Hscreened & Hshortlisted & _).
  - apply NoDup_singleton.
  - left. reflexivity.
  - exists job'. split; [exact Hjob'|].
    rewrite Hscreened, Hshortlisted. vm_compute. split; reflexivity.
Defined.

(** ** From a screening request to the next one *)

Section Pipeline.
Import Db Routes.
Context {Outside : Type}.

Lemma screened_not_unscreened (settings : Settings.t) (job_id : string) (c : CandidateDB.t) :
  screened settings c -> unscreened_in job_id c = false.
Proof.
  intros (z & _ & Hstatus). unfold unscreened_in. rewrite Hstatus.
  destruct (Settings.min_match_score settings <=? z)%Z;
    cbn [String.eqb Ascii.eqb Bool.eqb andb]; now rewrite andb_false_r.
Qed.

Lemma candidates_data_of_in (l : list CandidateDB.t) (c : CandidateDB.t) :
  In c l -> has_resume_path c = true ->
  exists ref, In ref (candidates_data_of l) /\ ScreeningCrew.id ref = CandidateDB.id c.
Proof.
  intros Hin Hpath. unfold candidates_data_of.
  unfold has_resume_path in Hpath.
  destruct (CandidateDB.resume_path c) as [path|] eqn:Hc; [|discriminate].
  exists {| ScreeningCrew.id := CandidateDB.id c; ScreeningCrew.resume_path := path |}.
  split; [|reflexivity].
  apply List.in_flat_map. exists c. split; [exact Hin|]. rewrite Hc.
  destruct (String.eqb path EmptyString); [discriminate | now left].
Qed.

Lemma not_own_extension {A : Type} (l : list A) (x : A) : l <> (l ++ [x])%list.
Proof.
  intros H. apply (f_equal (@List.length A)) in H.
  rewrite List.length_app in H. cbn [List.length] in H. lia.
Qed.

(** The answer of POST /job/{job_id}/screen without a limit, for a job
    that is there. *)
Lemma screen_candidates_served (st : state Outside) (job_id : string) (job : JobDB.t) :
  List.filter (job_with_id job_id) (jobs (db st)) = [job] ->
  match List.filter (unscreened_in job_id) (candidates (db st)) with
  | [] =>
      serve (screen_candidates job_id None) st
      = (Done (dict_of [ ("job_id", PStr job_id);
                         ("message", PStr "No unscreened candidates found");
                         ("screened_count", PInt 0) ]), st)
  | selected =>
      exists payload,
        serve (screen_candidates job_id None) st
        = (Done payload,
           {| db := db st; fs := fs st;
              queue := (queue st
                        ++ [ {| task_job_id := job_id;
                                task_candidates := candidates_data_of selected;
                                task_requirements := default [] (JobDB.requirements job);
                                task_description :=
                                  default EmptyString (JobDB.description job);
                                task_min_exp :=
                                  default 0%Z (JobDB.min_experience_years job);
                                task_exp_level :=
                                  match JobDB.experience_level job with
                                  | Some l => if String.eqb l EmptyString then "mid" else l
                                  | None => "mid"
                                  end |} ])%list;
              world := world st |})
  end.
Proof.
  intros Hjob. destruct st as [store files0 tasks outside0]. cbn [db fs queue world] in *.
  unfold serve, screen_candidates. run. rewrite Hjob. run. cbn [limited].
  destruct (List.filter (unscreened_in job_id) (candidates store)) as [|c rows]; run.
  - reflexivity.
  - eexists. reflexivity.
Qed.

(** The rows a task leaves, by the score they carry. *)
Lemma run_screening_task_screens (settings : Settings.t)
      (kickoff : Outside -> ScreeningCrew.crew_request -> outcome string * Outside)
      (utcnow : Outside -> Z * Outside) (st : state Outside) (job_id : string)
      (candidates_data : list ScreeningCrew.candidate_ref)
      (job_requirements : list ScreeningCrew.requirement) (job_description : string)
      (min_exp : Z) (exp_level : string) :
  NoDup (List.map CandidateDB.id (candidates (db st))) ->
  let st' := in_background
               (run_screening_task settings kickoff utcnow job_id candidates_data
                  job_requirements job_description min_exp exp_level) st in
  Forall2 (kept_or_screened settings) (candidates (db st)) (candidates (db st'))
  /\ forall candidate c',
       In candidate candidates_data ->
       In c' (candidates (db st')) ->
       CandidateDB.id c' = ScreeningCrew.id candidate ->
       screened settings c'.
Proof.
  intros Hkeys st'. subst st'.
  unfold in_background, run_screening_task. rewrite run_bind.
  destruct (screen_all_effect settings kickoff utcnow job_requirements job_description
              min_exp exp_level candidates_data (open_session st) eq_refl Hkeys)
    as (s1 & -> & Hsync & _ & Hrows & Hdone).
  destruct s1 as [rows1 working1 files1 tasks1 outside1].
  cbn [working committed] in *. subst working1.
  cbn [open_session committed] in Hrows.
  run.
  destruct (List.filter (job_with_id job_id) (jobs rows1)) as [|job [|j2 rest]];
    run; split; assumption.
Qed.

End Pipeline.

(** X11.  A screening request followed by the task it queued leaves
    nothing to screen: when every unscreened candidate of the job has a
    resume path, the next unlimited request for the job answers "No
    unscreened candidates found" and queues nothing. *)
Theorem screening_leaves_nothing_unscreened {Outside : Type}
        (settings : Settings.t)
        (kickoff : Outside -> ScreeningCrew.crew_request -> outcome string * Outside)
        (utcnow : Outside -> Z * Outside)
        (st : Db.state Outside) (job : JobDB.t) (task : Db.background_task) :
  Routes.keys_unique (Db.db st) ->
  In job (Db.jobs (Db.db st)) ->
  (forall c, In c (Db.candidates (Db.db st)) ->
             Routes.unscreened_in (JobDB.id job) c = true ->
             Routes.has_resume_path c = true) ->
  let requested := snd (Db.serve (Routes.screen_candidates (JobDB.id job) None) st) in
  Db.queue requested = (Db.queue st ++ [task])%list ->
  let screened :=
    Db.in_background
      (Routes.run_screening_task settings kickoff utcnow
         (Db.task_job_id task) (Db.task_candidates task) (Db.task_requirements task)
         (Db.task_description task) (Db.task_min_exp task) (Db.task_exp_level task))
      requested in
  exists payload,
    Db.serve (Routes.screen_candidates (JobDB.id job) None) screened
    = (Db.Done payload, screened)
    /\ payload !! "message" = Some (PStr "No unscreened candidates found")
    /\ payload !! "status" = None.
Proof.
  intros [Hjobs Hcands] Hjob Hpaths requested Hqueue screened.
  subst requested screened.
  pose proof (filter_key_unique JobDB.id _ job Hjobs Hjob) as Hone.
  change (List.filter (Routes.job_with_id (JobDB.id job)) (Db.jobs (Db.db st)) = [job])
    in Hone.
  pose proof (screen_candidates_served st (JobDB.id job) job Hone) as Hfirst.
  destruct (List.filter (Routes.unscreened_in (JobDB.id job)) (Db.candidates (Db.db st)))
    as [|c0 selected] eqn:Hselected.
  { rewrite Hfirst in Hqueue. cbn [snd] in Hqueue.
    exfalso. exact (not_own_extension _ _ Hqueue). }
  destruct Hfirst as (payload0 & Hfirst). rewrite Hfirst in Hqueue |- *.
  cbn [snd Db.queue] in Hqueue |- *.
  apply List.app_inj_tail in Hqueue as [_ <-].
  cbn [Db.task_job_id Db.task_candidates Db.task_requirements Db.task_description
       Db.task_min_exp Db.task_exp_level].
  set (st1 := {| Db.db := Db.db st; Db.fs := Db.fs st; Db.queue := _;
                 Db.world := Db.world st |}).
  set (task_run := Routes.run_screening_task _ _ _ _ _ _ _ _ _).
  destruct (run_screening_task_shape settings kickoff utcnow (JobDB.id job)
              (Routes.candidates_data_of (c0 :: selected))
              (default [] (JobDB.requirements job))
              (default EmptyString (JobDB.description job))
              (default 0%Z (JobDB.min_experience_years job))
              (match JobDB.experience_level job with
               | Some l => if String.eqb l EmptyString then "mid" else l
               | None => "mid"
               end) st1) as (_ & _ & _ & Hjobs2).
  destruct (run_screening_task_screens settings kickoff utcnow st1 (JobDB.id job)
              (Routes.candidates_data_of (c0 :: selected))
              (default [] (JobDB.requirements job))
              (default EmptyString (JobDB.description job))
              (default 0%Z (JobDB.min_experience_years job))
              (match JobDB.experience_level job with
               | Some l => if String.eqb l EmptyString then "mid" else l
               | None => "mid"
               end) Hcands) as (Hrows2 & Hdone2).
  fold task_run in Hjobs2, Hrows2, Hdone2.
  cbn [st1 Db.db] in Hjobs2, Hrows2. rewrite Hone in Hjobs2.
  assert (Hjob2 : exists job2,
             List.filter (Routes.job_with_id (JobDB.id job))
                         (Db.jobs (Db.db (Db.in_background task_run st1))) = [job2]).
  { rewrite Hjobs2.
    rewrite filter_key_map
      by (intros j; destruct (String.eqb (JobDB.id j) (JobDB.id job)); reflexivity).
    rewrite Hone. eexists. reflexivity. }
  destruct Hjob2 as (job2 & Hjob2).
  pose proof (screen_candidates_served (Db.in_background task_run st1) (JobDB.id job) job2
                Hjob2) as Hsecond.
  assert (Hnone : List.filter (Routes.unscreened_in (JobDB.id job))
                    (Db.candidates (Db.db (Db.in_background task_run st1))) = []).
  { apply filter_none. intros c' Hc'.
    destruct (kept_or_screened_origin settings _ _ _ Hrows2 Hc')
      as (c & Hc & [-> | [_ Hscreened]]).
    - destruct (Routes.unscreened_in (JobDB.id job) c) eqn:Hun; [|reflexivity].
      assert (Hsel : In c (c0 :: selected))
        by (rewrite <- Hselected; apply List.filter_In; now split).
      destruct (candidates_data_of_in _ c Hsel (Hpaths c Hc Hun)) as (ref & Href & Hid).
      rewrite <- Hun. apply (screened_not_unscreened settings).
      apply (Hdone2 ref c Href Hc'). now symmetry.
    - now apply (screened_not_unscreened settings). }
  rewrite Hnone in Hsecond. rewrite Hsecond.
  eexists. split; [reflexivity|]. split; reflexivity.
Qed.

Lemma screening_leaves_nothing_unscreened_witness :
  exists payload,
    fst (Db.serve (Routes.screen_candidates "j1" None)
           (Db.in_background
              (Routes.run_screening_task Settings.default
                 (Sample.answering "MATCH_SCORE: 72") Sample.clock "j1"
                 [ {| ScreeningCrew.id := "c1";
                      ScreeningCrew.resume_path := "./data/resumes/j1/c1_Ada.pdf" |} ]
                 [] "Python and SQL" 0%Z "mid")
              (snd (Db.serve (Routes.screen_candidates "j1" None) Sample.one_application))))
    = Db.Done payload
    /\ payload !! "message" = Some (PStr "No unscreened candidates found").
Proof.
  destruct (screening_leaves_nothing_unscreened Settings.default
              (Sample.answering "MATCH_SCORE: 72") Sample.clock Sample.one_application
              Sample.job
              {| Db.task_job_id := "j1";
                 Db.task_candidates :=
                   [ {| ScreeningCrew.id := "c1";
                        ScreeningCrew.resume_path := "./data/resumes/j1/c1_Ada.pdf" |} ];
                 Db.task_requirements := [];
                 Db.task_description := "Python and SQL";
                 Db.task_min_exp := 0%Z;
                 Db.task_exp_level := "mid" |})
    as (payload & Hserved & Hmessage & _).
  - split; apply NoDup_singleton.
  - left. reflexivity.
  - intros c [<- | []] _. reflexivity.
  - reflexivity.
  - exists payload. split; [|exact Hmessage].
    cbn [Db.task_job_id Db.task_candidates Db.task_requirements Db.task_description
         Db.task_min_exp Db.task_exp_level] in Hserved.
    change (JobDB.id Sample.job) with "j1" in Hserved.
    rewrite Hserved. reflexivity.
Defined.

(** ** Screenings that fail *)

Section FailedScreening.
Import Db Routes.
Context {Outside : Type}.
Variable settings : Settings.t.
Variable kickoff : Outside -> ScreeningCrew.crew_request -> outcome string * Outside.
Variable utcnow : Outside -> Z * Outside.

Lemma kickoff_in_raises (w : World) (request : ScreeningCrew.crew_request) (e : string) :
  fst (kickoff (snd w) request) = Raise e ->
  fst (kickoff_in kickoff w request) = Raise e.
Proof.
  unfold kickoff_in. destruct (kickoff (snd w) request) as [r o]. now cbn [fst].
Qed.

Lemma screen_candidate_scores_zero (w : World) (resume_path : string)
      (job_requirements : list ScreeningCrew.requirement) (job_description : string)
      (min_exp : Z) (exp_level : string) :
  path_exists w resume_path = false \/ (forall o request, exists e, fst (kickoff o request) = Raise e) ->
  exists d,
    fst (ScreeningCrew.screen_candidate World path_exists (kickoff_in kickoff) w resume_path
           job_requirements job_description min_exp exp_level) = Return d
    /\ d !! "match_score" = Some (PInt 0).
Proof.
  intros Hfail. unfold ScreeningCrew.screen_candidate.
  destruct (path_exists w resume_path) eqn:Hpath; cbn [negb fst].
  - destruct Hfail as [Hmissing | Hagents]; [discriminate|].
    match goal with
    | |- context [ScreeningCrew.run_crew _ _ _ ?request _] =>
        destruct (Hagents (snd w) request) as (e & He);
        rewrite (run_crew_raised World (kickoff_in kickoff) w request 0 e
                   (kickoff_in_raises w request e He))
    end.
    eexists. split; reflexivity.
  - eexists. split; reflexivity.
Qed.

Lemma in_world_scored (call : World -> outcome dict * World) (s : session Outside) (z : Z) :
  (exists d, fst (call (disk s, outside s)) = Return d
             /\ d !! "match_score" = Some (PInt z)) ->
  exists d o,
    in_world call s
    = (Done d, {| committed := committed s; working := working s; disk := disk s;
                  background := background s; outside := o |})
    /\ d !! "match_score" = Some (PInt z).
Proof.
  intros (d & Hd & Hz). unfold in_world.
  destruct (call (disk s, outside s)) as [r w]. cbn [fst] in Hd. subst r.
  exists d, (snd w). split; [reflexivity | exact Hz].
Qed.

(** One turn of the loop for a candidate whose screening fails. *)
Lemma screen_one_failed (job_requirements : list ScreeningCrew.requirement)
      (job_description : string) (min_exp : Z) (exp_level : string)
      (candidate : ScreeningCrew.candidate_ref) (s : session Outside) :
  working s = committed s ->
  NoDup (List.map CandidateDB.id (candidates (committed s))) ->
  exists_on (disk s) (ScreeningCrew.resume_path candidate) = false \/ (forall o request, exists e, fst (kickoff o request) = Raise e) ->
  exists s',
    screen_one settings kickoff utcnow job_requirements job_description min_exp exp_level
      candidate s = (Done tt, s')
    /\ forall c', In c' (candidates (committed s')) ->
                  CandidateDB.id c' = ScreeningCrew.id candidate ->
                  CandidateDB.match_score c' = Some (PInt 0)
                  /\ CandidateDB.status c' = Frame.verdict settings 0.
Proof.
  intros Hsync Hkeys Hfail.
  unfold screen_one. rewrite run_try_except, run_bind.
  destruct (in_world_scored
              (fun w => ScreeningCrew.screen_candidate World path_exists (kickoff_in kickoff) w
                          (ScreeningCrew.resume_path candidate) job_requirements
                          job_description min_exp exp_level) s 0) as (d & o & -> & Hz).
  { apply screen_candidate_scores_zero. exact Hfail. }
  run.
  pose proof (filter_key_length _ (ScreeningCrew.id candidate) Hkeys) as Hlen.
  rewrite Hsync.
  destruct (List.filter (candidate_with_id (ScreeningCrew.id candidate))
              (candidates (committed s))) as [|c [|c' rows]] eqn:Hrows; run.
  - eexists. split; [reflexivity|]. cbn [committed].
    intros c' Hin Hid. exfalso. exact (filter_nil_no_row _ _ _ Hrows Hin Hid).
  - rewrite run_ask. run.
    unfold get. rewrite Hz. cbn [Py.ge lift]. run.
    eexists. split; [reflexivity|]. cbn [committed].
    rewrite update_twice by reflexivity.
    cbn [update_candidates candidates].
    intros c' Hin Hid. apply List.in_map_iff in Hin as (c0 & <- & _).
    destruct (String.eqb_spec (CandidateDB.id c0) (ScreeningCrew.id candidate)) as [_|Hne];
      [split; reflexivity | contradiction].
  - cbn [List.length] in Hlen. lia.
Qed.

Lemma for_each_app {A : Type} (body : A -> handler Outside unit) (l1 l2 : list A)
      (s : session Outside) :
  for_each body (l1 ++ l2) s
  = match for_each body l1 s with
    | (Done _, s') => for_each body l2 s'
    | (HTTPException code detail, s') => (HTTPException code detail, s')
    | (Unhandled e, s') => (Unhandled e, s')
    end.
Proof.
  revert s. induction l1 as [|x l1 IH]; intros s; [reflexivity|].
  rewrite <- List.app_comm_cons, !for_each_cons.
  destruct (body x s) as [[[] | code detail | e] s1]; [apply IH | reflexivity | reflexivity].
Qed.

Lemma left_alone_ids (candidates_data : list ScreeningCrew.candidate_ref)
      (l l' : list CandidateDB.t) :
  Forall2 (Frame.left_alone candidates_data) l l' ->
  List.map CandidateDB.id l' = List.map CandidateDB.id l.
Proof.
  induction 1 as [|c c' l l' [Happ _] _ IH]; [reflexivity|].
  cbn [List.map]. rewrite IH. f_equal.
  unfold Frame.application_of in Happ. congruence.
Qed.

Lemma left_alone_origin (candidates_data : list ScreeningCrew.candidate_ref)
      (l l' : list CandidateDB.t) (c' : CandidateDB.t) :
  Forall2 (Frame.left_alone candidates_data) l l' -> In c' l' ->
  exists c, In c l /\ Frame.left_alone candidates_data c c'.
Proof.
  induction 1 as [|c0 c0' l l' Hc _ IH]; intros Hin; [destruct Hin|].
  destruct Hin as [<- | Hin].
  - exists c0. split; [now left | exact Hc].
  - destruct (IH Hin) as (c & Hc0 & Hk). exists c. split; [now right | exact Hk].
Qed.

End FailedScreening.

(** X12.  A screening that fails is recorded as a score of 0 and a verdict.
    When the resume file of a candidate given to [run_screening_task] is not
    on the disk, or the agents raise on every request, the candidate's row
    ends with [match_score] 0 and with the status that 0 leads to:
    "rejected" under any positive threshold.  The candidate ids given to the
    task and the ids of the rows are taken without repetition. *)
Theorem failed_screening_scores_zero {Outside : Type}
        (settings : Settings.t)
        (kickoff : Outside -> ScreeningCrew.crew_request -> outcome string * Outside)
        (utcnow : Outside -> Z * Outside)
        (st : Db.state Outside) (job_id : string)
        (candidates_data : list ScreeningCrew.candidate_ref)
        (job_requirements : list ScreeningCrew.requirement) (job_description : string)
        (min_exp : Z) (exp_level : string) (candidate : ScreeningCrew.candidate_ref) :
  NoDup (List.map CandidateDB.id (Db.candidates (Db.db st))) ->
  NoDup (List.map ScreeningCrew.id candidates_data) ->
  In candidate candidates_data ->
  Db.exists_on (Db.fs st) (ScreeningCrew.resume_path candidate) = false
  \/ (forall o request, exists e, fst (kickoff o request) = Raise e) ->
  let st' :=
    Db.in_background
      (Routes.run_screening_task settings kickoff utcnow job_id candidates_data
         job_requirements job_description min_exp exp_level) st in
  forall c',
    In c' (Db.candidates (Db.db st')) ->
    CandidateDB.id c' = ScreeningCrew.id candidate ->
    CandidateDB.match_score c' = Some (PInt 0)
    /\ CandidateDB.status c'
       = if (Settings.min_match_score settings <=? 0)%Z then "shortlisted" else "rejected".
Proof.
  intros Hkeys Hrefs Hin Hfail st'. subst st'.
  apply List.in_split in Hin as (before & after & ->).
  rewrite List.map_app in Hrefs. cbn [List.map] in Hrefs.
  apply NoDup_app in Hrefs as (_ & Hbefore & Hafter).
  apply NoDup_cons in Hafter as [Hafter _].
  assert (Hnot_before : ~ In (ScreeningCrew.id candidate) (List.map ScreeningCrew.id before)).
  { intros Hb. apply list_elem_of_In in Hb. apply (Hbefore _ Hb). left. }
  assert (Hnot_after : ~ In (ScreeningCrew.id candidate) (List.map ScreeningCrew.id after)).
  { intros Ha. apply Hafter. now apply list_elem_of_In. }
  unfold Db.in_background, Routes.run_screening_task. rewrite run_bind.
  rewrite for_each_app.
  destruct (screen_all_shape settings kickoff utcnow job_requirements job_description
              min_exp exp_level before (Db.open_session st) eq_refl)
    as (s1 & -> & Hsync1 & Hdisk1 & _ & _ & Hrows1).
  rewrite for_each_cons.
  assert (Hkeys1 : NoDup (List.map CandidateDB.id (Db.candidates (Db.committed s1))))
    by (rewrite (left_alone_ids _ _ _ Hrows1); exact Hkeys).
  destruct (screen_one_failed settings kickoff utcnow job_requirements job_description
              min_exp exp_level candidate s1 Hsync1 Hkeys1) as (s2 & Hstep & Hzero).
  { rewrite Hdisk1. exact Hfail. }
  destruct (screen_one_shape settings kickoff utcnow job_requirements job_description
              min_exp exp_level candidate s1 Hsync1) as (s2' & Hstep' & Hsync2 & _).
  rewrite Hstep in Hstep' |- *. injection Hstep' as <-.
  destruct (screen_all_shape settings kickoff utcnow job_requirements job_description
              min_exp exp_level after s2 Hsync2)
    as (s3 & -> & Hsync3 & _ & _ & _ & Hrows3).
  assert (Hend : forall c', In c' (Db.candidates (Db.committed s3)) ->
                            CandidateDB.id c' = ScreeningCrew.id candidate ->
                            CandidateDB.match_score c' = Some (PInt 0)
                            /\ CandidateDB.status c' = Frame.verdict settings 0).
  { intros c' Hc' Hid.
    destruct (left_alone_origin _ _ _ _ Hrows3 Hc') as (c2 & Hc2 & Happ & Hkeep).
    assert (Hid2 : CandidateDB.id c2 = ScreeningCrew.id candidate)
      by (unfold Frame.application_of in Happ; congruence).
    rewrite Hkeep by (now rewrite Hid2). now apply Hzero. }
  destruct s3 as [rows3 working3 files3 tasks3 outside3].
  cbn [Db.working Db.committed] in *. subst working3.
  run.
  destruct (List.filter (Routes.job_with_id job_id) (Db.jobs rows3)) as [|job [|j2 rest]];
    run; exact Hend.
Qed.

Lemma failed_screening_scores_zero_witness :
  Forall (fun c' => CandidateDB.id c' = "c1" ->
                    CandidateDB.match_score c' = Some (PInt 0)
                    /\ CandidateDB.status c' = "rejected")
         (Db.candidates
            (Db.db (Db.in_background
                      (Routes.run_screening_task Settings.default
                         (Sample.answering "MATCH_SCORE: 72") Sample.clock "j1"
                         [ {| ScreeningCrew.id := "c1";
                              ScreeningCrew.resume_path := "missing.pdf" |} ]
                         [] "Python and SQL" 0%Z "mid")
                      Sample.one_application))).
Proof.
  apply List.Forall_forall.
  apply (failed_screening_scores_zero Settings.default (Sample.answering "MATCH_SCORE: 72")
           Sample.clock Sample.one_application "j1"
           [ {| ScreeningCrew.id := "c1"; ScreeningCrew.resume_path := "missing.pdf" |} ]
           [] "Python and SQL" 0%Z "mid"
           {| ScreeningCrew.id := "c1"; ScreeningCrew.resume_path := "missing.pdf" |}).
  - apply NoDup_singleton.
  - apply NoDup_singleton.
  - left. reflexivity.
  - left. vm_compute. reflexivity.
Defined.

(** ** Re-screenings that fail *)

Section FailedRescreening.
Import Db Routes.
Context {Outside : Type}.

Lemma in_world_answers {A : Type} (call : World -> outcome A * World)
      (s : session Outside) (a : A) :
  fst (call (disk s, outside s)) = Return a ->
  exists o,
    in_world call s
    = (Done a, {| committed := committed s; working := working s; disk := disk s;
                  background := background s; outside := o |}).
Proof.
  intros Ha. unfold in_world.
  destruct (call (disk s, outside s)) as [r w]. cbn [fst] in Ha. subst r.
  exists (snd w). reflexivity.
Qed.

Lemma quick_screen_candidate_raised
      (kickoff : Outside -> ScreeningCrew.crew_request -> outcome string * Outside)
      (w : World) (resume_text : string)
      (job_requirements : list ScreeningCrew.requirement) (job_description : string)
      (min_exp : Z) :
  (forall o request, exists e, fst (kickoff o request) = Raise e) ->
  exists e,
    fst (ScreeningCrew.quick_screen_candidate World (kickoff_in kickoff) w resume_text
           job_requirements job_description min_exp)
    = Return (ScreeningCrew.failed e 50).
Proof.
  intros Hagents. unfold ScreeningCrew.quick_screen_candidate.
  match goal with
  | |- context [ScreeningCrew.run_crew _ _ _ ?request _] =>
      destruct (Hagents (snd w) request) as (e & He);
      exists e;
      apply (run_crew_raised World (kickoff_in kickoff) w request 50 e)
  end.
  unfold kickoff_in. destruct (kickoff (snd w) _) as [r o]. exact He.
Qed.

End FailedRescreening.

(** X13.  The two ways a re-screening fails.  For a candidate with a
    resume path, of a job that is there: when reading or analysing the
    resume raises, [rescreen_candidate] answers status "failed" with the
    error in its message and changes nothing; when the agents raise on every
    request it answers "Candidate re-screened successfully" all the same,
    with a score of 50 and recommendation "review", and the candidate's row
    gets that score and the status 50 leads to: "rejected" under the default
    threshold of 60. *)
Theorem failed_rescreening {Outside : Type}
        (settings : Settings.t)
        (kickoff : Outside -> ScreeningCrew.crew_request -> outcome string * Outside)
        (utcnow : Outside -> Z * Outside)
        (parser_run : Db.filesystem -> string -> outcome string)
        (analyzer_run : string -> outcome string)
        (st : Db.state Outside) (c : CandidateDB.t) (job : JobDB.t) (resume_path : string) :
  Routes.keys_unique (Db.db st) ->
  In c (Db.candidates (Db.db st)) ->
  In job (Db.jobs (Db.db st)) ->
  JobDB.id job = CandidateDB.job_id c ->
  CandidateDB.resume_path c = Some resume_path ->
  resume_path <> EmptyString ->
  let served :=
    Db.serve (Routes.rescreen_candidate settings kickoff utcnow parser_run analyzer_run
                (CandidateDB.id c)) st in
  (forall e,
      parser_run (Db.fs st) resume_path = Raise e
      \/ (exists resume_text, parser_run (Db.fs st) resume_path = Return resume_text
                              /\ analyzer_run resume_text = Raise e) ->
      served
      = (Db.Done (dict_of [ ("candidate_id", PStr (CandidateDB.id c));
                            ("message", PStr ("Re-screening failed: " +:+ e));
                            ("status", PStr "failed") ]), st))
  /\ (forall resume_text analysis,
         parser_run (Db.fs st) resume_path = Return resume_text ->
         analyzer_run resume_text = Return analysis ->
         (forall o request, exists e, fst (kickoff o request) = Raise e) ->
         exists payload,
           fst served = Db.Done payload
           /\ payload !! "message" = Some (PStr "Candidate re-screened successfully")
           /\ payload !! "match_score" = Some (PInt 50)
           /\ payload !! "recommendation" = Some (PStr "review")
           /\ payload !! "status" = Some (PStr (Frame.verdict settings 50))
           /\ forall c', In c' (Db.candidates (Db.db (snd served))) ->
                         CandidateDB.id c' = CandidateDB.id c ->
                         CandidateDB.match_score c' = Some (PInt 50)
                         /\ CandidateDB.status c' = Frame.verdict settings 50).
Proof.
  intros [Hjobs Hcands] Hc Hjob Hid Hpath Hnonempty served. subst served.
  pose proof (filter_key_unique CandidateDB.id _ c Hcands Hc) as Hrow.
  pose proof (filter_key_unique JobDB.id _ job Hjobs Hjob) as Hposting.
  rewrite Hid in Hposting.
  destruct st as [store files0 tasks outside0]. cbn [Db.db Db.fs] in *.
  unfold Db.serve, Routes.rescreen_candidate. run.
  unfold Routes.candidate_with_id, Routes.job_with_id.
  rewrite Hrow. run. rewrite Hposting. run. rewrite Hpath.
  destruct (String.eqb_spec resume_path EmptyString) as [He|_]; [contradiction|].
  rewrite run_try_except. run.
  split.
  - intros e [Hparse | (resume_text & Hparse & Hanalyse)].
    + rewrite Hparse. cbn [Routes.lift]. run. reflexivity.
    + rewrite Hparse. cbn [Routes.lift]. run. rewrite Hanalyse. cbn [Routes.lift]. run.
      reflexivity.
  - intros resume_text analysis Hparse Hanalyse Hagents.
    rewrite Hparse. cbn [Routes.lift]. run. rewrite Hanalyse. cbn [Routes.lift]. run.
    match goal with
    | |- context [Routes.in_world ?call ?s0] =>
        destruct (quick_screen_candidate_raised kickoff (Db.disk s0, Db.outside s0)
                    resume_text (default [] (JobDB.requirements job))
                    (default EmptyString (JobDB.description job))
                    (default 0%Z (JobDB.min_experience_years job)) Hagents) as (e & He);
        destruct (in_world_answers call s0 _ He) as (o & ->)
    end.
    run. rewrite run_ask. run.
    change (get (ScreeningCrew.failed e 50) "match_score" (PInt 0)) with (PInt 50).
    change (get (ScreeningCrew.failed e 50) "recommendation" (PStr "review"))
      with (PStr "review").
    cbn [Py.ge Routes.lift]. run.
    rewrite update_twice by reflexivity.
    eexists. cbn [fst snd Db.db].
    split; [reflexivity|]. split; [reflexivity|]. split; [reflexivity|].
    split; [reflexivity|].
    split; [unfold Frame.verdict;
            destruct (Settings.min_match_score settings <=? 50)%Z; reflexivity|].
    cbn [Db.update_candidates Db.candidates].
    intros c' Hin Hid'. apply List.in_map_iff in Hin as (c0 & <- & _).
    destruct (String.eqb_spec (CandidateDB.id c0) (CandidateDB.id c)) as [_|Hne];
      [split; reflexivity | contradiction].
Qed.

Lemma failed_rescreening_witness :
  exists payload,
    fst (Db.serve (Routes.rescreen_candidate Settings.default
                     (fun o _ => (Raise "ConnectionError", o)) Sample.clock
                     (fun _ _ => Return "RESUME CONTENT: Python")
                     (fun _ => Return "DETECTED SKILLS: python") "c1")
                  Sample.one_application) = Db.Done payload
    /\ payload !! "match_score" = Some (PInt 50)
    /\ payload !! "status" = Some (PStr "rejected").
Proof.
  destruct (failed_rescreening Settings.default
              (fun (o : unit) (_ : ScreeningCrew.crew_request) => (Raise "ConnectionError", o))
              Sample.clock
              (fun _ _ => Return "RESUME CONTENT: Python")
              (fun _ => Return "DETECTED SKILLS: python")
              Sample.one_application Sample.candidate Sample.job
              "./data/resumes/j1/c1_Ada.pdf")
    as (_ & Hagents).
  - split; apply NoDup_singleton.
  - left. reflexivity.
  - left. reflexivity.
  - reflexivity.
  - reflexivity.
  - discriminate.
  - destruct (Hagents "RESUME CONTENT: Python" "DETECTED SKILLS: python" eq_refl eq_refl)
      as (payload & Hserved & _ & Hscore & _ & Hstatus & _).
    + intros o request. exists "ConnectionError". reflexivity.
    + exists payload. split; [exact Hserved|]. split; [exact Hscore | exact Hstatus].
Defined.

(** ** The edges of the skill matcher *)

Section SkillMatcherEdges.
Import SkillMatcher.
Variable loads : string -> option json.

Lemma mapM_lower_strip_raises (skills : list json) :
  List.forallb is_text skills = false ->
  mapM lower_strip skills = Raise "AttributeError".
Proof.
  induction skills as [|v skills IH]; cbn [List.forallb mapM]; [discriminate|].
  destruct v; cbn [is_text andb lower_strip mbind outcome_bind]; try reflexivity.
  intros Hs. now rewrite (IH Hs).
Qed.

Lemma contains_empty (s : string) : Py.contains EmptyString s = true.
Proof. destruct s; reflexivity. Qed.

(** The report on a valid input. *)
Lemma run_valid (input_data : string) (items : list (string * json))
      (skills reqs : list json) :
  loads input_data = Some (JObj items) ->
  assoc "candidate_skills" items = Some (JArr skills) ->
  assoc "job_requirements" items = Some (JArr reqs) ->
  reqs <> [] ->
  List.forallb is_text skills = true ->
  List.forallb valid_requirement reqs = true ->
  _run loads input_data
  = Return
      (Analysis
         (make_report
            {| matched_required :=
                 List.map skill_of
                   (List.filter (fun r => is_required r && counts_as_matched skills r) reqs);
               missing_required :=
                 List.map skill_of
                   (List.filter (fun r => is_required r
                                          && negb (counts_as_matched skills r)) reqs);
               matched_optional :=
                 List.map skill_of
                   (List.filter (fun r => negb (is_required r)
                                          && counts_as_matched skills r) reqs);
               missing_optional :=
                 List.map skill_of
                   (List.filter (fun r => negb (is_required r)
                                          && negb (counts_as_matched skills r)) reqs) |})).
Proof.
  intros Hloads Hskills Hreqs Hsome Htexts Hobjects.
  unfold _run, read_input.
  rewrite Hloads. cbn [mbind outcome_bind get].
  rewrite Hskills, Hreqs. cbn [iterate mbind outcome_bind].
  rewrite (mapM_lower_strip skills Htexts). cbn [mbind outcome_bind mret outcome_ret].
  destruct reqs as [|req reqs]; [contradiction|].
  cbn [truthy negb iterate mbind outcome_bind].
  rewrite (tally_requirements skills (req :: reqs) Hobjects no_tally).
  reflexivity.
Qed.

End SkillMatcherEdges.

(** X14.  What [SkillMatcherTool._run] does with an input it cannot use.
    It answers "Error: Invalid input format..." when the text is not JSON,
    when the JSON value is not an object, and when a candidate skill is not
    a text; it answers "Error: No job requirements provided" when the
    skills are texts and [job_requirements] is absent or empty.  Two
    malformed inputs are not answered but raise: candidate skills that are
    a number ([TypeError]), and, the skills being texts, a first
    requirement that is not an object ([AttributeError]). *)
Theorem skill_matcher_unusable_input
        (loads : string -> option SkillMatcher.json) (input_data : string) :
  let invalid :=
    Return (SkillMatcher.Message
      "Error: Invalid input format. Please provide JSON with 'candidate_skills' and 'job_requirements'") in
  let no_requirements :=
    Return (SkillMatcher.Message "Error: No job requirements provided") in
  (loads input_data = None -> SkillMatcher._run loads input_data = invalid)
  /\ (forall data, loads input_data = Some data ->
                   (forall items, data <> SkillMatcher.JObj items) ->
                   SkillMatcher._run loads input_data = invalid)
  /\ (forall items skills,
         loads input_data = Some (SkillMatcher.JObj items) ->
         SkillMatcher.assoc "candidate_skills" items = Some (SkillMatcher.JArr skills) ->
         List.forallb SkillMatcher.is_text skills = false ->
         SkillMatcher._run loads input_data = invalid)
  /\ (forall items skills,
         loads input_data = Some (SkillMatcher.JObj items) ->
         SkillMatcher.assoc "candidate_skills" items = Some (SkillMatcher.JArr skills) ->
         List.forallb SkillMatcher.is_text skills = true ->
         SkillMatcher.assoc "job_requirements" items = None
         \/ SkillMatcher.assoc "job_requirements" items = Some (SkillMatcher.JArr []) ->
         SkillMatcher._run loads input_data = no_requirements)
  /\ (forall items n,
         loads input_data = Some (SkillMatcher.JObj items) ->
         SkillMatcher.assoc "candidate_skills" items = Some (SkillMatcher.JInt n) ->
         SkillMatcher._run loads input_data = Raise "TypeError")
  /\ (forall items skills req reqs,
         loads input_data = Some (SkillMatcher.JObj items) ->
         SkillMatcher.assoc "candidate_skills" items = Some (SkillMatcher.JArr skills) ->
         List.forallb SkillMatcher.is_text skills = true ->
         SkillMatcher.assoc "job_requirements" items
         = Some (SkillMatcher.JArr (req :: reqs)) ->
         (forall fields, req <> SkillMatcher.JObj fields) ->
         SkillMatcher._run loads input_data = Raise "AttributeError").
Proof.
  intros invalid no_requirements. subst invalid no_requirements.
  unfold SkillMatcher._run, SkillMatcher.read_input.
  split; [|split; [|split; [|split; [|split]]]].
  - intros ->. reflexivity.
  - intros data -> Hnot. destruct data; try reflexivity.
    exfalso. now apply (Hnot items).
  - intros items skills -> Hskills Htexts.
    cbn [mbind outcome_bind SkillMatcher.get]. rewrite Hskills.
    cbn [SkillMatcher.iterate mbind outcome_bind].
    rewrite (mapM_lower_strip_raises skills Htexts). reflexivity.
  - intros items skills -> Hskills Htexts Hreqs.
    cbn [mbind outcome_bind SkillMatcher.get]. rewrite Hskills.
    cbn [SkillMatcher.iterate mbind outcome_bind].
    rewrite (mapM_lower_strip skills Htexts).
    destruct Hreqs as [-> | ->]; reflexivity.
  - intros items n -> Hskills.
    cbn [mbind outcome_bind SkillMatcher.get]. rewrite Hskills. reflexivity.
  - intros items skills req reqs -> Hskills Htexts Hreqs Hnot.
    cbn [mbind outcome_bind SkillMatcher.get]. rewrite Hskills, Hreqs.
    cbn [SkillMatcher.iterate mbind outcome_bind].
    rewrite (mapM_lower_strip skills Htexts).
    cbn [mbind outcome_bind mret outcome_ret SkillMatcher.truthy negb SkillMatcher.iterate
         foldM].
    destruct req; try reflexivity.
    exfalso. now apply (Hnot items0).
Qed.

Lemma skill_matcher_unusable_input_witness :
  SkillMatcher._run (fun _ => Some (SkillMatcher.JObj
                                      [ ("candidate_skills",
                                          SkillMatcher.JArr [SkillMatcher.JStr "Python"]);
                                        ("job_requirements",
                                          SkillMatcher.JArr [SkillMatcher.JStr "Python"]) ]))
                    "{...}"
  = Raise "AttributeError".
Proof.
  destruct (skill_matcher_unusable_input
              (fun _ => Some (SkillMatcher.JObj
                                [ ("candidate_skills",
                                    SkillMatcher.JArr [SkillMatcher.JStr "Python"]);
                                  ("job_requirements",
                                    SkillMatcher.JArr [SkillMatcher.JStr "Python"]) ]))
              "{...}") as (_ & _ & _ & _ & _ & Hraises).
  eapply Hraises;
    [reflexivity | reflexivity | reflexivity | reflexivity | intros fields; discriminate].
Defined.

(** X15.  On a valid input the four lists of the report sort the
    requirements: each requirement's skill is in exactly one of them, by
    whether it is required and whether it is matched, in the order of the
    requirements; their lengths add up to the number of requirements, and
    the recommendation is the one the score thresholds 80, 60 and 40 give. *)
Theorem skill_matcher_sorts_requirements
        (loads : string -> option SkillMatcher.json) (input_data : string)
        (data : SkillMatcher.json) :
  loads input_data = Some data ->
  SkillMatcher.valid_input data = true ->
  let skills := SkillMatcher.items_of (SkillMatcher.field "candidate_skills" SkillMatcher.JNull data) in
  let reqs := SkillMatcher.items_of (SkillMatcher.field "job_requirements" SkillMatcher.JNull data) in
  let listed required matched :=
    List.map SkillMatcher.skill_of
      (List.filter (fun r => Bool.eqb (SkillMatcher.is_required r) required
                             && Bool.eqb (SkillMatcher.counts_as_matched skills r) matched)
                   reqs) in
  exists r,
    SkillMatcher._run loads input_data = Return (SkillMatcher.Analysis r)
    /\ SkillMatcher.matched_required (SkillMatcher.skills r) = listed true true
    /\ SkillMatcher.missing_required (SkillMatcher.skills r) = listed true false
    /\ SkillMatcher.matched_optional (SkillMatcher.skills r) = listed false true
    /\ SkillMatcher.missing_optional (SkillMatcher.skills r) = listed false false
    /\ (List.length (SkillMatcher.matched_required (SkillMatcher.skills r))
        + List.length (SkillMatcher.missing_required (SkillMatcher.skills r))
        + List.length (SkillMatcher.matched_optional (SkillMatcher.skills r))
        + List.length (SkillMatcher.missing_optional (SkillMatcher.skills r))
        = List.length reqs)%nat
    /\ SkillMatcher.recommendation r = SkillMatcher.recommend (SkillMatcher.overall_score r).
Proof.
  intros Hloads Hvalid.
  destruct data as [| | | | |?|items]; try discriminate.
  unfold SkillMatcher.valid_input in Hvalid.
  unfold SkillMatcher.field, SkillMatcher.items_of.
  destruct (SkillMatcher.assoc "candidate_skills" items) as [[| | | | |skills|?]|] eqn:Hskills;
    try discriminate.
  destruct (SkillMatcher.assoc "job_requirements" items) as [[| | | | |[|req reqs]|?]|] eqn:Hreqs;
    try discriminate.
  apply andb_prop in Hvalid as [Htexts Hobjects].
  cbv zeta.
  assert (Hsome : req :: reqs <> []) by discriminate.
  rewrite (run_valid loads input_data items skills (req :: reqs) Hloads Hskills Hreqs
             Hsome Htexts Hobjects).
  eexists. split; [reflexivity|].
  cbn [SkillMatcher.make_report SkillMatcher.skills SkillMatcher.matched_required
       SkillMatcher.missing_required SkillMatcher.matched_optional
       SkillMatcher.missing_optional SkillMatcher.recommendation SkillMatcher.overall_score].
  do 4 (split; [f_equal; apply List.filter_ext; intros r;
                 destruct (SkillMatcher.is_required r),
                   (SkillMatcher.counts_as_matched skills r); reflexivity|]).
  split; [|reflexivity].
  rewrite !List.length_map.
  generalize (req :: reqs) as l. intros l.
  induction l as [|r l IH]; [reflexivity|].
  cbn [List.filter List.length].
  destruct (SkillMatcher.is_required r), (SkillMatcher.counts_as_matched skills r);
    cbn [andb negb List.length]; lia.
Qed.

Lemma skill_matcher_sorts_requirements_witness :
  exists r,
    SkillMatcher._run
      (fun _ => Some (SkillMatcher.JObj
                        [ ("candidate_skills",
                            SkillMatcher.JArr [SkillMatcher.JStr "Python"]);
                          ("job_requirements",
                            SkillMatcher.JArr
                              [ SkillMatcher.JObj [("skill", SkillMatcher.JStr "python")];
                                SkillMatcher.JObj [("skill", SkillMatcher.JStr "Go");
                                                   ("required", SkillMatcher.JBool false)] ]) ]))
      "{...}"
    = Return (SkillMatcher.Analysis r)
    /\ SkillMatcher.matched_required (SkillMatcher.skills r) = ["python"]
    /\ SkillMatcher.missing_optional (SkillMatcher.skills r) = ["go"].
Proof.
  destruct (skill_matcher_sorts_requirements
              (fun _ => Some (SkillMatcher.JObj
                        [ ("candidate_skills",
                            SkillMatcher.JArr [SkillMatcher.JStr "Python"]);
                          ("job_requirements",
                            SkillMatcher.JArr
                              [ SkillMatcher.JObj [("skill", SkillMatcher.JStr "python")];
                                SkillMatcher.JObj [("skill", SkillMatcher.JStr "Go");
                                                   ("required", SkillMatcher.JBool false)] ]) ]))
              "{...}" _ eq_refl eq_refl)
    as (r & Hrun & Hmatched & _ & _ & Hmissing & _).
  exists r. split; [exact Hrun|]. split; [rewrite Hmatched | rewrite Hmissing];
    vm_compute; reflexivity.
Defined.

(** X16.  The fuzzy match has two blind spots.  On a valid input, a
    candidate skill that is blank once stripped matches every requirement,
    so that nothing is reported missing; and when the candidate has any
    skill at all, a requirement whose skill is blank or absent is never
    reported missing either. *)
Theorem skill_matcher_blank_skills
        (loads : string -> option SkillMatcher.json) (input_data : string)
        (data : SkillMatcher.json) :
  loads input_data = Some data ->
  SkillMatcher.valid_input data = true ->
  let skills := SkillMatcher.items_of (SkillMatcher.field "candidate_skills" SkillMatcher.JNull data) in
  exists r,
    SkillMatcher._run loads input_data = Return (SkillMatcher.Analysis r)
    /\ ((exists cs, In cs skills /\ SkillMatcher.normal cs = EmptyString) ->
        SkillMatcher.missing_required (SkillMatcher.skills r) = []
        /\ SkillMatcher.missing_optional (SkillMatcher.skills r) = [])
    /\ (skills <> [] ->
        ~ In EmptyString (SkillMatcher.missing_required (SkillMatcher.skills r))
        /\ ~ In EmptyString (SkillMatcher.missing_optional (SkillMatcher.skills r))).
Proof.
  intros Hloads Hvalid.
  destruct data as [| | | | |?|items]; try discriminate.
  unfold SkillMatcher.valid_input in Hvalid.
  unfold SkillMatcher.field, SkillMatcher.items_of.
  destruct (SkillMatcher.assoc "candidate_skills" items) as [[| | | | |skills|?]|] eqn:Hskills;
    try discriminate.
  destruct (SkillMatcher.assoc "job_requirements" items) as [[| | | | |[|req reqs]|?]|] eqn:Hreqs;
    try discriminate.
  apply andb_prop in Hvalid as [Htexts Hobjects].
  cbv zeta.
  assert (Hsome : req :: reqs <> []) by discriminate.
  rewrite (run_valid loads input_data items skills (req :: reqs) Hloads Hskills Hreqs
             Hsome Htexts Hobjects).
  eexists. split; [reflexivity|].
  cbn [SkillMatcher.make_report SkillMatcher.skills SkillMatcher.missing_required
       SkillMatcher.missing_optional].
  split.
  - intros (cs & Hcs & Hblank).
    assert (Hall : forall r, SkillMatcher.counts_as_matched skills r = true).
    { intros r. unfold SkillMatcher.counts_as_matched. apply List.existsb_exists.
      exists cs. split; [exact Hcs|]. rewrite Hblank, contains_empty. apply orb_true_r. }
    split; (rewrite filter_none; [reflexivity|]); intros r _; rewrite Hall;
      apply andb_false_r.
  - intros Hskilled.
    assert (Hblank : forall r, SkillMatcher.skill_of r = EmptyString ->
                               SkillMatcher.counts_as_matched skills r = true).
    { intros r Hr. unfold SkillMatcher.counts_as_matched. rewrite Hr.
      destruct skills as [|cs skills']; [contradiction|].
      cbn [List.existsb]. now rewrite contains_empty. }
    split; intros Hin; apply List.in_map_iff in Hin as (r & Hr & Hin);
      apply List.filter_In in Hin as [_ Hin]; rewrite (Hblank r Hr) in Hin;
      rewrite andb_false_r in Hin; discriminate Hin.
Qed.

Lemma skill_matcher_blank_skills_witness :
  exists r,
    SkillMatcher._run
      (fun _ => Some (SkillMatcher.JObj
                        [ ("candidate_skills", SkillMatcher.JArr [SkillMatcher.JStr " "]);
                          ("job_requirements",
                            SkillMatcher.JArr
                              [ SkillMatcher.JObj [("skill", SkillMatcher.JStr "python")] ]) ]))
      "{...}"
    = Return (SkillMatcher.Analysis r)
    /\ SkillMatcher.missing_required (SkillMatcher.skills r) = []
    /\ SkillMatcher.matched_required (SkillMatcher.skills r) = ["python"].
Proof.
  destruct (skill_matcher_blank_skills
              (fun _ => Some (SkillMatcher.JObj
                        [ ("candidate_skills", SkillMatcher.JArr [SkillMatcher.JStr " "]);
                          ("job_requirements",
                            SkillMatcher.JArr
                              [ SkillMatcher.JObj [("skill", SkillMatcher.JStr "python")] ]) ]))
              "{...}" _ eq_refl eq_refl)
    as (r & Hrun & Hblank & _).
  exists r. split; [exact Hrun|].
  split.
  - apply Hblank. exists (SkillMatcher.JStr " "). split; [now left | reflexivity].
  - vm_compute in Hrun. injection Hrun as <-. reflexivity.
Defined.

(** ** Interview invitations *)

Section InvitationFacts.
Import Db Routes.
Context {Outside : Type}.

Lemma filter_applied_with_map (job_id email : string) (g : CandidateDB.t -> CandidateDB.t)
      (l : list CandidateDB.t) :
  (forall c, CandidateDB.job_id (g c) = CandidateDB.job_id c
             /\ CandidateDB.email (g c) = CandidateDB.email c) ->
  List.filter (applied_with job_id email) (List.map g l)
  = List.map g (List.filter (applied_with job_id email) l).
Proof.
  intros Hg. induction l as [|c l IH]; [reflexivity|].
  cbn [List.map List.filter].
  assert (He : applied_with job_id email (g c) = applied_with job_id email c).
  { unfold applied_with. destruct (Hg c) as [-> ->]. reflexivity. }
  rewrite He. destruct (applied_with job_id email c); cbn [List.map]; now rewrite IH.
Qed.

End InvitationFacts.

(** X17.  [send_interview_invitation], for a candidate and a job that are
    there.  When the mail service reports success, or a preview, the
    candidate's row gets the status "interview_scheduled", which is no
    member of [CandidateStatus]; its application columns and its score, the
    other rows, the jobs (their counts included), the files and the task
    queue stay as they were, and [check_application_status] then tells the
    applicant "Application in progress".  When the service reports neither,
    the handler raises HTTP 500 and no row changes. *)
Theorem interview_invitation_effect {Outside : Type}
        (utcnow : Outside -> Z * Outside)
        (send_interview_invite :
           Outside -> string -> string -> string -> option string -> option string
           -> dict * Outside)
        (st : Db.state Outside) (c : CandidateDB.t) (job : JobDB.t)
        (interview_date interview_link : option string) :
  Routes.keys_unique (Db.db st) ->
  Routes.applications_unique (Db.db st) ->
  In c (Db.candidates (Db.db st)) ->
  In job (Db.jobs (Db.db st)) ->
  JobDB.id job = CandidateDB.job_id c ->
  let served :=
    Db.serve (Routes.send_interview_invitation utcnow send_interview_invite
                (CandidateDB.id c) interview_date interview_link) st in
  let email_result :=
    fst (send_interview_invite (Db.world st) (CandidateDB.email c) (CandidateDB.name c)
           (JobDB.title job) interview_date interview_link) in
  Db.jobs (Db.db (snd served)) = Db.jobs (Db.db st)
  /\ Db.fs (snd served) = Db.fs st
  /\ Db.queue (snd served) = Db.queue st
  /\ if Py.truthy (get email_result "success" PNone)
        || Py.truthy (get email_result "preview" PNone)
     then
       (exists payload,
           fst served = Db.Done payload
           /\ payload !! "id" = Some (PStr (CandidateDB.id c))
           /\ payload !! "email" = Some (PStr (CandidateDB.email c)))
       /\ Forall2 (fun r r' =>
                     if String.eqb (CandidateDB.id r) (CandidateDB.id c)
                     then CandidateDB.status r' = "interview_scheduled"
                          /\ CandidateStatus.member (CandidateDB.status r') = false
                          /\ Frame.application_of r' = Frame.application_of r
                          /\ CandidateDB.match_score r' = CandidateDB.match_score r
                     else r' = r)
                  (Db.candidates (Db.db st)) (Db.candidates (Db.db (snd served)))
       /\ (exists d,
              fst (Db.serve (ReadRoutes.check_application_status (CandidateDB.job_id c)
                               (CandidateDB.email c)) (snd served)) = Db.Done d
              /\ d !! "status" = Some (PStr "interview_scheduled")
              /\ d !! "message" = Some (PStr "Application in progress"))
     else
       fst served
       = Db.HTTPException 500 ("Failed to send email: "
                               +:+ Py.str (get email_result "error" PNone))
       /\ Db.db (snd served) = Db.db st.
Proof.
  intros [Hjobs Hcands] Happs Hc Hjob Hid served email_result. subst served email_result.
  pose proof (filter_key_unique CandidateDB.id _ c Hcands Hc) as Hrow.
  pose proof (filter_key_unique JobDB.id _ job Hjobs Hjob) as Hposting.
  rewrite Hid in Hposting.
  assert (Hmine : List.filter (Routes.applied_with (CandidateDB.job_id c) (CandidateDB.email c))
                              (Db.candidates (Db.db st)) = [c]).
  { specialize (Happs (CandidateDB.job_id c) (CandidateDB.email c)).
    assert (Hin : In c (List.filter (Routes.applied_with (CandidateDB.job_id c)
                                       (CandidateDB.email c)) (Db.candidates (Db.db st)))).
    { apply List.filter_In. split; [exact Hc|]. unfold Routes.applied_with.
      now rewrite !String.eqb_refl. }
    destruct (List.filter _ (Db.candidates (Db.db st))) as [|c1 [|c2 rows]].
    - destruct Hin.
    - destruct Hin as [-> | []]. reflexivity.
    - cbn [List.length] in Happs. lia. }
  destruct st as [store files0 tasks outside0]. cbn [Db.db Db.fs Db.queue Db.world] in *.
  unfold Db.serve, Routes.send_interview_invitation. run.
  unfold Routes.candidate_with_id, Routes.job_with_id.
  rewrite Hrow. run. rewrite Hposting. run. rewrite run_ask. run.
  set (email_result := fst (send_interview_invite outside0 _ _ _ _ _)).
  assert (Hscheduled :
            forall payload : dict,
              let served :=
                match (_ ← Routes.mark_interview_scheduled utcnow (CandidateDB.id c);
                       mret payload)
                        {| Db.committed := store; Db.working := store; Db.disk := files0;
                           Db.background := tasks;
                           Db.outside := snd (send_interview_invite outside0
                                                (CandidateDB.email c) (CandidateDB.name c)
                                                (JobDB.title job) interview_date
                                                interview_link) |}
                with
                | (Db.Done a, s) =>
                    (Db.Done a, {| Db.db := Db.working s; Db.fs := Db.disk s;
                                   Db.queue := Db.background s; Db.world := Db.outside s |})
                | (r, s) =>
                    (r, {| Db.db := Db.committed s; Db.fs := Db.disk s;
                           Db.queue := Db.background s; Db.world := Db.outside s |})
                end in
              Db.jobs (Db.db (snd served)) = Db.jobs store
              /\ Db.fs (snd served) = files0
              /\ Db.queue (snd served) = tasks
              /\ fst served = Db.Done payload
              /\ Forall2 (fun r r' =>
                            if String.eqb (CandidateDB.id r) (CandidateDB.id c)
                            then CandidateDB.status r' = "interview_scheduled"
                                 /\ CandidateStatus.member (CandidateDB.status r') = false
                                 /\ Frame.application_of r' = Frame.application_of r
                                 /\ CandidateDB.match_score r' = CandidateDB.match_score r
                            else r' = r)
                         (Db.candidates store) (Db.candidates (Db.db (snd served)))
              /\ (exists d,
                     fst (Db.serve (ReadRoutes.check_application_status
                                      (CandidateDB.job_id c) (CandidateDB.email c))
                                   (snd served)) = Db.Done d
                     /\ d !! "status" = Some (PStr "interview_scheduled")
                     /\ d !! "message" = Some (PStr "Application in progress"))).
  { intros payload served. subst served.
    unfold Routes.mark_interview_scheduled. run. rewrite run_ask. run.
    cbn [Db.update_candidates Db.jobs Db.candidates].
    do 4 (split; [reflexivity|]). split.
    - generalize (Db.candidates store) as l. intros l.
      induction l as [|r l IH]; cbn [List.map]; constructor; [|exact IH].
      destruct (String.eqb (CandidateDB.id r) (CandidateDB.id c)); [|reflexivity].
      repeat split.
    - unfold Db.serve, ReadRoutes.check_application_status. run.
      cbn [Db.candidates Db.update_candidates].
      rewrite filter_applied_with_map
        by (intros r; destruct (String.eqb (CandidateDB.id r) (CandidateDB.id c));
            split; reflexivity).
      rewrite Hmine. cbn [List.map]. rewrite String.eqb_refl. run.
      eexists. split; [reflexivity|]. split; reflexivity. }
  destruct (Py.truthy (get email_result "success" PNone)) eqn:Hsuccess; cbn [orb].
  - destruct (Hscheduled (dict_of
                            [ ("id", PStr (CandidateDB.id c));
                              ("email", PStr (CandidateDB.email c));
                              ("message", PStr "Interview invitation sent successfully");
                              ("email_id", get email_result "email_id" PNone) ]))
      as (H1 & H2 & H3 & H4 & H5 & H6).
    split; [exact H1|]. split; [exact H2|]. split; [exact H3|].
    split; [|split; [exact H5 | exact H6]].
    eexists. split; [exact H4|]. split; reflexivity.
  - destruct (Py.truthy (get email_result "preview" PNone)) eqn:Hpreview.
    + destruct (Hscheduled (dict_of
                    [ ("id", PStr (CandidateDB.id c));
                      ("email", PStr (CandidateDB.email c));
                      ("message",
                        PStr "Interview invite preview generated (Resend in test mode)");
                      ("test_mode", PBool true);
                      ("preview", get email_result "preview" PNone);
                      ("note", PStr "Status updated. To send real emails, verify a domain at resend.com/domains") ]))
        as (H1 & H2 & H3 & H4 & H5 & H6).
      split; [exact H1|]. split; [exact H2|]. split; [exact H3|].
      split; [|split; [exact H5 | exact H6]].
      eexists. split; [exact H4|]. split; reflexivity.
    + run. repeat split.
Qed.

Lemma interview_invitation_effect_witness :
  Db.jobs (Db.db (snd (Db.serve
                         (Routes.send_interview_invitation Sample.clock Sample.mail_sent
                            "c1" None None)
                         Sample.one_application)))
  = [Sample.job].
Proof.
  destruct (interview_invitation_effect Sample.clock Sample.mail_sent Sample.one_application
              Sample.candidate Sample.job None None) as (Hjobs & _).
  - split; apply NoDup_singleton.
  - intros job_id email. cbn [Sample.one_application Db.db Db.candidates List.filter].
    destruct (Routes.applied_with job_id email Sample.candidate); simpl; lia.
  - left. reflexivity.
  - left. reflexivity.
  - reflexivity.
  - exact Hjobs.
Defined.

(** ** The results of a screening *)

Section ResultsFacts.
Import Db Routes Results.
Context {Outside : Type}.

Lemma scores_of_rows (rows : list CandidateDB.t) :
  Forall integer_score rows ->
  mapM number (List.filter Py.truthy
                 (List.map (fun c => default PNone (CandidateDB.match_score c)) rows))
  = Return (List.filter (fun z => negb (z =? 0)%Z) (List.map order_key rows)).
Proof.
  induction 1 as [|c rows (z & Hz) _ IH]; [reflexivity|].
  assert (Hk : order_key c = z) by (unfold order_key; now rewrite Hz).
  cbn [List.map List.filter]. rewrite Hk, Hz.
  cbn [from_option id Py.truthy]. destruct (z =? 0)%Z; cbn [negb]; [exact IH|].
  cbn [mapM number mbind outcome_bind]. rewrite IH. reflexivity.
Qed.

Lemma filter_length_perm {A : Type} (p : A -> bool) (l l' : list A) :
  Permutation l l' -> List.length (List.filter p l) = List.length (List.filter p l').
Proof.
  induction 1 as [|x l l' _ IH|x y l|l1 l2 l3 _ IH1 _ IH2]; cbn [List.filter].
  - reflexivity.
  - destruct (p x); cbn [List.length]; now rewrite IH.
  - destruct (p x), (p y); reflexivity.
  - now rewrite IH1.
Qed.

Lemma filter_length_map {A B : Type} (f : A -> B) (p : B -> bool) (l : list A) :
  List.length (List.filter p (List.map f l))
  = List.length (List.filter (fun x => p (f x)) l).
Proof.
  induction l as [|x l IH]; [reflexivity|].
  cbn [List.map List.filter]. destruct (p (f x)); cbn [List.length]; now rewrite IH.
Qed.

Lemma filter_length_ext {A : Type} (p q : A -> bool) (l : list A) :
  (forall x, In x l -> p x = q x) ->
  List.length (List.filter p l) = List.length (List.filter q l).
Proof.
  intros H. induction l as [|x l IH]; [reflexivity|].
  cbn [List.filter]. rewrite (H x (or_introl eq_refl)).
  destruct (q x); cbn [List.length]; rewrite IH; auto; intros y Hy; apply H; now right.
Qed.

Lemma filter_filter_length {A : Type} (p q : A -> bool) (l : list A) :
  List.length (List.filter q (List.filter p l))
  = List.length (List.filter (fun x => p x && q x) l).
Proof.
  induction l as [|x l IH]; [reflexivity|].
  cbn [List.filter]. destruct (p x); cbn [andb List.filter]; [|exact IH].
  destruct (q x); cbn [List.length]; now rewrite IH.
Qed.

(** Every score from 1 to 100 falls in exactly one bucket. *)
Lemma buckets_partition (scores : list Z) :
  Forall (fun z => 0 <= z <= 100)%Z scores ->
  (Z.of_nat (List.length (List.filter (fun s => (90 <=? s)%Z && (s <=? 100)%Z) scores))
   + Z.of_nat (List.length (List.filter (fun s => (80 <=? s)%Z && (s <? 90)%Z) scores))
   + Z.of_nat (List.length (List.filter (fun s => (70 <=? s)%Z && (s <? 80)%Z) scores))
   + Z.of_nat (List.length (List.filter (fun s => (60 <=? s)%Z && (s <? 70)%Z) scores))
   + Z.of_nat (List.length (List.filter (fun s => (s <? 60)%Z) scores)))%Z
  = Z.of_nat (List.length scores).
Proof.
  induction 1 as [|z scores Hz _ IH]; [reflexivity|].
  cbn [List.filter].
  destruct (Z.leb_spec 90 z), (Z.leb_spec z 100), (Z.leb_spec 80 z), (Z.ltb_spec z 90),
    (Z.leb_spec 70 z), (Z.ltb_spec z 80), (Z.leb_spec 60 z), (Z.ltb_spec z 70),
    (Z.ltb_spec z 60); try lia; cbn [andb List.length]; lia.
Qed.

(** The answer of GET /job/{job_id}/results when the job is there and the
    scores of its candidates are integers. *)
Lemma get_screening_results_served (settings : Settings.t)
      (rounded_average : list Z -> pyval) (st : state Outside) (job : JobDB.t) :
  NoDup (List.map JobDB.id (jobs (db st))) ->
  In job (jobs (db st)) ->
  (forall c, In c (candidates (db st)) -> Frame.scored_in (JobDB.id job) c = true ->
             integer_score c) ->
  exists payload ranked,
    serve (get_screening_results settings rounded_average (JobDB.id job)) st
    = (Done payload, st)
    /\ Permutation ranked (List.filter (Frame.scored_in (JobDB.id job)) (candidates (db st)))
    /\ let scores := List.filter (fun z => negb (z =? 0)%Z) (List.map order_key ranked) in
       payload !! "screened_count" = Some (PInt (Z.of_nat (List.length ranked)))
       /\ payload !! "total_applicants" = Some (PInt (JobDB.total_applicants job))
       /\ payload !! "score_distribution"
          = Some (PDict
                    [ ("90-100", count (fun s => (90 <=? s)%Z && (s <=? 100)%Z) scores);
                      ("80-89", count (fun s => (80 <=? s)%Z && (s <? 90)%Z) scores);
                      ("70-79", count (fun s => (70 <=? s)%Z && (s <? 80)%Z) scores);
                      ("60-69", count (fun s => (60 <=? s)%Z && (s <? 70)%Z) scores);
                      ("below_60", count (fun s => (s <? 60)%Z) scores) ])
       /\ payload !! "qualified_count"
          = Some (count (fun s => (Settings.min_match_score settings <=? s)%Z) scores).
Proof.
  intros Hjobs Hjob Hscores.
  pose proof (filter_key_unique JobDB.id _ job Hjobs Hjob) as Hposting.
  destruct st as [store files0 tasks outside0]. cbn [db] in *.
  unfold serve, get_screening_results. run.
  unfold job_with_id. rewrite Hposting. run.
  set (rows := List.filter (Frame.scored_in (JobDB.id job)) (candidates store)).
  pose proof (sort_desc_perm order_key rows) as Hperm.
  assert (Hints : Forall integer_score (ScreeningCrew.sort_desc order_key rows)).
  { apply List.Forall_forall. intros c Hc.
    apply (Permutation_in _ Hperm) in Hc. apply List.filter_In in Hc as [Hc Hscored].
    now apply Hscores. }
  rewrite (scores_of_rows _ Hints). cbn [lift]. run.
  eexists. exists (ScreeningCrew.sort_desc order_key rows).
  split; [reflexivity|]. split; [exact Hperm|].
  cbv zeta. repeat split.
Qed.

End ResultsFacts.

(** X18.  GET /job/{job_id}/results changes nothing.  For a job that is
    there, whose candidates' scores are integers from 0 to 100, its
    [screened_count] is the number of the job's candidates that carry a
    score, while the five buckets of [score_distribution] together hold
    those of them whose score is not 0: a candidate scored 0, as a failed
    screening scores it, is counted as screened and falls in no bucket. *)
Theorem screening_results_distribution {Outside : Type}
        (settings : Settings.t) (rounded_average : list Z -> pyval)
        (st : Db.state Outside) (job : JobDB.t) :
  NoDup (List.map JobDB.id (Db.jobs (Db.db st))) ->
  In job (Db.jobs (Db.db st)) ->
  (forall c, In c (Db.candidates (Db.db st)) ->
             Frame.scored_in (JobDB.id job) c = true ->
             exists z, CandidateDB.match_score c = Some (PInt z) /\ (0 <= z <= 100)%Z) ->
  let served :=
    Db.serve (Results.get_screening_results settings rounded_average (JobDB.id job)) st in
  let screened :=
    List.length (List.filter (Frame.scored_in (JobDB.id job)) (Db.candidates (Db.db st))) in
  let scored_zero :=
    List.length (List.filter (Results.scored_zero_in (JobDB.id job))
                             (Db.candidates (Db.db st))) in
  snd served = st
  /\ exists payload n90 n80 n70 n60 below,
       fst served = Db.Done payload
       /\ payload !! "screened_count" = Some (PInt (Z.of_nat screened))
       /\ payload !! "total_applicants" = Some (PInt (JobDB.total_applicants job))
       /\ payload !! "score_distribution"
          = Some (PDict [ ("90-100", PInt n90); ("80-89", PInt n80); ("70-79", PInt n70);
                          ("60-69", PInt n60); ("below_60", PInt below) ])
       /\ (n90 + n80 + n70 + n60 + below = Z.of_nat screened - Z.of_nat scored_zero)%Z.
Proof.
  intros Hjobs Hjob Hscores served screened scored_zero. subst served screened scored_zero.
  destruct (get_screening_results_served settings rounded_average st job Hjobs Hjob)
    as (payload & ranked & -> & Hperm & Hcount & Htotal & Hdist & _).
  { intros c Hc Hscored. destruct (Hscores c Hc Hscored) as (z & Hz & _). now exists z. }
  split; [reflexivity|].
  exists payload. do 5 eexists. cbn [fst].
  split; [reflexivity|].
  split; [rewrite Hcount; now rewrite (Permutation_length Hperm)|].
  split; [exact Htotal|]. split; [exact Hdist|].
  rewrite buckets_partition.
  - rewrite <- (Permutation_length Hperm).
    rewrite <- (filter_filter_length (Frame.scored_in (JobDB.id job))
                  (fun c => negb (Py.truthy (default PNone (CandidateDB.match_score c))))).
    rewrite <- (filter_length_perm _ _ _ Hperm).
    rewrite filter_length_map.
    assert (Hsplit : forall (p : CandidateDB.t -> bool) (l : list CandidateDB.t),
               (Z.of_nat (List.length (List.filter (fun c => negb (p c)) l))
                = Z.of_nat (List.length l) - Z.of_nat (List.length (List.filter p l)))%Z).
    { intros p l. induction l as [|x l IH]; [reflexivity|].
      cbn [List.filter]. destruct (p x); cbn [negb List.length]; lia. }
    rewrite <- Hsplit. f_equal. apply filter_length_ext.
    intros c Hc. apply (Permutation_in _ Hperm) in Hc.
    apply List.filter_In in Hc as [Hc Hscored].
    destruct (Hscores c Hc Hscored) as (z & Hz & _).
    unfold Results.order_key. rewrite Hz. cbn [from_option id Py.truthy].
    now rewrite negb_involutive.
  - apply List.Forall_forall. intros z Hz.
    apply List.filter_In in Hz as [Hz _]. apply List.in_map_iff in Hz as (c & <- & Hc).
    apply (Permutation_in _ Hperm) in Hc. apply List.filter_In in Hc as [Hc Hscored].
    destruct (Hscores c Hc Hscored) as (z & Hz & Hrange).
    unfold Results.order_key. now rewrite Hz.
Qed.

Lemma screening_results_distribution_witness :
  exists payload n90 n80 n70 n60 below,
    fst (Db.serve (Results.get_screening_results Settings.default (fun _ => PInt 0) "j1")
           (Db.in_background
              (Routes.run_screening_task Settings.default
                 (Sample.answering "MATCH_SCORE: 72") Sample.clock "j1"
                 [ {| ScreeningCrew.id := "c1"; ScreeningCrew.resume_path := "missing.pdf" |} ]
                 [] "Python and SQL" 0%Z "mid")
              Sample.one_application)) = Db.Done payload
    /\ payload !! "screened_count" = Some (PInt 1)
    /\ payload !! "score_distribution"
       = Some (PDict [ ("90-100", PInt n90); ("80-89", PInt n80); ("70-79", PInt n70);
                       ("60-69", PInt n60); ("below_60", PInt below) ])
    /\ (n90 + n80 + n70 + n60 + below = 0)%Z.
Proof.
  destruct (screening_results_distribution Settings.default (fun _ => PInt 0)
              (Db.in_background
                 (Routes.run_screening_task Settings.default
                    (Sample.answering "MATCH_SCORE: 72") Sample.clock "j1"
                    [ {| ScreeningCrew.id := "c1";
                         ScreeningCrew.resume_path := "missing.pdf" |} ]
                    [] "Python and SQL" 0%Z "mid")
                 Sample.one_application)
              (JobDB.set_counts 1 0 Sample.job))
    as (_ & payload & n90 & n80 & n70 & n60 & below & H1 & H2 & _ & H3 & H4).
  - vm_compute. apply NoDup_singleton.
  - vm_compute. left. reflexivity.
  - intros c Hc _. vm_compute in Hc. destruct Hc as [<- | []].
    exists 0%Z. split; [reflexivity | lia].
  - exists payload, n90, n80, n70, n60, below.
    split; [exact H1|]. split; [exact H2|]. split; [exact H3 | exact H4].
Defined.

(** X19.  The results agree with the verdicts.  For a job that is there,
    under a positive threshold, when every scored candidate of the job has
    the status that follows from its score, as [run_screening_task] and
    [rescreen_candidate] leave it, [qualified_count] is the number of the
    job's scored candidates in status "shortlisted". *)
Theorem screening_results_qualified {Outside : Type}
        (settings : Settings.t) (rounded_average : list Z -> pyval)
        (st : Db.state Outside) (job : JobDB.t) :
  NoDup (List.map JobDB.id (Db.jobs (Db.db st))) ->
  In job (Db.jobs (Db.db st)) ->
  (0 < Settings.min_match_score settings)%Z ->
  (forall c, In c (Db.candidates (Db.db st)) ->
             Frame.scored_in (JobDB.id job) c = true ->
             Routes.screened settings c) ->
  exists payload,
    fst (Db.serve (Results.get_screening_results settings rounded_average (JobDB.id job))
                  st) = Db.Done payload
    /\ payload !! "qualified_count"
       = Some (PInt (Z.of_nat
                       (List.length
                          (List.filter (Results.scored_shortlisted_in (JobDB.id job))
                                       (Db.candidates (Db.db st)))))).
Proof.
  intros Hjobs Hjob Hpositive Hscreened.
  destruct (get_screening_results_served settings rounded_average st job Hjobs Hjob)
    as (payload & ranked & -> & Hperm & _ & _ & _ & Hqualified).
  { intros c Hc Hscored. destruct (Hscreened c Hc Hscored) as (z & Hz & _). now exists z. }
  exists payload. split; [reflexivity|]. rewrite Hqualified.
  unfold Results.count. do 3 f_equal.
  rewrite <- (filter_filter_length (Frame.scored_in (JobDB.id job))
                (fun c => String.eqb (CandidateDB.status c) "shortlisted")).
  rewrite <- (filter_length_perm _ _ _ Hperm).
  rewrite filter_filter_length, filter_length_map.
  apply filter_length_ext. intros c Hc.
  apply (Permutation_in _ Hperm) in Hc. apply List.filter_In in Hc as [Hc Hscored].
  destruct (Hscreened c Hc Hscored) as (z & Hz & Hstatus).
  unfold Results.order_key. rewrite Hz, Hstatus.
  destruct (Z.leb_spec (Settings.min_match_score settings) z) as [Hle|Hlt];
    destruct (Z.eqb_spec z 0); try lia; reflexivity.
Qed.

Lemma screening_results_qualified_witness :
  exists payload,
    fst (Db.serve (Results.get_screening_results Settings.default (fun _ => PInt 72) "j1")
           (Db.in_background
              (Routes.run_screening_task Settings.default
                 (Sample.answering "MATCH_SCORE: 72") Sample.clock "j1"
                 [ {| ScreeningCrew.id := "c1";
                      ScreeningCrew.resume_path := "./data/resumes/j1/c1_Ada.pdf" |} ]
                 [] "Python and SQL" 0%Z "mid")
              Sample.one_application)) = Db.Done payload
    /\ payload !! "qualified_count" = Some (PInt 1).
Proof.
  destruct (screening_results_qualified Settings.default (fun _ => PInt 72)
              (Db.in_background
                 (Routes.run_screening_task Settings.default
                    (Sample.answering "MATCH_SCORE: 72") Sample.clock "j1"
                    [ {| ScreeningCrew.id := "c1";
                         ScreeningCrew.resume_path := "./data/resumes/j1/c1_Ada.pdf" |} ]
                    [] "Python and SQL" 0%Z "mid")
                 Sample.one_application)
              (JobDB.set_counts 1 1 Sample.job))
    as (payload & H1 & H2).
  - vm_compute. apply NoDup_singleton.
  - vm_compute. left. reflexivity.
  - reflexivity.
  - intros c Hc _. vm_compute in Hc. destruct Hc as [<- | []].
    exists 72%Z. split; reflexivity.
  - exists payload. split; [exact H1|]. rewrite H2. vm_compute. reflexivity.
Defined.

(** ** What a screening request queues *)

Section QueueFacts.
Import Db Routes.

Lemma candidates_data_of_origin (l : list CandidateDB.t) (ref : ScreeningCrew.candidate_ref) :
  In ref (candidates_data_of l) ->
  exists c, In c l /\ CandidateDB.id c = ScreeningCrew.id ref
            /\ CandidateDB.resume_path c = Some (ScreeningCrew.resume_path ref).
Proof.
  unfold candidates_data_of. intros Hin.
  apply List.in_flat_map in Hin as (c & Hc & Hin).
  exists c. split; [exact Hc|].
  destruct (CandidateDB.resume_path c) as [path|]; [|destruct Hin].
  destruct (String.eqb path EmptyString); [destruct Hin|].
  destruct Hin as [<- | []]. split; reflexivity.
Qed.

Lemma firstn_in {A : Type} (n : nat) (rows : list A) (x : A) :
  In x (List.firstn n rows) -> In x rows.
Proof.
  revert rows. induction n as [|n IH]; intros rows; [intros []|].
  destruct rows as [|y rows]; [intros []|].
  cbn [List.firstn In]. intros [-> | Hin]; [now left | right; now apply IH].
Qed.

Lemma limited_in {A : Type} (limit : option Z) (rows : list A) (x : A) :
  In x (limited limit rows) -> In x rows.
Proof.
  unfold limited. destruct limit as [n|]; [|auto].
  destruct (0 <? n)%Z; [apply firstn_in | auto].
Qed.

Lemma limited_length {A : Type} (n : Z) (rows : list A) :
  (0 < n)%Z -> (List.length (limited (Some n) rows) <= Z.to_nat n)%nat.
Proof.
  intros Hn. unfold limited.
  destruct (Z.ltb_spec 0 n); [|lia]. apply List.firstn_le_length.
Qed.

End QueueFacts.

(** X20.  The task a screening request queues names unscreened candidates
    only: each of its entries carries the id and the resume path of a
    candidate of the job in status "applied" without a score, and under a
    positive limit there are at most that many entries. *)
Theorem screening_request_queues_unscreened {Outside : Type} (st : Db.state Outside)
        (job_id : string) (limit : option Z) (task : Db.background_task) :
  Db.queue (snd (Db.serve (Routes.screen_candidates job_id limit) st))
  = (Db.queue st ++ [task])%list ->
  (forall entry,
      In entry (Db.task_candidates task) ->
      exists c,
        In c (Db.candidates (Db.db st))
        /\ CandidateDB.id c = ScreeningCrew.id entry
        /\ CandidateDB.resume_path c = Some (ScreeningCrew.resume_path entry)
        /\ CandidateDB.job_id c = job_id
        /\ CandidateDB.status c = "applied"
        /\ CandidateDB.match_score c = None)
  /\ (forall n, limit = Some n -> (0 < n)%Z ->
                (List.length (Db.task_candidates task) <= Z.to_nat n)%nat).
Proof.
  destruct st as [store files0 tasks outside0]. cbn [Db.db Db.queue].
  unfold Db.serve, Routes.screen_candidates. run.
  destruct (List.filter (Routes.job_with_id job_id) (Db.jobs store)) as [|job [|j2 rest]]; run.
  1, 3: intros Hqueue; exfalso; exact (not_own_extension _ _ Hqueue).
  set (selected := Routes.limited limit
                     (List.filter (Routes.unscreened_in job_id) (Db.candidates store))).
  assert (Hselected : forall c, In c selected ->
                                In c (Db.candidates store)
                                /\ Routes.unscreened_in job_id c = true).
  { intros c Hc. apply limited_in in Hc. now apply List.filter_In in Hc. }
  assert (Hlength : forall n, limit = Some n -> (0 < n)%Z ->
                              (List.length (Routes.candidates_data_of selected)
                               <= Z.to_nat n)%nat).
  { intros n -> Hn. rewrite length_candidates_data_of.
    etransitivity; [apply List.filter_length_le|]. now apply limited_length. }
  destruct selected as [|c0 selected'] eqn:Hsel; run.
  { intros Hqueue; exfalso; exact (not_own_extension _ _ Hqueue). }
  intros Hqueue. apply List.app_inj_tail in Hqueue as [_ <-].
  cbn [Db.task_candidates]. split; [|exact Hlength].
  intros entry Hentry.
  destruct (candidates_data_of_origin _ _ Hentry) as (c & Hc & Hid & Hpath).
  destruct (Hselected c Hc) as [Hrow Hun].
  exists c. split; [exact Hrow|]. split; [exact Hid|]. split; [exact Hpath|].
  unfold Routes.unscreened_in in Hun.
  apply andb_prop in Hun as [[Hjob Hstatus]%andb_prop Hscore].
  split; [now apply String.eqb_eq|]. split; [now apply String.eqb_eq|].
  apply negb_true_iff, bool_decide_eq_false in Hscore.
  destruct (CandidateDB.match_score c); [|reflexivity].
  exfalso. apply Hscore. eauto.
Qed.

Lemma screening_request_queues_unscreened_witness :
  Forall (fun entry =>
            exists c,
              In c (Db.candidates (Db.db Sample.one_application))
              /\ CandidateDB.id c = ScreeningCrew.id entry
              /\ CandidateDB.resume_path c = Some (ScreeningCrew.resume_path entry)
              /\ CandidateDB.job_id c = "j1"
              /\ CandidateDB.status c = "applied"
              /\ CandidateDB.match_score c = None)
         [ {| ScreeningCrew.id := "c1";
              ScreeningCrew.resume_path := "./data/resumes/j1/c1_Ada.pdf" |} ].
Proof.
  apply List.Forall_forall.
  apply (screening_request_queues_unscreened Sample.one_application "j1" (Some 5%Z)
           {| Db.task_job_id := "j1";
              Db.task_candidates :=
                [ {| ScreeningCrew.id := "c1";
                     ScreeningCrew.resume_path := "./data/resumes/j1/c1_Ada.pdf" |} ];
              Db.task_requirements := [];
              Db.task_description := "Python and SQL";
              Db.task_min_exp := 0%Z;
              Db.task_exp_level := "mid" |}).
  reflexivity.
Defined.

(** ** Re-screenings that succeed *)

Section RescreenReport.
Import Db Routes.
Context {Outside : Type}.

Lemma quick_screen_candidate_in_range
      (kickoff : Outside -> ScreeningCrew.crew_request -> outcome string * Outside)
      (w : World) (resume_text : string)
      (job_requirements : list ScreeningCrew.requirement) (job_description : string)
      (min_exp : Z) :
  exists d score,
    fst (ScreeningCrew.quick_screen_candidate World (kickoff_in kickoff) w resume_text
           job_requirements job_description min_exp) = Return d
    /\ d !! "match_score" = Some (PInt score)
    /\ (0 <= score <= 100)%Z.
Proof.
  unfold ScreeningCrew.quick_screen_candidate, ScreeningCrew.run_crew.
  destruct (kickoff_in kickoff w _) as [[result_str|e] w']; cbn [fst].
  - unfold ScreeningCrew.completed.
    destruct (ScreeningCrew.extract_score_from_result result_str) as [n|e] eqn:Hn.
    + eexists _, n. split; [reflexivity|]. split; [reflexivity|].
      exact (extract_score_range result_str n Hn).
    + eexists _, 50%Z. split; [reflexivity|]. split; [reflexivity | lia].
  - eexists _, 50%Z. split; [reflexivity|]. split; [reflexivity | lia].
Qed.

End RescreenReport.

(** X21.  A re-screening reports what it stores.  For a candidate with a
    resume path whose job exists, when the resume is read and analysed
    without an exception, [rescreen_candidate] answers with a score from 0 to
    100, the status that score leads to and the skills read off the
    analysis, and these are the score, the status and the skills the
    candidate's row then holds; the row's application columns, the other
    rows, the files and the task queue stay as they were, and so do the
    jobs: the counts of the job are not recounted. *)
Theorem rescreening_reports_what_it_stores {Outside : Type}
        (settings : Settings.t)
        (kickoff : Outside -> ScreeningCrew.crew_request -> outcome string * Outside)
        (utcnow : Outside -> Z * Outside)
        (parser_run : Db.filesystem -> string -> outcome string)
        (analyzer_run : string -> outcome string)
        (st : Db.state Outside) (c : CandidateDB.t) (job : JobDB.t)
        (resume_path resume_text analysis : string) :
  Routes.keys_unique (Db.db st) ->
  In c (Db.candidates (Db.db st)) ->
  In job (Db.jobs (Db.db st)) ->
  JobDB.id job = CandidateDB.job_id c ->
  CandidateDB.resume_path c = Some resume_path ->
  resume_path <> EmptyString ->
  parser_run (Db.fs st) resume_path = Return resume_text ->
  analyzer_run resume_text = Return analysis ->
  let served :=
    Db.serve (Routes.rescreen_candidate settings kickoff utcnow parser_run analyzer_run
                (CandidateDB.id c)) st in
  exists payload score,
    fst served = Db.Done payload
    /\ (0 <= score <= 100)%Z
    /\ payload !! "match_score" = Some (PInt score)
    /\ payload !! "status" = Some (PStr (Frame.verdict settings score))
    /\ payload !! "skills" = Some (PList (Routes.extracted_skills_of analysis))
    /\ payload !! "skills_extracted"
       = Some (PInt (Z.of_nat (List.length (Routes.extracted_skills_of analysis))))
    /\ Forall2 (fun r r' =>
                  if String.eqb (CandidateDB.id r) (CandidateDB.id c)
                  then CandidateDB.match_score r' = Some (PInt score)
                       /\ CandidateDB.status r' = Frame.verdict settings score
                       /\ CandidateDB.skills r' = Routes.extracted_skills_of analysis
                       /\ Frame.application_of r' = Frame.application_of r
                  else r' = r)
               (Db.candidates (Db.db st)) (Db.candidates (Db.db (snd served)))
    /\ Db.jobs (Db.db (snd served)) = Db.jobs (Db.db st)
    /\ Db.fs (snd served) = Db.fs st
    /\ Db.queue (snd served) = Db.queue st.
Proof.
  intros [Hjobs Hcands] Hc Hjob Hid Hpath Hnonempty Hparse Hanalyse served. subst served.
  pose proof (filter_key_unique CandidateDB.id _ c Hcands Hc) as Hrow.
  pose proof (filter_key_unique JobDB.id _ job Hjobs Hjob) as Hposting.
  rewrite Hid in Hposting.
  destruct st as [store files0 tasks outside0]. cbn [Db.db Db.fs Db.queue] in *.
  unfold Db.serve, Routes.rescreen_candidate. run.
  unfold Routes.candidate_with_id, Routes.job_with_id.
  rewrite Hrow. run. rewrite Hposting. run. rewrite Hpath.
  destruct (String.eqb_spec resume_path EmptyString) as [He|_]; [contradiction|].
  rewrite run_try_except. run.
  rewrite Hparse. cbn [Routes.lift]. run. rewrite Hanalyse. cbn [Routes.lift]. run.
  match goal with
  | |- context [Routes.in_world ?call ?s0] =>
      destruct (quick_screen_candidate_in_range kickoff (Db.disk s0, Db.outside s0)
                  resume_text (default [] (JobDB.requirements job))
                  (default EmptyString (JobDB.description job))
                  (default 0%Z (JobDB.min_experience_years job)))
        as (d & score & Hd & Hscore & Hrange);
      destruct (in_world_answers call s0 _ Hd) as (o & ->)
  end.
  run. rewrite run_ask. run.
  assert (Hget : get d "match_score" (PInt 0) = PInt score)
    by (unfold get; now rewrite Hscore).
  rewrite !Hget. cbn [Py.ge Routes.lift]. run.
  rewrite update_twice by reflexivity.
  exists (dict_of
            [ ("candidate_id", PStr (CandidateDB.id c));
              ("match_score", PInt score);
              ("skills_extracted",
                PInt (Z.of_nat (List.length (Routes.extracted_skills_of analysis))));
              ("skills", PList (Routes.extracted_skills_of analysis));
              ("status", PStr (if (Settings.min_match_score settings <=? score)%Z
                               then "shortlisted" else "rejected"));
              ("recommendation", get d "recommendation" (PStr "review"));
              ("message", PStr "Candidate re-screened successfully") ]), score.
  cbn [fst snd Db.db Db.fs Db.queue Db.update_candidates Db.jobs Db.candidates].
  split; [reflexivity|]. split; [exact Hrange|].
  split; [reflexivity|]. split; [reflexivity|]. split; [reflexivity|].
  split; [reflexivity|].
  split; [|repeat split].
  generalize (Db.candidates store) as l. intros l.
  induction l as [|r l IH]; cbn [List.map]; constructor; [|exact IH].
  destruct (String.eqb (CandidateDB.id r) (CandidateDB.id c)); [|reflexivity].
  repeat split.
Qed.

Lemma rescreening_reports_what_it_stores_witness :
  exists payload score,
    fst (Db.serve (Routes.rescreen_candidate Settings.default
                     (Sample.answering "MATCH_SCORE: 72") Sample.clock
                     (fun _ _ => Return "RESUME CONTENT: Python")
                     (fun _ => Return "DETECTED SKILLS: python, sql") "c1")
                  Sample.one_application) = Db.Done payload
    /\ (0 <= score <= 100)%Z
    /\ payload !! "match_score" = Some (PInt score)
    /\ payload !! "skills_extracted" = Some (PInt 2).
Proof.
  destruct (rescreening_reports_what_it_stores Settings.default
              (Sample.answering "MATCH_SCORE: 72") Sample.clock
              (fun _ _ => Return "RESUME CONTENT: Python")
              (fun _ => Return "DETECTED SKILLS: python, sql")
              Sample.one_application Sample.candidate Sample.job
              "./data/resumes/j1/c1_Ada.pdf" "RESUME CONTENT: Python"
              "DETECTED SKILLS: python, sql")
    as (payload & score & H1 & H2 & H3 & _ & _ & H4 & _).
  - split; apply NoDup_singleton.
  - left. reflexivity.
  - left. reflexivity.
  - reflexivity.
  - reflexivity.
  - discriminate.
  - reflexivity.
  - reflexivity.
  - exists payload, score. split; [exact H1|]. split; [exact H2|]. split; [exact H3|].
    rewrite H4. vm_compute. reflexivity.
Defined.

(** ** Where an upload is written *)

Section UploadPath.
Import Db Routes.

Lemma contains_slash_cons (c : ascii) (s : string) :
  Py.contains "/" (String c s) = Ascii.eqb c "/" || Py.contains "/" s.
Proof.
  cbn [Py.contains String.prefix].
  destruct (ascii_dec "/" c) as [<- | Hne].
  - assert (String.prefix EmptyString s = true) as -> by (destruct s; reflexivity).
    reflexivity.
  - destruct (Ascii.eqb_spec c "/") as [-> | _]; [contradiction | reflexivity].
Qed.

Lemma no_slash_append (a b : string) :
  Py.contains "/" a = false -> Py.contains "/" b = false ->
  Py.contains "/" (a +:+ b) = false.
Proof.
  intros Ha Hb. induction a as [|c a IH]; [now rewrite append_nil_l|].
  rewrite append_cons, contains_slash_cons.
  rewrite contains_slash_cons in Ha. apply orb_false_elim in Ha as [-> Ha].
  now apply IH.
Qed.

Lemma no_slash_filter (keep : ascii -> bool) (s : string) :
  keep "/"%char = false -> Py.contains "/" (Py.filter_chars keep s) = false.
Proof.
  intros Hkeep. induction s as [|c s IH]; [reflexivity|].
  cbn [Py.filter_chars]. destruct (keep c) eqn:Hc; [|exact IH].
  rewrite contains_slash_cons, IH.
  destruct (Ascii.eqb_spec c "/") as [-> | _]; [congruence | reflexivity].
Qed.

Lemma no_slash_lstrip (s : string) :
  Py.contains "/" s = false -> Py.contains "/" (Py.lstrip s) = false.
Proof.
  induction s as [|c s IH]; [reflexivity|].
  cbn [Py.lstrip]. destruct (Py.isspace c); [|auto].
  rewrite contains_slash_cons. intros [_ Hs]%orb_false_elim. now apply IH.
Qed.

Lemma no_slash_rstrip (s : string) :
  Py.contains "/" s = false -> Py.contains "/" (Py.rstrip s) = false.
Proof.
  induction s as [|c s IH]; [reflexivity|].
  rewrite contains_slash_cons. intros [Hc Hs]%orb_false_elim.
  cbn [Py.rstrip]. specialize (IH Hs).
  destruct (Py.rstrip s) as [|c' r].
  - destruct (Py.isspace c); [reflexivity|].
    rewrite contains_slash_cons, Hc. reflexivity.
  - rewrite contains_slash_cons, Hc. exact IH.
Qed.

Lemma no_slash_take (n : nat) (s : string) :
  Py.contains "/" s = false -> Py.contains "/" (Py.take n s) = false.
Proof.
  revert s. induction n as [|n IH]; intros [|c s]; try reflexivity.
  rewrite contains_slash_cons. intros [Hc Hs]%orb_false_elim.
  cbn [Py.take]. rewrite contains_slash_cons, Hc. now apply IH.
Qed.

Lemma no_slash_extension (ext : string) :
  List.existsb (String.eqb ext) allowed_extensions = true ->
  Py.contains "/" ext = false.
Proof.
  unfold allowed_extensions. cbn [List.existsb].
  destruct (String.eqb_spec ext ".pdf") as [-> | _]; [reflexivity|].
  destruct (String.eqb_spec ext ".docx") as [-> | _]; [reflexivity|].
  destruct (String.eqb_spec ext ".doc") as [-> | _]; [reflexivity | discriminate].
Qed.

Lemma last_index_no_slash (s : string) :
  Py.contains "/" s = false -> Os.last_index "/" s = None.
Proof.
  induction s as [|c s IH]; [reflexivity|].
  rewrite contains_slash_cons. intros [Hc Hs]%orb_false_elim.
  cbn [Os.last_index]. now rewrite (IH Hs), Hc.
Qed.

(** The part after the last slash. *)
Lemma basename_after_slash (a f : string) :
  Py.contains "/" f = false -> ReadRoutes.basename (a +:+ "/" +:+ f) = f.
Proof.
  intros Hf. unfold ReadRoutes.basename.
  assert (Hlast : exists i, Os.last_index "/" (a +:+ "/" +:+ f) = Some i
                            /\ Py.drop (S i) (a +:+ "/" +:+ f) = f).
  { induction a as [|c a (i & Hi & Hdrop)].
    - rewrite append_nil_l, append_cons, append_nil_l.
      exists 0%nat. cbn [Os.last_index]. rewrite (last_index_no_slash f Hf).
      split; reflexivity.
    - rewrite append_cons. exists (S i). cbn [Os.last_index]. rewrite Hi.
      split; [reflexivity | exact Hdrop]. }
  destruct Hlast as (i & -> & Hdrop). exact Hdrop.
Qed.

Lemma ends_with_slash_split (a : string) :
  Os.ends_with_slash a = true -> exists a0, a = a0 +:+ "/".
Proof.
  induction a as [|c a IH]; [discriminate|].
  cbn [Os.ends_with_slash]. destruct a as [|c' a'].
  - intros ->%Ascii.eqb_eq. exists EmptyString. reflexivity.
  - intros H. destruct (IH H) as (a0 & ->). exists (String c a0).
    now rewrite append_cons.
Qed.

(** A name without a slash, joined to a directory, is the base name of the
    result. *)
Lemma basename_join (a f : string) :
  Py.contains "/" f = false -> ReadRoutes.basename (Os.join a f) = f.
Proof.
  intros Hf. unfold Os.join.
  assert (Hprefix : String.prefix "/" f = false).
  { destruct f as [|c f]; [reflexivity|].
    rewrite contains_slash_cons in Hf. apply orb_false_elim in Hf as [Hc _].
    cbn [String.prefix]. destruct (ascii_dec "/" c) as [<- | _]; [discriminate | reflexivity]. }
  rewrite Hprefix.
  destruct (String.eqb_spec a EmptyString) as [-> | _]; cbn [orb].
  - rewrite append_nil_l. unfold ReadRoutes.basename.
    now rewrite (last_index_no_slash f Hf).
  - destruct (Os.ends_with_slash a) eqn:Hends.
    + destruct (ends_with_slash_split a Hends) as (a0 & ->).
      rewrite append_assoc. now apply basename_after_slash.
    + now apply basename_after_slash.
Qed.

End UploadPath.

(** X22.  The applicant's name cannot steer an upload out of the job's
    directory.  When an application is accepted and the first eight
    characters of the UUID hold no slash, the resume is written at
    [os.path.join(job_resume_dir, filename)] for a file name that is not
    empty and holds no slash, whatever the name and the uploaded file name
    are; that file name is the base name of the resume path the new row
    records. *)
Theorem upload_stays_in_job_directory {Outside : Type}
        (settings : Settings.t) (utcnow : Outside -> Z * Outside)
        (uuid4 : Outside -> string * Outside) (st : Db.state Outside)
        (job : JobDB.t) (name email : string)
        (phone linkedin_url github_url portfolio_url cover_letter : option string)
        (filename content : string) :
  Routes.keys_unique (Db.db st) ->
  In job (Db.jobs (Db.db st)) ->
  JobDB.status job = "active" ->
  List.existsb (Routes.applied_with (JobDB.id job) email) (Db.candidates (Db.db st))
  = false ->
  List.existsb (String.eqb (Py.lower (snd (Os.splitext filename))))
               Routes.allowed_extensions = true ->
  (Z.of_nat (String.length content) <= Settings.max_file_size_mb settings * 1024 * 1024)%Z ->
  List.existsb (Routes.candidate_with_id (Py.take 8 (fst (uuid4 (Db.world st)))))
               (Db.candidates (Db.db st)) = false ->
  Py.contains "/" (Py.take 8 (fst (uuid4 (Db.world st)))) = false ->
  let st' :=
    snd (Db.serve (Routes.submit_application settings utcnow uuid4 (JobDB.id job) name
                     email phone linkedin_url github_url portfolio_url cover_letter
                     filename content) st) in
  let job_resume_dir := Os.join (Settings.resume_dir settings) (JobDB.id job) in
  exists c stored_name,
    Db.candidates (Db.db st') = (Db.candidates (Db.db st) ++ [c])%list
    /\ CandidateDB.resume_path c = Some (Os.join job_resume_dir stored_name)
    /\ Db.files (Db.fs st') !! Os.join job_resume_dir stored_name = Some content
    /\ stored_name <> EmptyString
    /\ Py.contains "/" stored_name = false
    /\ ReadRoutes.basename (Os.join job_resume_dir stored_name) = stored_name.
Proof.
  intros Hkeys Hjob Hactive Hnew Hext Hsize Hfresh Hid st' job_resume_dir.
  subst st' job_resume_dir.
  destruct (submit_application_accepted settings utcnow uuid4 st job name email phone
              linkedin_url github_url portfolio_url cover_letter filename content
              Hkeys Hjob Hactive Hnew Hext Hsize Hfresh)
    as (payload & resume_path & c & applied_at & updated_at & o & -> & _ & _ & _ & -> & ->).
  cbn [snd Db.db Db.fs Db.files Db.candidates CandidateDB.resume_path].
  set (safe_name := Py.take 50 _).
  set (file_ext := Py.lower _) in *.
  set (candidate_id := Py.take 8 _) in *.
  assert (Hsafe : Py.contains "/" safe_name = false).
  { apply no_slash_take. unfold Py.strip.
    apply no_slash_rstrip, no_slash_lstrip, no_slash_filter. reflexivity. }
  assert (Hname : Py.contains "/" (candidate_id +:+ "_" +:+ safe_name +:+ file_ext) = false).
  { apply no_slash_append; [exact Hid|].
    apply no_slash_append; [reflexivity|].
    apply no_slash_append; [exact Hsafe|].
    now apply no_slash_extension. }
  eexists. exists (candidate_id +:+ "_" +:+ safe_name +:+ file_ext).
  split; [reflexivity|]. split; [reflexivity|].
  split; [apply lookup_insert_eq|].
  split; [apply append_not_empty; discriminate|].
  split; [exact Hname|].
  now apply basename_join.
Qed.

Lemma upload_stays_in_job_directory_witness :
  exists c stored_name,
    Db.candidates
      (Db.db (snd (Db.serve
                     (Routes.submit_application Settings.default Sample.clock Sample.uuid
                        (JobDB.id Sample.job) "../../etc/passwd" "grace@example.com"
                        None None None None None "cv.PDF" "%PDF")
                     Sample.one_application)))
    = [Sample.candidate; c]
    /\ CandidateDB.resume_path c
       = Some (Os.join (Os.join "./data/resumes" "j1") stored_name)
    /\ Py.contains "/" stored_name = false.
Proof.
  destruct (upload_stays_in_job_directory Settings.default Sample.clock Sample.uuid
              Sample.one_application Sample.job "../../etc/passwd" "grace@example.com"
              None None None None None "cv.PDF" "%PDF")
    as (c & stored_name & H1 & H2 & _ & _ & H3 & _).
  - split; apply NoDup_singleton.
  - left. reflexivity.
  - reflexivity.
  - reflexivity.
  - reflexivity.
  - vm_compute. discriminate.
  - reflexivity.
  - reflexivity.
  - exists c, stored_name. split; [exact H1|]. split; [exact H2 | exact H3].
Defined.

(** ** The resume parser *)

Section ParserFacts.
Import Db Routes.

Lemma split_slash_cons (c : ascii) (s : string) :
  Py.split "/" (String c s)
  = if Ascii.eqb c "/" then EmptyString :: Py.split "/" s
    else match Py.split "/" s with
         | [] => [String c EmptyString]
         | l :: ls => String c l :: ls
         end.
Proof.
  unfold Py.split. cbn [Py.split_from String.prefix String.length Nat.pred].
  destruct (ascii_dec "/" c) as [<- | Hne].
  - assert (String.prefix EmptyString s = true) as -> by (destruct s; reflexivity).
    reflexivity.
  - destruct (Ascii.eqb_spec c "/") as [-> | _]; [contradiction | reflexivity].
Qed.

Lemma split_no_slash (f : string) :
  Py.contains "/" f = false -> Py.split "/" f = [f].
Proof.
  induction f as [|c f IH]; [reflexivity|].
  rewrite contains_slash_cons. intros [Hc Hf]%orb_false_elim.
  now rewrite split_slash_cons, Hc, (IH Hf).
Qed.

(** The last piece of a path is what follows its last slash. *)
Lemma split_after_slash (a f : string) :
  Py.contains "/" f = false ->
  exists init, Py.split "/" (a +:+ "/" +:+ f) = (init ++ [f])%list /\ init <> [].
Proof.
  intros Hf. induction a as [|c a (init & Hinit & Hsome)].
  - rewrite append_nil_l, append_cons, append_nil_l, split_slash_cons.
    cbn [Ascii.eqb Bool.eqb]. rewrite (split_no_slash f Hf).
    exists [EmptyString]. split; [reflexivity | discriminate].
  - rewrite append_cons, split_slash_cons, Hinit.
    destruct (Ascii.eqb c "/").
    + exists (EmptyString :: init). split; [reflexivity | discriminate].
    + destruct init as [|l init]; [contradiction|].
      exists (String c l :: init). split; [reflexivity | discriminate].
Qed.

Lemma name_of_pieces (init : list string) (f : string) :
  f <> EmptyString -> f <> "." ->
  List.last
    (List.filter (fun part => negb (String.eqb part EmptyString) && negb (String.eqb part "."))
                 (init ++ [f]))
    EmptyString = f.
Proof.
  intros Hempty Hdot. rewrite List.filter_app. cbn [List.filter].
  destruct (String.eqb_spec f EmptyString) as [|_]; [contradiction|].
  destruct (String.eqb_spec f ".") as [|_]; [contradiction|].
  cbn [negb andb]. apply List.last_last.
Qed.

(** A name without a slash, joined to a directory, is the name of the
    result. *)
Lemma name_join (a f : string) :
  Py.contains "/" f = false -> f <> EmptyString -> f <> "." ->
  ResumeParser.name (Os.join a f) = f.
Proof.
  intros Hf Hempty Hdot. unfold Os.join, ResumeParser.name.
  assert (Hprefix : String.prefix "/" f = false).
  { destruct f as [|c f]; [reflexivity|].
    rewrite contains_slash_cons in Hf. apply orb_false_elim in Hf as [Hc _].
    cbn [String.prefix]. destruct (ascii_dec "/" c) as [<- | _]; [discriminate | reflexivity]. }
  rewrite Hprefix.
  destruct (String.eqb_spec a EmptyString) as [-> | _]; cbn [orb].
  - rewrite append_nil_l, (split_no_slash f Hf).
    now apply (name_of_pieces []).
  - destruct (Os.ends_with_slash a) eqn:Hends.
    + destruct (ends_with_slash_split a Hends) as (a0 & ->).
      rewrite append_assoc.
      destruct (split_after_slash a0 f Hf) as (init & -> & _).
      now apply name_of_pieces.
    + destruct (split_after_slash a f Hf) as (init & -> & _).
      now apply name_of_pieces.
Qed.

Lemma last_index_at (c : ascii) (stem rest : string) :
  Os.last_index c rest = None ->
  Os.last_index c (stem +:+ String c rest) = Some (String.length stem).
Proof.
  intros Hrest. induction stem as [|x stem IH].
  - rewrite append_nil_l. cbn [Os.last_index String.length].
    now rewrite Hrest, Ascii.eqb_refl.
  - rewrite append_cons. cbn [Os.last_index String.length]. now rewrite IH.
Qed.

Lemma drop_length_append (stem rest : string) :
  Py.drop (String.length stem) (stem +:+ rest) = rest.
Proof.
  induction stem as [|x stem IH]; [now destruct rest|].
  rewrite append_cons. exact IH.
Qed.

(** The suffix pathlib reads off a stored resume is the extension
    [os.path.splitext] read off the upload. *)
Lemma suffix_of_stored_name (a stem ext : string) :
  Py.contains "/" stem = false -> stem <> EmptyString ->
  List.existsb (String.eqb ext) allowed_extensions = true ->
  ResumeParser.suffix (Os.join a (stem +:+ ext)) = ext.
Proof.
  intros Hstem Hsome Hext.
  assert (Hcases : exists rest, ext = String "." rest
                                /\ Os.last_index "." rest = None
                                /\ (0 < String.length rest)%nat
                                /\ Py.contains "/" ext = false).
  { unfold allowed_extensions in Hext. cbn [List.existsb] in Hext.
    destruct (String.eqb_spec ext ".pdf") as [-> | _];
      [exists "pdf"; repeat split; cbn; lia|].
    destruct (String.eqb_spec ext ".docx") as [-> | _];
      [exists "docx"; repeat split; cbn; lia|].
    destruct (String.eqb_spec ext ".doc") as [-> | _];
      [exists "doc"; repeat split; cbn; lia | discriminate]. }
  destruct Hcases as (rest & -> & Hrest & Hlen & Hslash).
  unfold ResumeParser.suffix.
  rewrite name_join.
  - rewrite (last_index_at "." stem rest Hrest).
    rewrite length_append. cbn [String.length].
    destruct stem as [|x stem]; [contradiction|].
    cbn [String.length].
    destruct (Nat.ltb_spec 0 (S (String.length stem))); [|lia].
    destruct (Nat.ltb_spec (S (String.length stem))
                (S (String.length stem) + S (String.length rest) - 1)); [|lia].
    cbn [andb]. exact (drop_length_append (String x stem) (String "." rest)).
  - now apply no_slash_append.
  - destruct stem; [contradiction | discriminate].
  - destruct stem as [|x [|y stem]]; [contradiction | discriminate | discriminate].
Qed.

End ParserFacts.

(** X23.  The upload route and the resume parser agree on what a resume
    file is.  For the resume an accepted application stored (the first eight
    characters of the UUID holding no slash), [ResumeParserTool._run] finds
    the file and a supported format: the suffix pathlib reads off the stored
    path is the lower-cased extension [os.path.splitext] read off the upload,
    so that the answer is what the PDF reader (for ".pdf") or the DOCX
    reader (for ".doc" and ".docx") makes of the file, never "File not
    found" or "Unsupported file format". *)
Theorem uploaded_resume_is_parsed {Outside : Type}
        (settings : Settings.t) (utcnow : Outside -> Z * Outside)
        (uuid4 : Outside -> string * Outside)
        (_parse_pdf _parse_docx : Db.filesystem -> string -> outcome string)
        (st : Db.state Outside)
        (job : JobDB.t) (name email : string)
        (phone linkedin_url github_url portfolio_url cover_letter : option string)
        (filename content : string) :
  Routes.keys_unique (Db.db st) ->
  In job (Db.jobs (Db.db st)) ->
  JobDB.status job = "active" ->
  List.existsb (Routes.applied_with (JobDB.id job) email) (Db.candidates (Db.db st))
  = false ->
  List.existsb (String.eqb (Py.lower (snd (Os.splitext filename))))
               Routes.allowed_extensions = true ->
  (Z.of_nat (String.length content) <= Settings.max_file_size_mb settings * 1024 * 1024)%Z ->
  List.existsb (Routes.candidate_with_id (Py.take 8 (fst (uuid4 (Db.world st)))))
               (Db.candidates (Db.db st)) = false ->
  Py.contains "/" (Py.take 8 (fst (uuid4 (Db.world st)))) = false ->
  let st' :=
    snd (Db.serve (Routes.submit_application settings utcnow uuid4 (JobDB.id job) name
                     email phone linkedin_url github_url portfolio_url cover_letter
                     filename content) st) in
  let file_ext := Py.lower (snd (Os.splitext filename)) in
  exists c resume_path,
    Db.candidates (Db.db st') = (Db.candidates (Db.db st) ++ [c])%list
    /\ CandidateDB.resume_path c = Some resume_path
    /\ ResumeParser.suffix resume_path = file_ext
    /\ ResumeParser._run _parse_pdf _parse_docx (Db.fs st') resume_path
       = match (if String.eqb file_ext ".pdf"
                then _parse_pdf (Db.fs st') resume_path
                else _parse_docx (Db.fs st') resume_path) with
         | Return text =>
             if String.eqb (Py.strip text) EmptyString
             then "Error: Could not extract text from resume. File may be empty or corrupted."
             else "RESUME CONTENT:" +:+ newline +:+ text
         | Raise e => "Error parsing resume: " +:+ e
         end.
Proof.
  intros Hkeys Hjob Hactive Hnew Hext Hsize Hfresh Hid st' file_ext.
  subst st' file_ext.
  destruct (submit_application_accepted settings utcnow uuid4 st job name email phone
              linkedin_url github_url portfolio_url cover_letter filename content
              Hkeys Hjob Hactive Hnew Hext Hsize Hfresh)
    as (payload & resume_path & c & applied_at & updated_at & o & -> & _ & _ & _ & -> & ->).
  cbn [snd Db.db Db.fs Db.candidates CandidateDB.resume_path].
  set (safe_name := Py.take 50 _).
  set (file_ext := Py.lower _) in *.
  set (candidate_id := Py.take 8 _) in *.
  assert (Hsafe : Py.contains "/" safe_name = false).
  { apply no_slash_take. unfold Py.strip.
    apply no_slash_rstrip, no_slash_lstrip, no_slash_filter. reflexivity. }
  assert (Hstem : Py.contains "/" (candidate_id +:+ "_" +:+ safe_name) = false).
  { apply no_slash_append; [exact Hid|]. now apply no_slash_append. }
  assert (Hname : candidate_id +:+ "_" +:+ safe_name +:+ file_ext
                  = (candidate_id +:+ "_" +:+ safe_name) +:+ file_ext)
    by (now rewrite !append_assoc).
  rewrite Hname.
  assert (Hsuffix : ResumeParser.suffix
                      (Os.join (Os.join (Settings.resume_dir settings) (JobDB.id job))
                               ((candidate_id +:+ "_" +:+ safe_name) +:+ file_ext))
                    = file_ext).
  { apply suffix_of_stored_name; [exact Hstem | | exact Hext].
    apply append_not_empty. discriminate. }
  eexists. eexists. split; [reflexivity|]. split; [reflexivity|].
  split; [exact Hsuffix|].
  unfold ResumeParser._run. rewrite exists_on_written. cbn [negb].
  rewrite Hsuffix.
  assert (Hlower : Py.lower file_ext = file_ext) by apply lower_idempotent.
  rewrite Hlower.
  destruct (String.eqb file_ext ".pdf") eqn:Hpdf; [reflexivity|].
  assert (Hdoc : List.existsb (String.eqb file_ext) [".doc"; ".docx"] = true).
  { unfold Routes.allowed_extensions in Hext. cbn [List.existsb] in Hext |- *.
    rewrite Hpdf in Hext. cbn [orb] in Hext.
    destruct (String.eqb file_ext ".docx"), (String.eqb file_ext ".doc");
      try reflexivity; discriminate Hext. }
  rewrite Hdoc. reflexivity.
Qed.

Lemma uploaded_resume_is_parsed_witness :
  exists c resume_path,
    Db.candidates
      (Db.db (snd (Db.serve
                     (Routes.submit_application Settings.default Sample.clock Sample.uuid
                        (JobDB.id Sample.job) "Grace" "grace@example.com"
                        None None None None None "cv.final.DOCX" "PK")
                     Sample.one_application)))
    = [Sample.candidate; c]
    /\ CandidateDB.resume_path c = Some resume_path
    /\ ResumeParser.suffix resume_path = ".docx".
Proof.
  destruct (uploaded_resume_is_parsed Settings.default Sample.clock Sample.uuid
              (fun _ _ => Raise "not a PDF") (fun _ _ => Return "Grace, engineer")
              Sample.one_application Sample.job "Grace" "grace@example.com"
              None None None None None "cv.final.DOCX" "PK")
    as (c & resume_path & H1 & H2 & H3 & _).
  - split; apply NoDup_singleton.
  - left. reflexivity.
  - reflexivity.
  - reflexivity.
  - reflexivity.
  - vm_compute. discriminate.
  - reflexivity.
  - reflexivity.
  - exists c, resume_path. split; [exact H1|]. split; [exact H2 | exact H3].
Defined.

Section MissingResume.
Import Db Routes.
Context {Outside : Type}.

(** What the agents are asked by a quick screening made from a handler. *)
Lemma quick_screen_in_world
      (kickoff : Outside -> ScreeningCrew.crew_request -> outcome string * Outside)
      (resume_text : string) (job_requirements : list ScreeningCrew.requirement)
      (job_description : string) (min_exp : Z) (s : session Outside) :
  exists d score requirements_list,
    in_world (fun w => ScreeningCrew.quick_screen_candidate World (kickoff_in kickoff) w
                         resume_text job_requirements job_description min_exp) s
    = (Done d,
       {| committed := committed s; working := working s; disk := disk s;
          background := background s;
          outside := snd (kickoff (outside s)
                            (ScreeningCrew.QuickScreening (Py.take 4000 resume_text)
                               requirements_list min_exp)) |})
    /\ d !! "match_score" = Some (PInt score).
Proof.
  unfold in_world, ScreeningCrew.quick_screen_candidate, ScreeningCrew.run_crew, kickoff_in.
  cbn [fst snd].
  match goal with
  | |- context [kickoff (outside s) (ScreeningCrew.QuickScreening _ ?l _)] =>
      set (requirements_list := l)
  end.
  destruct (kickoff (outside s) _) as [[result_str|e] o] eqn:Hanswer; cbn [fst snd].
  - unfold ScreeningCrew.completed.
    destruct (ScreeningCrew.extract_score_from_result result_str) as [n|e].
    + eexists _, n, requirements_list. rewrite Hanswer. split; reflexivity.
    + eexists _, 50%Z, requirements_list. rewrite Hanswer. split; reflexivity.
  - eexists _, 50%Z, requirements_list. rewrite Hanswer. split; reflexivity.
Qed.

End MissingResume.

(** X24.  A resume file that is gone does not fail a re-screening.  With
    [ResumeParserTool._run] as the parser, for a candidate whose resume path
    names no file on the disk, [rescreen_candidate] hands the parser's
    message "Error: File not found at ..." on as the resume text: when the
    analyser returns, the agents are asked to screen that message, the
    answer is "Candidate re-screened successfully" and the candidate's row
    gets the status its score leads to. *)
Theorem missing_resume_is_screened_as_text {Outside : Type}
        (settings : Settings.t)
        (kickoff : Outside -> ScreeningCrew.crew_request -> outcome string * Outside)
        (utcnow : Outside -> Z * Outside)
        (_parse_pdf _parse_docx : Db.filesystem -> string -> outcome string)
        (analyzer_run : string -> outcome string)
        (st : Db.state Outside) (c : CandidateDB.t) (job : JobDB.t)
        (resume_path analysis : string) :
  Routes.keys_unique (Db.db st) ->
  In c (Db.candidates (Db.db st)) ->
  In job (Db.jobs (Db.db st)) ->
  JobDB.id job = CandidateDB.job_id c ->
  CandidateDB.resume_path c = Some resume_path ->
  resume_path <> EmptyString ->
  Db.exists_on (Db.fs st) resume_path = false ->
  analyzer_run ("Error: File not found at " +:+ resume_path) = Return analysis ->
  let served :=
    Db.serve (Routes.rescreen_candidate settings kickoff utcnow
                (ResumeParser.parser_run _parse_pdf _parse_docx) analyzer_run
                (CandidateDB.id c)) st in
  exists payload score requirements_list,
    fst served = Db.Done payload
    /\ payload !! "message" = Some (PStr "Candidate re-screened successfully")
    /\ payload !! "match_score" = Some (PInt score)
    /\ payload !! "status" = Some (PStr (Frame.verdict settings score))
    /\ Db.world (snd served)
       = snd (utcnow
                (snd (kickoff (Db.world st)
                        (ScreeningCrew.QuickScreening
                           (Py.take 4000 ("Error: File not found at " +:+ resume_path))
                           requirements_list
                           (default 0%Z (JobDB.min_experience_years job))))))
    /\ forall c', In c' (Db.candidates (Db.db (snd served))) ->
                  CandidateDB.id c' = CandidateDB.id c ->
                  CandidateDB.match_score c' = Some (PInt score)
                  /\ CandidateDB.status c' = Frame.verdict settings score.
Proof.
  intros [Hjobs Hcands] Hc Hjob Hid Hpath Hnonempty Hmissing Hanalyse served. subst served.
  pose proof (filter_key_unique CandidateDB.id _ c Hcands Hc) as Hrow.
  pose proof (filter_key_unique JobDB.id _ job Hjobs Hjob) as Hposting.
  rewrite Hid in Hposting.
  destruct st as [store files0 tasks outside0]. cbn [Db.db Db.fs Db.world] in *.
  unfold Db.serve, Routes.rescreen_candidate. run.
  unfold Routes.candidate_with_id, Routes.job_with_id.
  rewrite Hrow. run. rewrite Hposting. run. rewrite Hpath.
  destruct (String.eqb_spec resume_path EmptyString) as [He|_]; [contradiction|].
  rewrite run_try_except. run.
  unfold ResumeParser.parser_run, ResumeParser._run. rewrite Hmissing.
  cbn [negb Routes.lift]. run. rewrite Hanalyse. cbn [Routes.lift]. run.
  match goal with
  | |- context [Routes.in_world _ ?s0] =>
      destruct (quick_screen_in_world kickoff ("Error: File not found at " +:+ resume_path)
                  (default [] (JobDB.requirements job))
                  (default EmptyString (JobDB.description job))
                  (default 0%Z (JobDB.min_experience_years job)) s0)
        as (d & score & requirements_list & -> & Hscore)
  end.
  run. rewrite run_ask. run.
  assert (Hget : get d "match_score" (PInt 0) = PInt score)
    by (unfold get; now rewrite Hscore).
  rewrite !Hget. cbn [Py.ge Routes.lift]. run.
  rewrite update_twice by reflexivity.
  exists (dict_of
            [ ("candidate_id", PStr (CandidateDB.id c));
              ("match_score", PInt score);
              ("skills_extracted",
                PInt (Z.of_nat (List.length (Routes.extracted_skills_of analysis))));
              ("skills", PList (Routes.extracted_skills_of analysis));
              ("status", PStr (if (Settings.min_match_score settings <=? score)%Z
                               then "shortlisted" else "rejected"));
              ("recommendation", get d "recommendation" (PStr "review"));
              ("message", PStr "Candidate re-screened successfully") ]), score,
    requirements_list.
  cbn [fst snd Db.db Db.world Db.update_candidates Db.candidates].
  split; [reflexivity|]. split; [reflexivity|]. split; [reflexivity|].
  split; [reflexivity|]. split; [reflexivity|].
  intros c' Hin Hid'. apply List.in_map_iff in Hin as (c0 & <- & _).
  destruct (String.eqb_spec (CandidateDB.id c0) (CandidateDB.id c)) as [_|Hne];
    [split; reflexivity | contradiction].
Qed.

Lemma missing_resume_is_screened_as_text_witness :
  exists payload score,
    fst (Db.serve (Routes.rescreen_candidate Settings.default
                     (Sample.answering "No hire: the text is not a resume") Sample.clock
                     (ResumeParser.parser_run (fun _ _ => Return "text")
                        (fun _ _ => Return "text"))
                     (fun _ => Return "No skills found") "c1")
                  {| Db.db := Db.db Sample.one_application;
                     Db.fs := {| Db.dirs := ∅; Db.files := ∅ |};
                     Db.queue := []; Db.world := tt |}) = Db.Done payload
    /\ payload !! "message" = Some (PStr "Candidate re-screened successfully")
    /\ payload !! "match_score" = Some (PInt score).
Proof.
  destruct (missing_resume_is_screened_as_text Settings.default
              (Sample.answering "No hire: the text is not a resume") Sample.clock
              (fun _ _ => Return "text") (fun _ _ => Return "text")
              (fun _ => Return "No skills found")
              {| Db.db := Db.db Sample.one_application;
                 Db.fs := {| Db.dirs := ∅; Db.files := ∅ |};
                 Db.queue := []; Db.world := tt |}
              Sample.candidate Sample.job "./data/resumes/j1/c1_Ada.pdf" "No skills found")
    as (payload & score & _ & H1 & H2 & H3 & _).
  - split; apply NoDup_singleton.
  - left. reflexivity.
  - left. reflexivity.
  - reflexivity.
  - reflexivity.
  - discriminate.
  - vm_compute. reflexivity.
  - reflexivity.
  - exists payload, score. split; [exact H1|]. split; [exact H2 | exact H3].
Defined.

(** ** Invitations and the mail service *)

(** X25.  [send_interview_invitation] over [send_interview_invite], for a
    candidate and a job that are there.  Without an API key the handler
    raises HTTP 500 "Failed to send email: Email service not configured" and
    nothing changes, Resend not being called.  When Resend raises and its
    message speaks of test mode ("verify a domain"), no mail has gone out,
    yet the handler answers with a preview and the candidate's row gets the
    status "interview_scheduled".  When Resend raises anything else, the
    handler raises HTTP 500 with that message and no row changes. *)
Theorem undelivered_invitation {Outside : Type}
        (utcnow : Outside -> Z * Outside)
        (email_from : string)
        (resend_send : Outside -> EmailService.invitation -> outcome dict * Outside)
        (st : Db.state Outside) (c : CandidateDB.t) (job : JobDB.t)
        (interview_date interview_link : option string) :
  Routes.keys_unique (Db.db st) ->
  In c (Db.candidates (Db.db st)) ->
  In job (Db.jobs (Db.db st)) ->
  JobDB.id job = CandidateDB.job_id c ->
  let served key :=
    Db.serve (Routes.send_interview_invitation utcnow
                (EmailService.send_interview_invite key email_from resend_send)
                (CandidateDB.id c) interview_date interview_link) st in
  (forall key, key = None \/ key = Some EmptyString ->
               served key
               = (Db.HTTPException 500 "Failed to send email: Email service not configured",
                  st))
  /\ (forall key error_msg,
         key <> EmptyString ->
         (forall request, fst (resend_send (Db.world st) request) = Raise error_msg) ->
         if Py.contains "testing emails to your own email" error_msg
            || Py.contains "verify a domain" error_msg
         then
           exists payload,
             fst (served (Some key)) = Db.Done payload
             /\ payload !! "test_mode" = Some (PBool true)
             /\ payload !! "message"
                = Some (PStr "Interview invite preview generated (Resend in test mode)")
             /\ forall c', In c' (Db.candidates (Db.db (snd (served (Some key))))) ->
                           CandidateDB.id c' = CandidateDB.id c ->
                           CandidateDB.status c' = "interview_scheduled"
         else
           fst (served (Some key))
           = Db.HTTPException 500 ("Failed to send email: " +:+ error_msg)
           /\ Db.db (snd (served (Some key))) = Db.db st).
Proof.
  intros [Hjobs Hcands] Hc Hjob Hid served. subst served.
  pose proof (filter_key_unique CandidateDB.id _ c Hcands Hc) as Hrow.
  pose proof (filter_key_unique JobDB.id _ job Hjobs Hjob) as Hposting.
  rewrite Hid in Hposting.
  destruct st as [store files0 tasks outside0]. cbn [Db.db Db.world] in *.
  split.
  - intros key Hkey.
    unfold Db.serve, Routes.send_interview_invitation. run.
    unfold Routes.candidate_with_id, Routes.job_with_id.
    rewrite Hrow. run. rewrite Hposting. run. rewrite run_ask. run.
    unfold EmailService.send_interview_invite, EmailService.init_resend.
    destruct Hkey as [-> | ->]; cbn [negb String.eqb fst snd]; reflexivity.
  - intros key error_msg Hkey Hraises.
    unfold Db.serve, Routes.send_interview_invitation. run.
    unfold Routes.candidate_with_id, Routes.job_with_id.
    rewrite Hrow. run. rewrite Hposting. run. rewrite run_ask. run.
    unfold EmailService.send_interview_invite, EmailService.init_resend.
    destruct (String.eqb_spec key EmptyString) as [|_]; [contradiction|].
    cbn [negb].
    match goal with
    | |- context [resend_send outside0 ?request] =>
        specialize (Hraises request);
        destruct (resend_send outside0 request) as [r o]
    end.
    cbn [fst] in Hraises. subst r.
    destruct (Py.contains "testing emails to your own email" error_msg
              || Py.contains "verify a domain" error_msg); cbn [fst snd].
    + change (Py.truthy (get (dict_of _) "success" PNone)) with false. cbv iota.
      change (Py.truthy (get (dict_of _) "preview" PNone)) with true. cbv iota.
      unfold Routes.mark_interview_scheduled. run. rewrite run_ask. run.
      eexists. split; [reflexivity|]. split; [reflexivity|]. split; [reflexivity|].
      cbn [Db.update_candidates Db.candidates].
      intros c' Hin Hid'. apply List.in_map_iff in Hin as (c0 & <- & _).
      destruct (String.eqb_spec (CandidateDB.id c0) (CandidateDB.id c)) as [_|Hne];
        [reflexivity | contradiction].
    + change (Py.truthy (get (dict_of _) "success" PNone)) with false. cbv iota.
      change (Py.truthy (get (dict_of _) "preview" PNone)) with false. cbv iota.
      run. split; reflexivity.
Qed.

Lemma undelivered_invitation_witness :
  Db.serve (Routes.send_interview_invitation Sample.clock
              (EmailService.send_interview_invite None "recruiter@example.com"
                 (fun o _ => (Raise "unreachable", o)))
              "c1" None None) Sample.one_application
  = (Db.HTTPException 500 "Failed to send email: Email service not configured",
     Sample.one_application).
Proof.
  destruct (undelivered_invitation Sample.clock "recruiter@example.com"
              (fun (o : unit) (_ : EmailService.invitation) => (Raise "unreachable", o))
              Sample.one_application Sample.candidate Sample.job None None)
    as (Hnone & _).
  - split; apply NoDup_singleton.
  - left. reflexivity.
  - left. reflexivity.
  - reflexivity.
  - apply Hnone. now left.
Defined.

(** ** The assessment mail and the crew's brief *)

(** X26.  [send_assessment_email] changes no row, no file and no task,
    whatever the mail service answers.  For a candidate and a job that are
    there: a candidate without a score is refused with HTTP 400 "Candidate
    has not been screened yet" and the mail service is not called; for a
    candidate with a score the service is called once, with the email, the
    name, the score, the status and the assessment the row holds and the
    title of the job. *)
Theorem assessment_mail_reads_the_row {Outside : Type}
        (send_screening_result :
           Outside -> string -> string -> string -> pyval -> string -> option pyval
           -> dict * Outside)
        (st : Db.state Outside) (candidate_id : string) :
  let served :=
    Db.serve (Assessment.send_assessment_email send_screening_result candidate_id) st in
  Db.db (snd served) = Db.db st
  /\ Db.fs (snd served) = Db.fs st
  /\ Db.queue (snd served) = Db.queue st
  /\ forall c job,
       Routes.keys_unique (Db.db st) ->
       In c (Db.candidates (Db.db st)) ->
       CandidateDB.id c = candidate_id ->
       In job (Db.jobs (Db.db st)) ->
       JobDB.id job = CandidateDB.job_id c ->
       match CandidateDB.match_score c with
       | None =>
           served = (Db.HTTPException 400 "Candidate has not been screened yet", st)
       | Some match_score =>
           Db.world (snd served)
           = snd (send_screening_result (Db.world st) (CandidateDB.email c)
                    (CandidateDB.name c) (JobDB.title job) match_score
                    (CandidateDB.status c) (CandidateDB.ai_assessment c))
       end.
Proof.
  intros served. subst served.
  destruct st as [store files0 tasks outside0]. cbn [Db.db Db.fs Db.queue Db.world].
  assert (Hframe :
            let served := Db.serve (Assessment.send_assessment_email send_screening_result
                                      candidate_id)
                            {| Db.db := store; Db.fs := files0; Db.queue := tasks;
                               Db.world := outside0 |} in
            Db.db (snd served) = store /\ Db.fs (snd served) = files0
            /\ Db.queue (snd served) = tasks).
  { unfold Db.serve, Assessment.send_assessment_email. run.
    destruct (List.filter (Routes.candidate_with_id candidate_id) (Db.candidates store))
      as [|c [|c2 rows]]; run; auto.
    destruct (List.filter (Routes.job_with_id (CandidateDB.job_id c)) (Db.jobs store))
      as [|job [|j2 rest]]; run; auto.
    destruct (CandidateDB.match_score c) as [score|]; run; auto.
    rewrite run_ask. run.
    destruct (Py.truthy (get _ "success" PNone)); run; auto.
    destruct (Py.truthy (get _ "preview" PNone)); run; auto. }
  destruct Hframe as (Hdb & Hfs & Hqueue).
  split; [exact Hdb|]. split; [exact Hfs|]. split; [exact Hqueue|].
  intros c job [Hjobs Hcands] Hc <- Hjob Hid.
  pose proof (filter_key_unique CandidateDB.id _ c Hcands Hc) as Hrow.
  pose proof (filter_key_unique JobDB.id _ job Hjobs Hjob) as Hposting.
  rewrite Hid in Hposting.
  unfold Db.serve, Assessment.send_assessment_email. run.
  unfold Routes.candidate_with_id, Routes.job_with_id.
  rewrite Hrow. run. rewrite Hposting. run.
  destruct (CandidateDB.match_score c) as [score|]; run; [|reflexivity].
  rewrite run_ask. run.
  destruct (Py.truthy (get _ "success" PNone)); run; [reflexivity|].
  destruct (Py.truthy (get _ "preview" PNone)); run; reflexivity.
Qed.

Lemma assessment_mail_reads_the_row_witness :
  Db.serve (Assessment.send_assessment_email
              (fun (o : unit) _ _ _ _ _ _ => (dict_of [ ("success", PBool true) ], o)) "c1")
           Sample.one_application
  = (Db.HTTPException 400 "Candidate has not been screened yet", Sample.one_application).
Proof.
  destruct (assessment_mail_reads_the_row
              (fun (o : unit) _ _ _ _ _ _ => (dict_of [ ("success", PBool true) ], o))
              Sample.one_application "c1") as (_ & _ & _ & Hrow).
  apply (Hrow Sample.candidate Sample.job).
  - split; apply NoDup_singleton.
  - left. reflexivity.
  - reflexivity.
  - left. reflexivity.
  - reflexivity.
Defined.

Section BriefFacts.

Lemma run_crew_world
      (World : Type) (kickoff : World -> ScreeningCrew.crew_request -> outcome string * World)
      (w : World) (request : ScreeningCrew.crew_request) (score_on_error : Z) :
  snd (ScreeningCrew.run_crew World kickoff w request score_on_error)
  = snd (kickoff w request).
Proof.
  unfold ScreeningCrew.run_crew.
  destruct (kickoff w request) as [[result_str|e] w']; cbn [snd]; [|reflexivity].
  destruct (ScreeningCrew.completed result_str); reflexivity.
Qed.

(** The requirements made up from a vocabulary and a job description. *)
Lemma derived_requirements (vocabulary : list string) (job_description : string)
      (level : option string) (r : ScreeningCrew.requirement) :
  In r (List.map (fun s => {| ScreeningCrew.skill := Py.title s;
                              ScreeningCrew.level := level;
                              ScreeningCrew.required := true |})
                 (List.firstn 10 (ScreeningCrew.found_skills vocabulary job_description))) ->
  ScreeningCrew.required r = true
  /\ ScreeningCrew.level r = level
  /\ exists word,
       In word vocabulary
       /\ Py.contains word (Py.lower job_description) = true
       /\ ScreeningCrew.skill r = Py.title word.
Proof.
  intros Hr. apply List.in_map_iff in Hr as (word & <- & Hword).
  split; [reflexivity|]. split; [reflexivity|].
  exists word. apply firstn_in in Hword.
  unfold ScreeningCrew.found_skills in Hword.
  apply List.filter_In in Hword as [Hin Hfound].
  split; [exact Hin|]. split; [exact Hfound | reflexivity].
Qed.

End BriefFacts.

(** X27.  What the agents are given to go by.  When the resume file
    exists, [screen_candidate] puts one request to the crew.  With
    requirements at hand it passes them on as they are.  With none, it
    passes at most ten requirements of its own making: each is required, of
    level "intermediate", and names, in title case, a skill of the fixed
    vocabulary that occurs in the lower-cased job description, as a word or
    inside one: a description that mentions Django asks for Go as well. *)
Theorem screening_brief
        (World : Type) (path_exists : World -> string -> bool)
        (kickoff : World -> ScreeningCrew.crew_request -> outcome string * World)
        (w : World) (resume_path : string)
        (job_requirements : list ScreeningCrew.requirement) (job_description : string)
        (min_experience_years : Z) (experience_level : string) :
  path_exists w resume_path = true ->
  exists given,
    snd (ScreeningCrew.screen_candidate World path_exists kickoff w resume_path
           job_requirements job_description min_experience_years experience_level)
    = snd (kickoff w (ScreeningCrew.FullScreening resume_path given job_description
                        min_experience_years experience_level))
    /\ (job_requirements <> [] -> given = job_requirements)
    /\ (job_requirements = [] ->
        (List.length given <= 10)%nat
        /\ forall r, In r given ->
                     ScreeningCrew.required r = true
                     /\ ScreeningCrew.level r = Some "intermediate"
                     /\ exists word,
                          In word ScreeningCrew.common_skills_full
                          /\ Py.contains word (Py.lower job_description) = true
                          /\ ScreeningCrew.skill r = Py.title word).
Proof.
  intros Hexists. unfold ScreeningCrew.screen_candidate. rewrite Hexists. cbn [negb].
  match goal with
  | |- context [ScreeningCrew.FullScreening _ ?l _ _ _] => exists l
  end.
  split; [apply run_crew_world|]. split.
  - destruct job_requirements; [contradiction | reflexivity].
  - intros ->. split.
    + rewrite List.length_map. apply List.firstn_le_length.
    + intros r Hr. now apply derived_requirements in Hr.
Qed.

Lemma screening_brief_witness :
  exists given,
    snd (ScreeningCrew.screen_candidate (list ScreeningCrew.crew_request) (fun _ _ => true)
           (fun w request => (Return "MATCH_SCORE: 72", request :: w)) [] "cv.pdf"
           [] "We use Python, Django and SQL" 3%Z "mid")
    = [ ScreeningCrew.FullScreening "cv.pdf" given "We use Python, Django and SQL" 3%Z "mid" ]
    /\ List.map ScreeningCrew.skill given = [ "Python"; "Go"; "Django"; "Sql" ].
Proof.
  destruct (screening_brief (list ScreeningCrew.crew_request) (fun _ _ => true)
              (fun w request => (Return "MATCH_SCORE: 72", request :: w)) [] "cv.pdf"
              [] "We use Python, Django and SQL" 3%Z "mid")
    as (given & Hgiven & _ & _).
  - reflexivity.
  - exists given. split; [exact Hgiven|].
    cbn [snd] in Hgiven. vm_compute in Hgiven. injection Hgiven as <-.
    reflexivity.
Defined.
